(** * Projet_agricole: the data manager and the dashboard, verified

    A shallow embedding of [src/data_manager.py] (class
    [AgriculturalDataManager]) and [src/dashboard.py] (class
    [AgriculturalDashboard] and the browser-side selection callbacks).

    - Python floats are IEEE binary64 numbers: they are the kernel's
      primitive [float], so arithmetic rounds as it does in Python.
    - A pandas table is a header (column names with their dtype) over rows
      of cells; a missing value is [NA] or a [Num] holding a NaN.
    - A method that mutates [self] or an argument is a function of the
      world it runs in; an exception leaves the world as it was when it was
      raised, so a mutation made before a [raise] stays visible. *)

From Stdlib Require Import ZArith List String Bool Lia Permutation Sorted.
From Stdlib Require Import Floats.
Import ListNotations.

#[local] Set Warnings "-inexact-float".
#[local] Open Scope string_scope.
#[local] Open Scope Z_scope.
#[local] Open Scope list_scope.

(** ** Python: exceptions and results *)

Module Py.

(** The exception classes the two files raise or receive from pandas and
    scikit-learn.  All of them derive from [Exception]. *)
Inductive exn : Type :=
| KeyError (msg : string)
| ValueError (msg : string)
| TypeError (msg : string)
| AttributeError (msg : string)
| OSError (msg : string).

Inductive result (A : Type) : Type :=
| Ok (a : A)
| Raise (e : exn).
Arguments Ok {A} a.
Arguments Raise {A} e.

Definition is_ok {A} (r : result A) : bool :=
  match r with Ok _ => true | Raise _ => false end.

(** Stateful code that may raise: the world is returned in both cases. *)
Definition M (W A : Type) : Type := W -> W * result A.

Definition ret {W A} (a : A) : M W A := fun w => (w, Ok a).
Definition raise {W A} (e : exn) : M W A := fun w => (w, Raise e).
Definition bind {W A B} (m : M W A) (k : A -> M W B) : M W B :=
  fun w => match m w with
           | (w', Ok a) => k a w'
           | (w', Raise e) => (w', Raise e)
           end.
(** [try: m  except Exception as e: h e] *)
Definition try_except {W A} (m : M W A) (h : exn -> M W A) : M W A :=
  fun w => match m w with
           | (w', Ok a) => (w', Ok a)
           | (w', Raise e) => h e w'
           end.
Definition lift {W A} (r : result A) : M W A := fun w => (w, r).
Definition get {W} : M W W := fun w => (w, Ok w).
Definition modify {W} (f : W -> W) : M W unit := fun w => (f w, Ok tt).

(** The same sequencing for code without state. *)
Definition rbind {A B} (r : result A) (k : A -> result B) : result B :=
  match r with Ok a => k a | Raise e => Raise e end.

End Py.
Import Py.

Declare Scope py_scope.
Delimit Scope py_scope with py.
Notation "x <- m ;; k" := (Py.bind m (fun x => k))
  (at level 100, m at next level, right associativity) : py_scope.
Notation "m ;; k" := (Py.bind m (fun _ => k))
  (at level 100, right associativity) : py_scope.
Notation "'let?' x := r 'in' k" := (Py.rbind r (fun x => k))
  (at level 100, x pattern, r at next level, right associativity).

(** ** Calendar: timestamps and month ends *)

Module Calendar.

(** A timestamp counts nanoseconds since 1970-01-01T00:00, as pandas'
    [datetime64[ns]] does. *)
Definition ns_per_day : Z := 86400 * 1000000000.

Definition day_of (t : Z) : Z := t / ns_per_day.

(** The proleptic Gregorian date of a day number, as (year, month, day). *)
Definition civil_from_days (z : Z) : Z * Z * Z :=
  let z := z + 719468 in
  let era := z / 146097 in
  let doe := z - era * 146097 in
  let yoe := (doe - doe / 1460 + doe / 36524 - doe / 146096) / 365 in
  let doy := doe - (365 * yoe + yoe / 4 - yoe / 100) in
  let mp := (5 * doy + 2) / 153 in
  let d := doy - (153 * mp + 2) / 5 + 1 in
  let m := if mp <? 10 then mp + 3 else mp - 9 in
  let y := yoe + era * 400 in
  (if m <=? 2 then y + 1 else y, m, d).

Definition days_from_civil (y m d : Z) : Z :=
  let y := if m <=? 2 then y - 1 else y in
  let era := y / 400 in
  let yoe := y - era * 400 in
  let doy := (153 * (if 2 <? m then m - 3 else m + 9) + 2) / 5 + d - 1 in
  let doe := yoe * 365 + yoe / 4 - yoe / 100 + doy in
  era * 146097 + doe - 719468.

(** Months are numbered from year 0: [12 * year + (month - 1)]. *)
Definition month_of (t : Z) : Z :=
  let '(y, m, _) := civil_from_days (day_of t) in 12 * y + (m - 1).

(** The label of the bin of freq ['M']: midnight of the month's last day. *)
Definition month_end_of_month (k : Z) : Z :=
  let k' := k + 1 in
  (days_from_civil (k' / 12) (k' mod 12 + 1) 1 - 1) * ns_per_day.

Definition month_end (t : Z) : Z := month_end_of_month (month_of t).

End Calendar.

(** ** pandas: tables *)

Module Pandas.

Inductive dtype : Type := Float64 | Object | Datetime64.

Definition dtype_eqb (a b : dtype) : bool :=
  match a, b with
  | Float64, Float64 | Object, Object | Datetime64, Datetime64 => true
  | _, _ => false
  end.

(** [np.number] *)
Definition is_number (d : dtype) : bool := dtype_eqb d Float64.

Inductive cell : Type :=
| NA
| Num (x : float)
| Str (s : string)
| Date (t : Z).

(** [pd.isna]: [None], [NaT] and the float NaN are missing values. *)
Definition isna (c : cell) : bool :=
  match c with
  | NA => true
  | Num x => PrimFloat.is_nan x
  | _ => false
  end.

(** Key equality in a merge: missing keys match each other. *)
Definition cell_eqb (a b : cell) : bool :=
  match a, b with
  | Num x, Num y => PrimFloat.eqb x y || (PrimFloat.is_nan x && PrimFloat.is_nan y)
  | Str s, Str t => String.eqb s t
  | Date s, Date t => Z.eqb s t
  | NA, NA => true
  | NA, Num y => PrimFloat.is_nan y
  | Num x, NA => PrimFloat.is_nan x
  | _, _ => false
  end.

(** The order [sort_values] and the sorted group keys use; missing values
    come last. *)
Definition cell_leb (a b : cell) : bool :=
  match a, b with
  | _, NA => true
  | NA, _ => isna b
  | Num x, Num y => PrimFloat.leb x y || PrimFloat.is_nan y
  | Str s, Str t => String.leb s t
  | Date s, Date t => Z.leb s t
  | Num _, _ => true
  | _, Num y => PrimFloat.is_nan y
  | Date _, Str _ => true
  | Str _, Date _ => false
  end.

Record row : Type := mkRow { label : cell; values : list cell }.

(** [index = None] is the default [RangeIndex]; the labels of its rows are
    positions and are not kept ([label] is [NA]). *)
Record DataFrame : Type := mkDF {
  index : option (string * dtype);
  columns : list (string * dtype);
  rows : list row
}.

Definition names (df : DataFrame) : list string := map fst (columns df).

(** ['c' in df.columns] *)
Definition has_column (df : DataFrame) (c : string) : bool :=
  existsb (String.eqb c) (names df).

Fixpoint position (c : string) (l : list string) : option nat :=
  match l with
  | [] => None
  | x :: l' => if String.eqb c x then Some O
               else option_map S (position c l')
  end.

Definition cell_at (n : nat) (r : row) : cell := nth n (values r) NA.

Definition key_error {A} (c : string) : result A := Raise (KeyError c).

(** [df[c]]: the dtype and the cells of the column, or [KeyError]. *)
Definition getitem (df : DataFrame) (c : string) : result (dtype * list cell) :=
  match position c (names df) with
  | Some n => Ok (nth n (map snd (columns df)) Object, map (cell_at n) (rows df))
  | None => key_error c
  end.

Fixpoint set_nth {A} (n : nat) (a : A) (l : list A) : list A :=
  match l, n with
  | [], _ => []
  | _ :: l', O => a :: l'
  | x :: l', S n' => x :: set_nth n' a l'
  end.

(** [df[c] = s] for a series [s] computed from [df] itself: the column is
    replaced where it stands, or appended when [c] is new. *)
Definition setitem (df : DataFrame) (c : string) (d : dtype) (s : list cell)
  : DataFrame :=
  match position c (names df) with
  | Some n =>
      mkDF (index df) (set_nth n (c, d) (columns df))
           (map (fun rc => mkRow (label (fst rc))
                                 (set_nth n (snd rc) (values (fst rc))))
                (combine (rows df) s))
  | None =>
      mkDF (index df) (columns df ++ [(c, d)])
           (map (fun rc => mkRow (label (fst rc)) (values (fst rc) ++ [snd rc]))
                (combine (rows df) s))
  end.

Fixpoint positions (cs : list string) (l : list string) : result (list nat) :=
  match cs with
  | [] => Ok []
  | c :: cs' =>
      match position c l with
      | Some n => let? ns := positions cs' l in Ok (n :: ns)
      | None => key_error c
      end
  end.

(** The invariant of a table: every row has one cell per column. *)
Definition wf (df : DataFrame) : Prop :=
  Forall (fun r => List.length (values r) = List.length (columns df)) (rows df).

Definition wfb (df : DataFrame) : bool :=
  forallb (fun r => Nat.eqb (List.length (values r)) (List.length (columns df))) (rows df).

(** [df[[c1, ..., ck]]]: a new table with these columns in this order. *)
Definition select (df : DataFrame) (cs : list string) : result DataFrame :=
  let? ns := positions cs (names df) in
  Ok (mkDF (index df)
           (map (fun n => nth n (columns df) ("", Object)) ns)
           (map (fun r => mkRow (label r) (map (fun n => cell_at n r) ns))
                (rows df))).

End Pandas.
Import Pandas.

(** ** binary64 helpers *)

Module Float64.

#[local] Open Scope float_scope.

(** The integer part of a finite float, rounded toward zero; [None] for NaN
    and the infinities. *)
Definition to_Z (x : float) : option Z :=
  match Prim2SF x with
  | S754_zero _ => Some 0%Z
  | S754_finite s m e =>
      let n := if s then Z.neg m else Z.pos m in
      Some (if (0 <=? e)%Z then n * 2 ^ e else Z.quot n (2 ^ (- e)))%Z
  | _ => None
  end.

(** The float nearest to an integer below 2^63 in magnitude. *)
Definition of_Z (z : Z) : float :=
  if (z <? 0)%Z then - PrimFloat.of_uint63 (Uint63.of_Z (- z))
  else PrimFloat.of_uint63 (Uint63.of_Z z).

(** C's [floor]. *)
Definition floor (x : float) : float :=
  match Prim2SF x with
  | S754_finite s m e =>
      if (0 <=? e)%Z then x
      else let n := ((if s then Z.neg m else Z.pos m) / 2 ^ (- e))%Z in
           if (n =? 0)%Z then PrimFloat.zero else of_Z n
  | _ => x
  end.

(** C's [fmod]: the exact remainder of [a / b] truncated toward zero, with
    the sign of [a]. *)
Definition fmod (a b : float) : float :=
  match Prim2SF a, Prim2SF b with
  | S754_nan, _ | _, S754_nan => PrimFloat.nan
  | S754_infinity _, _ | _, S754_zero _ => PrimFloat.nan
  | _, S754_infinity _ | S754_zero _, _ => a
  | S754_finite sa ma ea, S754_finite _ mb eb =>
      let e := Z.min ea eb in
      let r := ((Z.pos ma * 2 ^ (ea - e)) mod (Z.pos mb * 2 ^ (eb - e)))%Z in
      let f := Z.ldexp (of_Z r) e in
      if sa then - f else f
  end.

Definition copysign (x y : float) : float :=
  if PrimFloat.get_sign y then - PrimFloat.abs x else PrimFloat.abs x.

(** [np.floor_divide] on float64 (NumPy's [npy_floor_divide], which is also
    what [//] does on a float column). *)
Definition floor_divide (a b : float) : float :=
  if PrimFloat.is_nan b || PrimFloat.is_zero b then a / b
  else
    let mod_ := fmod a b in
    let div := (a - mod_) / b in
    let div :=
      if negb (PrimFloat.is_zero mod_) && negb (PrimFloat.is_nan mod_)
         && negb (Bool.eqb (b <? 0) (mod_ <? 0))
      then div - 1 else div in
    if PrimFloat.is_zero div then copysign 0 (a / b)
    else let floordiv := floor div in
         if 0.5 <? div - floordiv then floordiv + 1 else floordiv.

End Float64.

(** ** Float arithmetic of columns *)

Module Series.

#[local] Open Scope float_scope.

(** The number a cell of a numeric column holds; a missing value is NaN. *)
Definition num_of (c : cell) : float :=
  match c with Num x => x | _ => PrimFloat.nan end.

(** [s * k] for a column [s] and a Python float [k].  A column of strings
    or of timestamps cannot be multiplied by a float.  [Object] is the
    dtype [read_csv] gives a column of text, and stands for such a column
    here: what pandas computes, element by element, on an object column
    that holds no text (the columns of a table without rows, for instance)
    is outside this model, and the statements about the arithmetic of a
    column are about [Float64] columns. *)
Definition mul_scalar (s : dtype * list cell) (k : float)
  : result (list cell) :=
  match fst s with
  | Float64 => Ok (map (fun c => Num (num_of c * k)) (snd s))
  | Object => Raise (TypeError "can't multiply sequence by non-int of type 'float'")
  | Datetime64 => Raise (TypeError "unsupported operand type(s) for *: 'DatetimeArray' and 'float'")
  end.

(** [s // k] for a column [s] and a Python number [k], likewise. *)
Definition floordiv_scalar (s : dtype * list cell) (k : float)
  : result (list cell) :=
  match fst s with
  | Float64 => Ok (map (fun c => Num (Float64.floor_divide (num_of c) k)) (snd s))
  | Object => Raise (TypeError "unsupported operand type(s) for //: 'str' and 'int'")
  | Datetime64 => Raise (TypeError "unsupported operand type(s) for //: 'DatetimeArray' and 'int'")
  end.

(** [a + b] for two float columns of the same table. *)
Definition add (a b : list cell) : list cell :=
  map (fun xy => Num (num_of (fst xy) + num_of (snd xy))) (combine a b).

End Series.

(** ** data_manager.py: the risk score *)

Module RiskMetrics.

#[local] Open Scope float_scope.
#[local] Open Scope py_scope.

(** [calculate_risk_metrics(self, data)].  The world of the call is the
    table [data] refers to: line 158 assigns a column of that very table,
    line 159 builds the returned one. *)
Definition calculate_risk_metrics : M DataFrame DataFrame :=
  data <- Py.get ;;
  stress <- Py.lift (getitem data "stress_hydrique") ;;
  a <- Py.lift (Series.mul_scalar stress 0.5) ;;
  biomasse <- Py.lift (getitem data "biomasse_estimee") ;;
  b <- Py.lift (Series.mul_scalar biomasse 0.3) ;;
  Py.modify (fun d => setitem d "risk_score" Float64 (Series.add a b)) ;;
  data <- Py.get ;;
  Py.lift (select data ["parcelle_id"; "date"; "risk_score"]).

(** The score of one row, written as the specification writes it. *)
Definition risk_score (stress_hydrique biomasse_estimee : float) : float :=
  0.5 * stress_hydrique + 0.3 * biomasse_estimee.

End RiskMetrics.

(** ** Concrete tables *)

Module Sample.

Definition ts (y m d : Z) : Z := Calendar.days_from_civil y m d * Calendar.ns_per_day.

(** One reading of parcel P001 with the literal values of the
    specification: stress 0.4, biomass 2.0. *)
Definition readings : DataFrame :=
  mkDF None
       [("parcelle_id", Object); ("date", Datetime64);
        ("stress_hydrique", Float64); ("biomasse_estimee", Float64)]
       [mkRow NA [Str "P001"; Date (ts 2023 1 15); Num 0.4; Num 2.0]].

End Sample.

(** ** The numeric routines of the libraries

    Two routines are used for their numbers only, and the specification
    leaves their arithmetic to the libraries: the mean of a group
    ([GroupBy.mean]) and the standardisation of a matrix
    ([StandardScaler().fit_transform]).  The pipeline is written over any
    implementation of them; [Reference] below is one. *)

Class Numerics : Type := {
  (** the mean of the present values of a group, which are not empty *)
  mean : list float -> float;
  (** [fit_transform X] on the rows [X]; [ValueError] when scikit-learn
      rejects the matrix *)
  fit_transform : list (list float) -> result (list (list float))
}.

Module Reference.

#[local] Open Scope float_scope.

Definition sum (xs : list float) : float := fold_left PrimFloat.add xs 0.

Definition count (xs : list float) : float :=
  Float64.of_Z (Z.of_nat (List.length xs)).

Definition average (xs : list float) : float := sum xs / count xs.

Definition column (j : nat) (X : list (list float)) : list float :=
  map (fun r => nth j r PrimFloat.nan) X.

(** Zero mean, unit (population) variance; a constant column is only
    centred. *)
Definition standardize (xs : list float) : list float :=
  let mu := average xs in
  let var := average (map (fun x => (x - mu) * (x - mu)) xs) in
  let scale := if PrimFloat.is_zero var then 1 else PrimFloat.sqrt var in
  map (fun x => (x - mu) / scale) xs.

Definition standard_scaler (X : list (list float)) : result (list (list float)) :=
  match X with
  | [] => Raise (ValueError "Found array with 0 sample(s)")
  | r :: _ =>
      if Nat.eqb (List.length r) O
      then Raise (ValueError "Found array with 0 feature(s)")
      else if existsb (existsb PrimFloat.is_infinity) X
      then Raise (ValueError "Input X contains infinity")
      else
        let cols := map (fun j => standardize (column j X)) (seq O (List.length r)) in
        Ok (map (fun i => map (fun c => nth i c PrimFloat.nan) cols)
                (seq O (List.length X)))
  end.

#[export] Instance numerics : Numerics :=
  {| mean := average; fit_transform := standard_scaler |}.

End Reference.

(** ** pandas: the operations of the pipeline *)

Module Frame.

(** [pd.to_datetime(s)].  A timestamp stays, a missing value becomes [NaT],
    a number counts nanoseconds since the epoch and must fit 64 bits.  A
    string cell stands for text that is not a date (one that is was already
    parsed by [read_csv(parse_dates=...)]): it is rejected. *)
Definition to_datetime_cell (c : cell) : result cell :=
  match c with
  | NA => Ok NA
  | Date t => Ok (Date t)
  | Num x =>
      if PrimFloat.is_nan x then Ok NA
      else match Float64.to_Z x with
           | Some t => if (- 2 ^ 63 <? t) && (t <? 2 ^ 63) then Ok (Date t)
                       else Raise (ValueError "Out of bounds nanosecond timestamp")
           | None => Raise (ValueError "Out of bounds nanosecond timestamp")
           end
  | Str s => Raise (ValueError ("Unknown datetime string format, unable to parse: " ++ s))
  end.

Fixpoint to_datetime_cells (cs : list cell) : result (list cell) :=
  match cs with
  | [] => Ok []
  | c :: cs' =>
      let? d := to_datetime_cell c in
      let? ds := to_datetime_cells cs' in
      Ok (d :: ds)
  end.

Definition to_datetime (s : dtype * list cell) : result (list cell) :=
  to_datetime_cells (snd s).

Fixpoint remove_nth {A} (n : nat) (l : list A) : list A :=
  match l, n with
  | [], _ => []
  | _ :: l', O => l'
  | x :: l', S n' => x :: remove_nth n' l'
  end.

(** [df.set_index(c)]: the column leaves the columns and labels the rows;
    the former index is dropped. *)
Definition set_index (df : DataFrame) (c : string) : result DataFrame :=
  match position c (names df) with
  | Some n =>
      Ok (mkDF (Some (nth n (columns df) ("", Object)))
               (remove_nth n (columns df))
               (map (fun r => mkRow (cell_at n r) (remove_nth n (values r)))
                    (rows df)))
  | None => Raise (KeyError ("None of ['" ++ c ++ "'] are in the columns"))
  end.

(** [df.select_dtypes(include=[np.number]).columns] *)
Definition numeric_columns (df : DataFrame) : list string :=
  map fst (filter (fun c => is_number (snd c)) (columns df)).

(** [df.dropna()]: the rows without a missing value. *)
Definition complete (r : row) : bool := forallb (fun c => negb (isna c)) (values r).

Definition dropna (df : DataFrame) : DataFrame :=
  mkDF (index df) (columns df) (filter complete (rows df)).

(** [df.empty] *)
Definition empty (df : DataFrame) : bool :=
  match rows df, columns df with
  | [], _ | _, [] => true
  | _, _ => false
  end.

(** *** Sorting *)

Fixpoint insert_sorted {A} (leb : A -> A -> bool) (x : A) (l : list A) : list A :=
  match l with
  | [] => [x]
  | y :: l' => if leb x y then x :: l else y :: insert_sorted leb x l'
  end.

(** A stable sort: among equal keys the earlier element stays first (the
    list is traversed from its end, and [insert_sorted] puts an element
    before the first one that is not smaller). *)
Definition stable_sort {A} (leb : A -> A -> bool) (l : list A) : list A :=
  fold_right (insert_sorted leb) [] l.

Fixpoint sortedb {A} (leb : A -> A -> bool) (l : list A) : bool :=
  match l with
  | x :: ((y :: _) as l') => leb x y && sortedb leb l'
  | _ => true
  end.

(** [df.sort_values(c)]; rows with the same key stay in their order (pandas
    leaves the order of ties to NumPy's sort). *)
Definition sort_values (df : DataFrame) (c : string) : result DataFrame :=
  match position c (names df) with
  | Some n =>
      Ok (mkDF (index df) (columns df)
               (stable_sort (fun r1 r2 => cell_leb (cell_at n r1) (cell_at n r2))
                            (rows df)))
  | None => key_error c
  end.

(** *** Monthly means *)

(** The present numbers of a column within a group, and their mean; the
    mean of no number is NaN. *)
Definition present (cs : list cell) : list float :=
  flat_map (fun c => if isna c then [] else [Series.num_of c]) cs.

Definition group_mean `{Numerics} (cs : list cell) : cell :=
  match present cs with
  | [] => Num PrimFloat.nan
  | xs => Num (mean xs)
  end.

(** The month a row falls in, from its label. *)
Definition row_month (r : row) : option Z :=
  match label r with
  | Date t => Some (Calendar.month_of t)
  | _ => None
  end.

Definition in_month (k : Z) (r : row) : bool :=
  match row_month r with Some k' => Z.eqb k k' | None => false end.

Definition means_of `{Numerics} (js : list nat) (group : list row) : list cell :=
  map (fun j => group_mean (map (cell_at j) group)) js.

Definition datetime_index_error {A} : result A :=
  Raise (TypeError "Only valid with DatetimeIndex, TimedeltaIndex or PeriodIndex").

(** [df.groupby(pd.Grouper(freq='M')).mean().reset_index()] on numeric
    columns: one row for every month from the first to the last one
    present, the empty ones included. *)
Definition months_between (lo hi : Z) : list Z :=
  map (fun i => lo + Z.of_nat i) (seq O (Z.to_nat (hi - lo + 1))).

Definition month_span (ks : list Z) : list Z :=
  match ks with
  | [] => []
  | k :: ks' => months_between (fold_left Z.min ks' k) (fold_left Z.max ks' k)
  end.

Definition option_list {A} (o : option A) : list A :=
  match o with Some a => [a] | None => [] end.

Definition monthly_mean `{Numerics} (df : DataFrame) : result DataFrame :=
  match index df with
  | Some (name, Datetime64) =>
      let months := month_span (flat_map (fun r => option_list (row_month r)) (rows df)) in
      Ok (mkDF None
               ((name, Datetime64) :: map (fun c => (fst c, Float64)) (columns df))
               (map (fun k =>
                       mkRow NA (Date (Calendar.month_end_of_month k)
                                 :: means_of (seq O (List.length (columns df)))
                                             (filter (in_month k) (rows df))))
                    months))
  | _ => datetime_index_error
  end.

(** [df.groupby([pd.Grouper(freq='M'), by]).mean().reset_index()], where
    the columns other than [by] are numeric: one row for every (month, key)
    that occurs, in the order of the months, then of the keys.  Rows whose
    label or key is missing belong to no group. *)
Definition group_leb (a b : Z * cell) : bool :=
  (fst a <? fst b) || ((fst a =? fst b) && cell_leb (snd a) (snd b)).

Definition group_eqb (a b : Z * cell) : bool :=
  (fst a =? fst b) && cell_eqb (snd a) (snd b).

Fixpoint add_group (g : Z * cell) (l : list (Z * cell)) : list (Z * cell) :=
  match l with
  | [] => [g]
  | g' :: l' =>
      if group_eqb g g' then l
      else if group_leb g g' then g :: l
      else g' :: add_group g l'
  end.

Definition row_group (n : nat) (r : row) : option (Z * cell) :=
  match row_month r with
  | Some k => if isna (cell_at n r) then None else Some (k, cell_at n r)
  | None => None
  end.

Definition in_group (n : nat) (g : Z * cell) (r : row) : bool :=
  match row_group n r with Some g' => group_eqb g g' | None => false end.

Definition monthly_mean_by `{Numerics} (df : DataFrame) (by_ : string)
  : result DataFrame :=
  match index df, position by_ (names df) with
  | _, None => key_error by_
  | Some (name, Datetime64), Some n =>
      if (1 <? List.length (filter (String.eqb by_) (names df)))%nat
      then Raise (ValueError ("Grouper for '" ++ by_ ++ "' not 1-dimensional"))
      else
        let groups :=
          fold_left (fun acc r => match row_group n r with
                                  | Some g => add_group g acc
                                  | None => acc
                                  end) (rows df) [] in
        Ok (mkDF None
                 ((name, Datetime64) :: nth n (columns df) ("", Object)
                  :: map (fun c => (fst c, Float64)) (remove_nth n (columns df)))
                 (map (fun g =>
                         mkRow NA (Date (Calendar.month_end_of_month (fst g))
                                   :: snd g
                                   :: means_of
                                        (remove_nth n (seq O (List.length (columns df))))
                                        (filter (in_group n g) (rows df))))
                      groups))
  | _, Some _ => datetime_index_error
  end.

End Frame.

(** ** pandas: merges *)

Module Merge.

Import Frame.

(** [pandas.errors.MergeError] derives from [ValueError]. *)
Definition merge_error {A} (msg : string) : result A := Raise (ValueError msg).

Definition mem (c : string) (l : list string) : bool := existsb (String.eqb c) l.

(** The positions of the columns of the right table that are kept: those
    whose name is not a key (the key columns of the right table are dropped
    before the tables are joined). *)
Definition kept (keys : list string) (right : DataFrame) : list nat :=
  filter (fun j => negb (mem (nth j (names right) "") keys))
         (seq O (List.length (columns right))).

Definition kept_columns (keys : list string) (right : DataFrame)
  : list (string * dtype) :=
  map (fun j => nth j (columns right) ("", Object)) (kept keys right).

(** A name that both tables carry gets the suffix [_x] on the left and [_y]
    on the right. *)
Definition suffixed (suffix : string) (others : list string) (c : string * dtype)
  : string * dtype :=
  if mem (fst c) others then (String.append (fst c) suffix, snd c) else c.

Definition merged_columns (keys : list string) (left right : DataFrame)
  : list (string * dtype) :=
  let rcols := kept_columns keys right in
  map (suffixed "_x" (map fst rcols)) (columns left)
  ++ map (suffixed "_y" (names left)) rcols.

(** What a row of the left table is extended with: the kept cells of the
    matching row of the right table, or missing values. *)
Definition extension (keys : list string) (right : DataFrame) (m : option row)
  : list cell :=
  match m with
  | Some r => map (fun j => cell_at j r) (kept keys right)
  | None => map (fun _ => NA) (kept keys right)
  end.

Definition dtype_at (df : DataFrame) (n : nat) : dtype :=
  nth n (map snd (columns df)) Object.

(** [pd.merge(left, right, how='left', on=key)]: every row of the left
    table, in order, once for each row of the right table with an equal
    key, or once with missing values when there is none. *)
Definition merge_left (left right : DataFrame) (key : string) : result DataFrame :=
  match position key (names left), position key (names right) with
  | Some nl, Some nr =>
      if negb (dtype_eqb (dtype_at left nl) (dtype_at right nr))
      then Raise (ValueError ("You are trying to merge on columns of different types: " ++ key))
      else
        Ok (mkDF None
                 (merged_columns [key] left right)
                 (flat_map
                    (fun l =>
                       match filter (fun r => cell_eqb (cell_at nl l) (cell_at nr r))
                                    (rows right) with
                       | [] => [mkRow NA (values l ++ extension [key] right None)]
                       | ms => map (fun r => mkRow NA (values l ++ extension [key] right (Some r))) ms
                       end)
                    (rows left)))
  | _, _ => key_error key
  end.

(** The last row of [rs] that satisfies [p]. *)
Definition last_such {A} (p : A -> bool) (rs : list A) : option A :=
  fold_left (fun acc r => if p r then Some r else acc) rs None.

(** [pd.merge_asof(left, right, on=on, by=by)] (backward, exact matches
    allowed): every row of the left table, in order, extended with the last
    row of the right table whose [on] is not after its own and whose [by]
    is equal.  Both tables must be sorted on [on] and have no missing [on]. *)
Definition merge_asof (left right : DataFrame) (on : string) (by_ : option string)
  : result DataFrame :=
  match position on (names left), position on (names right) with
  | Some nl, Some nr =>
      let? bys :=
        match by_ with
        | None => Ok None
        | Some b =>
            match position b (names left), position b (names right) with
            | Some bl, Some br =>
                if dtype_eqb (dtype_at left bl) (dtype_at right br)
                then Ok (Some (bl, br))
                else merge_error ("incompatible merge keys, must be the same type: " ++ b)
            | _, _ => key_error b
            end
        end in
      if negb (dtype_eqb (dtype_at left nl) (dtype_at right nr))
         || dtype_eqb (dtype_at left nl) Object
      then merge_error ("Incompatible merge dtype: " ++ on)
      else if existsb (fun l => isna (cell_at nl l)) (rows left)
      then Raise (ValueError "Merge keys contain null values on left side")
      else if existsb (fun r => isna (cell_at nr r)) (rows right)
      then Raise (ValueError "Merge keys contain null values on right side")
      else if negb (sortedb cell_leb (map (cell_at nl) (rows left)))
      then Raise (ValueError "left keys must be sorted")
      else if negb (sortedb cell_leb (map (cell_at nr) (rows right)))
      then Raise (ValueError "right keys must be sorted")
      else
        let keys := on :: option_list by_ in
        Ok (mkDF None
                 (merged_columns keys left right)
                 (map (fun l =>
                         mkRow NA
                           (values l
                            ++ extension keys right
                                 (last_such
                                    (fun r =>
                                       cell_leb (cell_at nr r) (cell_at nl l)
                                       && match bys with
                                          | Some (bl, br) => cell_eqb (cell_at bl l) (cell_at br r)
                                          | None => true
                                          end)
                                    (rows right))))
                      (rows left)))
  | _, _ => key_error on
  end.

End Merge.

(** ** The objects of the program *)

Module State.

(** What [pd.read_csv] gives for each of the four files [load_data] reads:
    a table, or the exception raised for a missing or malformed file. *)
Record Disk : Type := mkDisk {
  monitoring_cultures_csv : result DataFrame;
  meteo_detaillee_csv : result DataFrame;
  sols_csv : result DataFrame;
  historique_rendements_csv : result DataFrame
}.

(** [AgriculturalDataManager]: the four held tables, [None] until loaded.
    (Its [scaler] is refitted by every [fit_transform] and keeps nothing
    the program reads back.) *)
Record AgriculturalDataManager : Type := mkManager {
  monitoring_data : option DataFrame;
  weather_data : option DataFrame;
  soil_data : option DataFrame;
  yield_history : option DataFrame
}.

(** [AgriculturalDataManager.__init__] *)
Definition new_manager : AgriculturalDataManager := mkManager None None None None.

(** A bokeh [ColumnDataSource] built from a table. *)
Record ColumnDataSource : Type := mkSource { data : DataFrame }.

(** [AgriculturalDashboard]; its [data_manager] is the manager of the
    world, shared with the caller that built it. *)
Record AgriculturalDashboard : Type := mkDashboard {
  full_yield_source : option ColumnDataSource;
  full_ndvi_source : option ColumnDataSource;
  yield_source : option ColumnDataSource;
  ndvi_source : option ColumnDataSource;
  stress_source : option ColumnDataSource;
  full_stress_source : option ColumnDataSource;
  features : option DataFrame
}.

(** The records of the [logging] module. *)
Inductive log_record : Type :=
| LogInfo (msg : string) (columns : list string)
| LogWarning (msg : string)
| LogError (msg : string) (e : option exn).

Definition is_error (l : log_record) : bool :=
  match l with LogError _ _ => true | _ => false end.

Record World : Type := mkWorld {
  disk : Disk;
  manager : AgriculturalDataManager;
  dashboard : AgriculturalDashboard;
  logs : list log_record
}.

Definition set_manager (f : AgriculturalDataManager -> AgriculturalDataManager)
  : M World unit :=
  Py.modify (fun w => mkWorld (disk w) (f (manager w)) (dashboard w) (logs w)).

Definition set_dashboard (f : AgriculturalDashboard -> AgriculturalDashboard)
  : M World unit :=
  Py.modify (fun w => mkWorld (disk w) (manager w) (f (dashboard w)) (logs w)).

(** [logging.info], [logging.warning], [logging.error]: the record is
    appended to the log. *)
Definition logging (l : log_record) : M World unit :=
  Py.modify (fun w => mkWorld (disk w) (manager w) (dashboard w) (logs w ++ [l])).

Definition set_monitoring_data (t : DataFrame) : M World unit :=
  set_manager (fun m => mkManager (Some t) (weather_data m) (soil_data m) (yield_history m)).
Definition set_weather_data (t : DataFrame) : M World unit :=
  set_manager (fun m => mkManager (monitoring_data m) (Some t) (soil_data m) (yield_history m)).
Definition set_soil_data (t : DataFrame) : M World unit :=
  set_manager (fun m => mkManager (monitoring_data m) (weather_data m) (Some t) (yield_history m)).
Definition set_yield_history (t : DataFrame) : M World unit :=
  set_manager (fun m => mkManager (monitoring_data m) (weather_data m) (soil_data m) (Some t)).

(** What using [None] as a table raises: on [None[...]] and on [None.attr]. *)
Definition not_subscriptable : exn :=
  TypeError "'NoneType' object is not subscriptable".
Definition no_attribute : exn :=
  AttributeError "'NoneType' object has no attribute".

(** Reading a held table in order to use it as a table; [e] is what is
    raised when the field is still [None]. *)
Definition held (e : exn) (field : AgriculturalDataManager -> option DataFrame)
  : M World DataFrame :=
  fun w => match field (manager w) with
           | Some t => (w, Ok t)
           | None => (w, Raise e)
           end.

End State.
Import State.

(** ** data_manager.py: [AgriculturalDataManager] *)

Module DataManager.

Import Frame Merge.
#[local] Open Scope py_scope.

(** [pd.read_csv] on one of the four fixed paths. *)
Definition read_csv (file : Disk -> result DataFrame) : M World DataFrame :=
  fun w => (w, file (disk w)).

(** [load_data]: the four files are read in order, each assigned as soon
    as it is read; an exception of [read_csv] propagates. *)
Definition load_data : M World unit :=
  t <- read_csv monitoring_cultures_csv ;; set_monitoring_data t ;;
  t <- read_csv meteo_detaillee_csv ;; set_weather_data t ;;
  t <- read_csv sols_csv ;; set_soil_data t ;;
  t <- read_csv historique_rendements_csv ;; set_yield_history t.

(** [_setup_temporal_indices] *)
Definition _setup_temporal_indices : M World unit :=
  t <- held no_attribute monitoring_data ;;
  t <- Py.lift (set_index t "date") ;; set_monitoring_data t ;;
  t <- held no_attribute weather_data ;;
  t <- Py.lift (set_index t "date") ;; set_weather_data t ;;
  t <- held no_attribute yield_history ;;
  t <- Py.lift (set_index t "date") ;; set_yield_history t.

(** [df.index.is_monotonic]: the labels never decrease, and none is
    missing.  The positions of a default index are increasing. *)
Definition is_monotonic (df : DataFrame) : bool :=
  match index df with
  | None => true
  | Some _ =>
      forallb (fun c => negb (isna c)) (map label (rows df))
      && sortedb cell_leb (map label (rows df))
  end.

(** [_verify_temporal_consistency] *)
Definition _verify_temporal_consistency : M World unit :=
  t <- held no_attribute monitoring_data ;;
  (if negb (is_monotonic t)
   then Py.raise (ValueError "Les données de monitoring ne sont pas triées par date.")
   else Py.ret tt) ;;
  t <- held no_attribute weather_data ;;
  (if negb (is_monotonic t)
   then Py.raise (ValueError "Les données météorologiques ne sont pas triées par date.")
   else Py.ret tt) ;;
  t <- held no_attribute yield_history ;;
  (if negb (is_monotonic t)
   then Py.raise (ValueError "Les données historiques de rendements ne sont pas triées par date.")
   else Py.ret tt).

(** Line 58 to 60: [t['date'] = pd.to_datetime(t['date'])] on a held table. *)
Definition convert_dates (field : AgriculturalDataManager -> option DataFrame)
  (set : DataFrame -> M World unit) : M World unit :=
  t <- held not_subscriptable field ;;
  s <- Py.lift (getitem t "date") ;;
  d <- Py.lift (to_datetime s) ;;
  set (setitem t "date" Datetime64 d).

(** Line 62 and 63: [t.set_index('date', inplace=True)] on a held table. *)
Definition index_by_date (field : AgriculturalDataManager -> option DataFrame)
  (set : DataFrame -> M World unit) : M World unit :=
  t <- held no_attribute field ;;
  t <- Py.lift (set_index t "date") ;;
  set t.

(** Line 107 and 108: the numeric columns, by position, the matrix they
    form, and the table with the standardised matrix written back. *)
Definition numeric_positions (df : DataFrame) : list nat :=
  filter (fun j => is_number (dtype_at df j)) (seq O (List.length (columns df))).

Definition numeric_matrix (df : DataFrame) : list (list float) :=
  map (fun r => map (fun j => Series.num_of (cell_at j r)) (numeric_positions df))
      (rows df).

Definition same_shape (X Y : list (list float)) : bool :=
  Nat.eqb (List.length X) (List.length Y)
  && forallb (fun xy => Nat.eqb (List.length (fst xy)) (List.length (snd xy)))
             (combine X Y).

Definition write_row (js : list nat) (ys : list float) (vs : list cell) : list cell :=
  fold_left (fun vs jy => set_nth (fst jy) (Num (snd jy)) vs) (combine js ys) vs.

Definition assign_numeric (df : DataFrame) (Y : list (list float)) : DataFrame :=
  mkDF (index df) (columns df)
       (map (fun ry => mkRow (label (fst ry))
                             (write_row (numeric_positions df) (snd ry) (values (fst ry))))
            (combine (rows df) Y)).

Definition scale `{Numerics} (df : DataFrame) : result DataFrame :=
  let? Y := fit_transform (numeric_matrix df) in
  if same_shape (numeric_matrix df) Y then Ok (assign_numeric df Y)
  else Raise (ValueError "Shape of passed values does not match the columns").

Definition yield_missing : exn :=
  KeyError "'rendement_estime' n'est pas présent dans yield_history".
Definition yield_missing_after_merge : exn :=
  KeyError "'rendement_estime' n'est pas présent après la fusion.".

(** [pd.merge] and [pd.merge_asof] accept tables only. *)
Definition cannot_merge_none : exn :=
  TypeError "Can only merge Series or DataFrame objects, a <class 'NoneType'> was passed".

(** Line 58 to 63: the date columns are converted, then the monitoring and
    the weather table are indexed by date, in place. *)
Definition index_dates : M World unit :=
  convert_dates monitoring_data set_monitoring_data ;;
  convert_dates weather_data set_weather_data ;;
  convert_dates yield_history set_yield_history ;;
  index_by_date monitoring_data set_monitoring_data ;;
  index_by_date weather_data set_weather_data.

(** Line 66 to 87: the monthly means of the monitoring and of the weather
    table, merged as of the date, then left-joined with the soil table. *)
Definition merge_weather_soil `{Numerics} : M World DataFrame :=
  monitoring <- held no_attribute monitoring_data ;;
  let numeric_cols_monitoring := numeric_columns monitoring in
  t <- Py.lift (select monitoring (numeric_cols_monitoring ++ ["parcelle_id"])) ;;
  monitoring_monthly <- Py.lift (monthly_mean_by t "parcelle_id") ;;
  weather <- held no_attribute weather_data ;;
  let numeric_cols_weather := numeric_columns weather in
  t <- Py.lift (select weather numeric_cols_weather) ;;
  weather_monthly <- Py.lift (monthly_mean t) ;;
  l <- Py.lift (sort_values monitoring_monthly "date") ;;
  r <- Py.lift (sort_values weather_monthly "date") ;;
  combined_data <- Py.lift (merge_asof l r "date" None) ;;
  soil <- held cannot_merge_none soil_data ;;
  Py.lift (merge_left combined_data soil "parcelle_id").

(** Line 90 to 98: the merge with the yield history, as of the date and by
    parcel, when it has the column [rendement_estime]. *)
Definition merge_yield (combined_data : DataFrame) : M World DataFrame :=
  yields <- held no_attribute yield_history ;;
  if has_column yields "rendement_estime"
  then
    l <- Py.lift (sort_values combined_data "date") ;;
    t <- Py.lift (select yields ["date"; "parcelle_id"; "rendement_estime"]) ;;
    r <- Py.lift (sort_values t "date") ;;
    Py.lift (merge_asof l r "date" (Some "parcelle_id"))
  else Py.raise yield_missing.

(** Line 101 and 102. *)
Definition check_yield_column (combined_data : DataFrame) : M World unit :=
  if negb (has_column combined_data "rendement_estime")
  then Py.raise yield_missing_after_merge
  else Py.ret tt.

(** Line 66 to 104: from the held tables, once dated and indexed, to the
    merged table without its incomplete rows. *)
Definition merge_sources `{Numerics} : M World DataFrame :=
  combined_data <- merge_weather_soil ;;
  combined_data <- merge_yield combined_data ;;
  check_yield_column combined_data ;;
  Py.ret (dropna combined_data).

(** The [try] block of [prepare_features] (line 57 to 111). *)
Definition prepare_features_try `{Numerics} : M World DataFrame :=
  index_dates ;;
  combined_data <- merge_sources ;;
  combined_data <- Py.lift (scale combined_data) ;;
  logging (LogInfo "Colonnes disponibles après fusion" (names combined_data)) ;;
  Py.ret combined_data.

(** Its [except Exception as e] block (line 113 to 115): the error is
    logged and raised again. *)
Definition prepare_features_except {A} (e : exn) : M World A :=
  logging (LogError "Erreur lors de la préparation des caractéristiques" (Some e)) ;;
  Py.raise e.

(** [prepare_features] *)
Definition prepare_features `{Numerics} : M World DataFrame :=
  Py.try_except prepare_features_try prepare_features_except.

End DataManager.

(** ** A farm on disk *)

Module Farm.

Import Sample.
#[local] Open Scope float_scope.

(** Two parcels monitored in January and February 2023. *)
Definition monitoring : DataFrame :=
  mkDF None
       [("parcelle_id", Object); ("date", Datetime64); ("temperature", Float64);
        ("stress_hydrique", Float64); ("biomasse_estimee", Float64); ("ndvi", Float64)]
       [mkRow NA [Str "P001"; Date (ts 2023 1 10); Num 21.5; Num 0.4; Num 2.0; Num 0.61];
        mkRow NA [Str "P002"; Date (ts 2023 1 15); Num 19.0; Num 0.2; Num 1.5; Num 0.55];
        mkRow NA [Str "P001"; Date (ts 2023 1 20); Num 22.7; Num 0.37; Num 2.2; Num 0.64];
        mkRow NA [Str "P001"; Date (ts 2023 2 10); Num 24.0; Num 0.5; Num 2.4; Num 0.7];
        mkRow NA [Str "P002"; Date (ts 2023 2 15); Num 20.0; Num 0.3; Num 1.7; Num 0.58]].

Definition weather : DataFrame :=
  mkDF None
       [("date", Datetime64); ("precipitation", Float64)]
       [mkRow NA [Date (ts 2023 1 5); Num 12.0];
        mkRow NA [Date (ts 2023 2 5); Num 30.0]].

(** The soil table knows parcel P001 only. *)
Definition soil : DataFrame :=
  mkDF None
       [("parcelle_id", Object); ("ph", Float64); ("type_sol", Object)]
       [mkRow NA [Str "P001"; Num 6.5; Str "argileux"]].

Definition yields : DataFrame :=
  mkDF None
       [("parcelle_id", Object); ("date", Datetime64); ("rendement_estime", Float64)]
       [mkRow NA [Str "P001"; Date (ts 2022 12 31); Num 5.0];
        mkRow NA [Str "P002"; Date (ts 2022 12 31); Num 4.0];
        mkRow NA [Str "P001"; Date (ts 2023 1 31); Num 6.0]].

Definition files : Disk := mkDisk (Ok monitoring) (Ok weather) (Ok soil) (Ok yields).

Definition no_dashboard : AgriculturalDashboard :=
  mkDashboard None None None None None None None.

(** The world before anything is loaded, and once the files are. *)
Definition start : World := mkWorld files new_manager no_dashboard [].

Definition loaded : World := fst (DataManager.load_data start).

(** The world the first [prepare_features] leaves, and the features it
    returns (the rows of P002, which the soil table does not know, are
    gone). *)
Definition prepared : World :=
  fst (@DataManager.prepare_features Reference.numerics loaded).

Definition features : DataFrame :=
  mkDF None
       [("date", Datetime64); ("parcelle_id", Object); ("temperature", Float64);
        ("stress_hydrique", Float64); ("biomasse_estimee", Float64); ("ndvi", Float64);
        ("precipitation", Float64); ("ph", Float64); ("type_sol", Object);
        ("rendement_estime", Float64)]
       [mkRow NA [Date (ts 2023 1 31); Str "P001"; Num (-1); Num (-1); Num (-1);
                  Num (-1); Num (-1); Num 0; Str "argileux"; Num 0];
        mkRow NA [Date (ts 2023 2 28); Str "P001"; Num 1; Num 1; Num 1;
                  Num 1; Num 1; Num 0; Str "argileux"; Num 0]].

(** The yield history with its estimate under another name, and the farm
    loaded with a given yield history. *)
Definition yields_named (c : string) : DataFrame :=
  mkDF None
       [("parcelle_id", Object); ("date", Datetime64); (c, Float64)]
       (rows yields).

Definition loaded_with_yields (y : DataFrame) : World :=
  mkWorld files (mkManager (Some monitoring) (Some weather) (Some soil) (Some y))
          no_dashboard [].

(** A monitoring table that has an estimate of its own. *)
Definition monitoring_with_estimate : DataFrame :=
  mkDF None
       [("parcelle_id", Object); ("date", Datetime64); ("ndvi", Float64);
        ("rendement_estime", Float64)]
       [mkRow NA [Str "P001"; Date (ts 2023 1 10); Num 0.61; Num 5.5];
        mkRow NA [Str "P001"; Date (ts 2023 2 10); Num 0.7; Num 5.8]]%float.

Definition loaded_with_monitoring (m : DataFrame) : World :=
  mkWorld files (mkManager (Some m) (Some weather) (Some soil) (Some yields))
          no_dashboard [].

(** A table whose [date] column was made its index (line 62). *)
Definition indexed_table (t : DataFrame) : result DataFrame :=
  Frame.set_index t "date".

(** The monitoring table with its rows out of date order. *)
Definition monitoring_shuffled : DataFrame :=
  mkDF None (columns monitoring)
       (match rows monitoring with
        | [r1; r2; r3; r4; r5] => [r4; r1; r5; r3; r2]
        | l => l
        end).

(** The world a call of [prepare_features] on it leaves. *)
Definition prepared_shuffled : World :=
  fst (@DataManager.prepare_features Reference.numerics
         (loaded_with_monitoring monitoring_shuffled)).

(** The tables that world holds: indexed by date. *)
Definition monitoring_shuffled_indexed : DataFrame :=
  match indexed_table monitoring_shuffled with Ok t => t | Raise _ => monitoring_shuffled end.

Definition weather_indexed : DataFrame :=
  match indexed_table weather with Ok t => t | Raise _ => weather end.

(** A soil table with no attribute, which knows parcel P001 only, and the
    farm loaded with it. *)
Definition bare_soil : DataFrame :=
  mkDF None [("parcelle_id", Object)] [mkRow NA [Str "P001"]].

Definition loaded_with_bare_soil : World :=
  mkWorld files (mkManager (Some monitoring) (Some weather) (Some bare_soil) (Some yields))
          no_dashboard [].

(** A dashboard whose features are the monitoring table of the farm (it
    has the readings 22.7 and 0.37 of the specification). *)
Definition observing : World :=
  mkWorld Farm.files new_manager
          (mkDashboard None None None None None None (Some Farm.monitoring)) [].

End Farm.

(** ** pandas: counting groups *)

Module Counting.

Import Frame.

Fixpoint keys_eqb (a b : list cell) : bool :=
  match a, b with
  | [], [] => true
  | x :: a', y :: b' => cell_eqb x y && keys_eqb a' b'
  | _, _ => false
  end.

Fixpoint keys_leb (a b : list cell) : bool :=
  match a, b with
  | x :: a', y :: b' => if cell_eqb x y then keys_leb a' b' else cell_leb x y
  | _, _ => true
  end.

Fixpoint add_keys (k : list cell) (l : list (list cell)) : list (list cell) :=
  match l with
  | [] => [k]
  | k' :: l' =>
      if keys_eqb k k' then l
      else if keys_leb k k' then k :: l
      else k' :: add_keys k l'
  end.

(** The key of a row, unless one of its cells is missing. *)
Definition row_keys (ns : list nat) (r : row) : option (list cell) :=
  let k := map (fun n => cell_at n r) ns in
  if existsb isna k then None else Some k.

Definition has_keys (ns : list nat) (k : list cell) (r : row) : bool :=
  match row_keys ns r with Some k' => keys_eqb k k' | None => false end.

(** [df.groupby(by).size().reset_index(name='count')]: one row for every
    key that occurs, in the order of the keys, with the number of its rows. *)
Definition group_size (df : DataFrame) (by_ : list string) : result DataFrame :=
  let? ns := positions by_ (names df) in
  let groups :=
    fold_left (fun acc r => match row_keys ns r with
                            | Some k => add_keys k acc
                            | None => acc
                            end) (rows df) [] in
  Ok (mkDF None
           (map (fun n => nth n (columns df) ("", Object)) ns ++ [("count", Float64)])
           (map (fun k =>
                   mkRow NA (k ++ [Num (Float64.of_Z
                                          (Z.of_nat (List.length
                                                       (filter (has_keys ns k) (rows df)))))]))
                groups)).

(** [s.max()], skipping missing values; NaN when there is none. *)
Definition max (cs : list cell) : float :=
  match present cs with
  | [] => PrimFloat.nan
  | x :: xs => fold_left (fun m y => if PrimFloat.ltb m y then y else m) xs x
  end.

End Counting.

(** ** dashboard.py: [AgriculturalDashboard] *)

Module Dashboard.

Import Frame.
#[local] Open Scope py_scope.
#[local] Open Scope float_scope.

Definition set_features (t : option DataFrame) : M World unit :=
  set_dashboard (fun d => mkDashboard (full_yield_source d) (full_ndvi_source d)
                                      (yield_source d) (ndvi_source d)
                                      (stress_source d) (full_stress_source d) t).
Definition set_yield_source (s : option ColumnDataSource) : M World unit :=
  set_dashboard (fun d => mkDashboard (full_yield_source d) (full_ndvi_source d)
                                      s (ndvi_source d)
                                      (stress_source d) (full_stress_source d) (features d)).
Definition set_ndvi_source (s : option ColumnDataSource) : M World unit :=
  set_dashboard (fun d => mkDashboard (full_yield_source d) (full_ndvi_source d)
                                      (yield_source d) s
                                      (stress_source d) (full_stress_source d) (features d)).
Definition set_stress_source (s : option ColumnDataSource) : M World unit :=
  set_dashboard (fun d => mkDashboard (full_yield_source d) (full_ndvi_source d)
                                      (yield_source d) (ndvi_source d)
                                      s (full_stress_source d) (features d)).
Definition set_full_stress_source (s : option ColumnDataSource) : M World unit :=
  set_dashboard (fun d => mkDashboard (full_yield_source d) (full_ndvi_source d)
                                      (yield_source d) (ndvi_source d)
                                      (stress_source d) s (features d)).

Definition required_columns : list string :=
  ["parcelle_id"; "date"; "rendement_estime"; "ndvi"].

(** The [try] block of [create_data_sources] (line 37 to 62). *)
Definition create_data_sources_try `{Numerics} : M World unit :=
  DataManager.load_data ;;
  t <- DataManager.prepare_features ;;
  set_features (Some t) ;;
  let missing_columns := filter (fun c => negb (has_column t c)) required_columns in
  (match missing_columns with
   | [] => Py.ret tt
   | _ => Py.raise (ValueError (String.append "Colonnes manquantes : "
                                              (String.concat ", " missing_columns)))
   end) ;;
  yield_data <- Py.lift (select t ["parcelle_id"; "date"; "rendement_estime"]) ;;
  let yield_data := dropna yield_data in
  ndvi_data <- Py.lift (select t ["parcelle_id"; "date"; "ndvi"]) ;;
  let ndvi_data := dropna ndvi_data in
  (if empty yield_data
   then logging (LogWarning "Les données de rendement sont vides.") ;;
        set_yield_source None
   else set_yield_source (Some (mkSource yield_data))) ;;
  (if empty ndvi_data
   then logging (LogWarning "Les données NDVI sont vides.") ;;
        set_ndvi_source None
   else set_ndvi_source (Some (mkSource ndvi_data))) ;;
  logging (LogInfo "Sources de données préparées avec succès." []).

(** Its [except Exception as e] block (line 64 to 67). *)
Definition create_data_sources_except (e : exn) : M World unit :=
  logging (LogError "Erreur lors de la préparation des sources de données" (Some e)) ;;
  set_yield_source None ;;
  set_ndvi_source None.

(** [create_data_sources] *)
Definition create_data_sources `{Numerics} : M World unit :=
  Py.try_except create_data_sources_try create_data_sources_except.

(** [AgriculturalDashboard.__init__]: every source starts as [None], then
    the sources are prepared. *)
Definition __init__ `{Numerics} : M World unit :=
  set_dashboard (fun _ => mkDashboard None None None None None None None) ;;
  create_data_sources.

(** The bins of the stress matrix (line 202 and 203). *)
Definition temp_bin (temperature : float) : float :=
  Float64.floor_divide temperature 5 * 5.
Definition stress_bin (stress_hydrique : float) : float :=
  Float64.floor_divide stress_hydrique 0.1 * 0.1.

(** A chart that was built; how bokeh draws it is not modelled. *)
Inductive figure : Type := Figure (title : string).

(** [self.features[c] = v] *)
Definition set_feature_column (c : string) (v : list cell) : M World unit :=
  set_dashboard (fun d => mkDashboard (full_yield_source d) (full_ndvi_source d)
                                      (yield_source d) (ndvi_source d)
                                      (stress_source d) (full_stress_source d)
                                      (option_map (fun t => setitem t c Float64 v)
                                                  (features d))).

Definition the_features : M World DataFrame :=
  fun w => match features (dashboard w) with
           | Some t => (w, Ok t)
           | None => (w, Raise (AttributeError "'NoneType' object has no attribute 'columns'"))
           end.

(** [create_stress_matrix], up to the two sources; the chart built from
    them is returned as a token. *)
Definition create_stress_matrix : M World (option figure) :=
  Py.try_except
    (t <- the_features ;;
     if negb (has_column t "temperature") || negb (has_column t "stress_hydrique")
     then logging (LogWarning "Colonnes 'temperature' et 'stress_hydrique' manquantes.") ;;
          Py.ret None
     else
       s <- Py.lift (getitem t "temperature") ;;
       q <- Py.lift (Series.floordiv_scalar s 5) ;;
       b <- Py.lift (Series.mul_scalar (Float64, q) 5) ;;
       set_feature_column "temp_bin" b ;;
       t <- the_features ;;
       s <- Py.lift (getitem t "stress_hydrique") ;;
       q <- Py.lift (Series.floordiv_scalar s 0.1) ;;
       b <- Py.lift (Series.mul_scalar (Float64, q) 0.1) ;;
       set_feature_column "stress_bin" b ;;
       t <- the_features ;;
       matrix <- Py.lift (Counting.group_size t ["parcelle_id"; "temp_bin"; "stress_bin"]) ;;
       count <- Py.lift (getitem matrix "count") ;;
       let top := Counting.max (snd count) in
       let matrix := setitem matrix "norm_count" Float64
                       (map (fun c => Num (Series.num_of c / top)) (snd count)) in
       set_stress_source (Some (mkSource matrix)) ;;
       set_full_stress_source (Some (mkSource matrix)) ;;
       Py.ret (Some (Figure "Matrice de Stress")))
    (fun err =>
       logging (LogError "Erreur lors de la création de la matrice de stress" (Some err)) ;;
       Py.ret None).

End Dashboard.

(** ** dashboard.py: the selection callbacks (JavaScript) *)

Module Js.

#[local] Open Scope py_scope.

(** The values the columns of a source hold in the browser. *)
Inductive value : Type :=
| Undefined
| Null
| Number (x : float)
| String (s : string).

(** [a === b] *)
Definition strict_equals (a b : value) : bool :=
  match a, b with
  | Undefined, Undefined | Null, Null => true
  | Number x, Number y => PrimFloat.eqb x y
  | String s, String t => String.eqb s t
  | _, _ => false
  end.

(** [source.data]: the arrays of a source by column name, in the order of
    the keys. *)
Definition object : Type := list (string * list value).

Definition keys (o : object) : list string := map fst o.

(** [o[k]]: [None] is [undefined]. *)
Fixpoint lookup (o : object) (k : string) : option (list value) :=
  match o with
  | [] => None
  | (k', v) :: o' => if String.eqb k k' then Some v else lookup o' k
  end.

(** [a[i]] *)
Definition at_index (a : list value) (i : nat) : value := nth i a Undefined.

(** [o[k] = v] on a key the object has. *)
Fixpoint assign (o : object) (k : string) (v : list value) : object :=
  match o with
  | [] => []
  | (k', v') :: o' => if String.eqb k k' then (k', v) :: o'
                      else (k', v') :: assign o' k v
  end.

(** Reading a property of [undefined] throws a [TypeError]. *)
Definition array_of (o : object) (k : string) : result (list value) :=
  match lookup o k with
  | Some a => Ok a
  | None => Raise (TypeError (String.append "Cannot read properties of undefined: " k))
  end.

(** The time value of [new Date(v)]; [None] is NaN, an invalid date.  A
    number is a count of milliseconds, truncated, at most 8.64e15 in
    magnitude.  A source sends its dates as numbers; a string stands for
    text that is not a date. *)
Definition time_value (v : value) : option Z :=
  match v with
  | Number x =>
      match Float64.to_Z x with
      | Some t => if Z.abs t <=? 8640000000000000 then Some t else None
      | None => None
      end
  | Null => Some 0
  | Undefined | String _ => None
  end.

(** [new Date(a) - new Date(b) <= 0], as [sort] reads the comparator: a
    NaN counts as 0. *)
Definition date_leb (a b : value) : bool :=
  match time_value a, time_value b with
  | Some s, Some t => s <=? t
  | _, _ => true
  end.

(** [for (let k in filt) { filt[k] = []; }] *)
Definition clear : M object unit :=
  Py.modify (map (fun kv => (fst kv, @nil value))).

(** The indices [i] with [full['parcelle_id'][i] === choix], ascending. *)
Definition matching (full : object) (choix : value) : result (list nat) :=
  let? ids := array_of full "parcelle_id" in
  Ok (filter (fun i => strict_equals (at_index ids i) choix) (seq O (List.length ids))).

(** [filt[key].push(full[key][i])] *)
Definition push (full : object) (key : string) (i : nat) : M object unit :=
  a <- Py.lift (array_of full key) ;;
  Py.modify (fun filt =>
               match lookup filt key with
               | Some v => assign filt key (v ++ [at_index a i])
               | None => filt
               end).

Fixpoint for_each {A} (l : list A) (body : A -> M object unit) : M object unit :=
  match l with
  | [] => Py.ret tt
  | a :: l' => body a ;; for_each l' body
  end.

(** [indices.sort((a, b) => new Date(full['date'][a]) - new Date(full['date'][b]))]:
    a stable sort; the comparator runs, and reads [full['date']], only when
    there are two indices to compare. *)
Definition sort_by_date (full : object) (indices : list nat) : result (list nat) :=
  match indices with
  | [] | [_] => Ok indices
  | _ =>
      let? dates := array_of full "date" in
      Ok (Frame.stable_sort
            (fun a b => date_leb (at_index dates a) (at_index dates b)) indices)
  end.

(** The callback of [create_yield_history_plot] from line 113 on, once
    [full_source.data] and [source.data] have been read ([on_change_yield]
    below starts at line 109); the world is [source.data], [full] is
    [full_source.data] and [choix] is [select.value]. *)
Definition callback_yield (full : object) (choix : value) : M object unit :=
  clear ;;
  indices <- Py.lift (matching full choix) ;;
  indices <- Py.lift (sort_by_date full indices) ;;
  filt <- Py.get ;;
  for_each (keys filt) (fun key => for_each indices (fun i => push full key i)).

(** The callback of [create_ndvi_temporal_plot], likewise once the two
    sources have been read ([on_change_ndvi] below). *)
Definition callback_ndvi (full : object) (choix : value) : M object unit :=
  clear ;;
  ids <- Py.lift (array_of full "parcelle_id") ;;
  for_each (seq O (List.length ids))
    (fun i =>
       if strict_equals (at_index ids i) choix
       then filt <- Py.get ;; for_each (keys filt) (fun key => push full key i)
       else Py.ret tt).

(** The first lines of the two callbacks, [const full = full_source.data]
    and [const filt = source.data]: a source that is [None] in Python is
    [null] in the browser, and reading its [data] throws a [TypeError]
    before anything is written.  The world is the data of the visible
    source, [None] when there is no such source; [body] is the rest of the
    callback, [callback_yield] or [callback_ndvi] above. *)
Definition null_data : exn :=
  TypeError "Cannot read properties of null (reading 'data')".

Definition with_sources (body : object -> value -> M object unit)
  (full_source : option object) (choix : value) : M (option object) unit :=
  fun source =>
    match full_source, source with
    | Some full, Some filt =>
        (Some (fst (body full choix filt)), snd (body full choix filt))
    | _, _ => (source, Raise null_data)
    end.

(** The callbacks as [js_on_change] runs them, from their first line. *)
Definition on_change_yield : option object -> value -> M (option object) unit :=
  with_sources callback_yield.

Definition on_change_ndvi : option object -> value -> M (option object) unit :=
  with_sources callback_ndvi.

(** The rows of a dataset: the values of the given columns at an index. *)
Definition row_at (o : object) (ks : list string) (i : nat) : list value :=
  map (fun k => match lookup o k with
                | Some a => at_index a i
                | None => Undefined
                end) ks.

Definition height (o : object) : nat :=
  match o with
  | [] => O
  | (_, a) :: _ => List.length a
  end.

Definition rows_of (o : object) (ks : list string) : list (list value) :=
  map (row_at o ks) (seq O (height o)).

End Js.

(** ** Vocabulary of the statements about the dashboard *)

Module DashboardSpec.

(** The preparation failed with [e] in the world [before]: in the world
    [after] the failure is the last record of the log, and the yield and
    NDVI sources are empty. *)
Definition left_empty (e : exn) (before after : World) : Prop :=
  yield_source (dashboard after) = None /\
  ndvi_source (dashboard after) = None /\
  logs after
  = logs before
    ++ [LogError "Erreur lors de la préparation des sources de données" (Some e)].

(** A required column is missing from the table. *)
Definition lacks_required (t : DataFrame) : bool :=
  existsb (fun c => negb (has_column t c)) Dashboard.required_columns.

End DashboardSpec.

(** ** Vocabulary of the statements about the callbacks *)

Module JsSpec.

Import Js.

(** The indices of the full dataset whose [parcelle_id] is the selection,
    in source order. *)
Definition selected (ids : list value) (choix : value) : list nat :=
  filter (fun i => strict_equals (at_index ids i) choix) (seq O (List.length ids)).

(** The date of a row of the full dataset, in milliseconds. *)
Definition date_at (dates : list value) (i : nat) : Z :=
  match time_value (at_index dates i) with Some t => t | None => 0 end.

(** Row [i] is shown before row [j]: its date is earlier, or the dates are
    equal and it comes first in the full dataset. *)
Definition shown_before (dates : list value) (i j : nat) : Prop :=
  date_at dates i < date_at dates j
  \/ (date_at dates i = date_at dates j /\ (i < j)%nat).

(** The visible data [filt] holds, column by column, the rows [shown] of
    the full dataset, and nothing else. *)
Definition shows (full filt : object) (ks : list string) (shown : list nat) : Prop :=
  keys filt = ks /\
  forall k, In k ks ->
            exists a, lookup full k = Some a /\
                      lookup filt k = Some (map (at_index a) shown).

End JsSpec.

(** ** A dataset in the browser *)

Module Browser.

Import Js.
#[local] Open Scope float_scope.

(** Four yield estimates, three of parcel P001, not in date order. *)
Definition full_yield : object :=
  [("index", [Number 0; Number 1; Number 2; Number 3]);
   ("parcelle_id", [String "P001"; String "P002"; String "P001"; String "P001"]);
   ("date", [Number 1677542400000; Number 1675123200000;
             Number 1675123200000; Number 1672444800000]);
   ("rendement_estime", [Number 6.5; Number 4; Number 6; Number 5])].

(** What the chart shows before the selection changes. *)
Definition visible_yield : object :=
  [("index", [Number 1]);
   ("parcelle_id", [String "P002"]);
   ("date", [Number 1675123200000]);
   ("rendement_estime", [Number 4])].

End Browser.

(** ** Vocabulary of the statements about the pipeline *)

Module PipelineSpec.

(** The timestamp in column [n] of a row. *)
Definition date_of (n : nat) (r : row) : Z :=
  match cell_at n r with Date t => t | _ => 0 end.

(** The rows are in ascending order of the date in column [n]. *)
Definition by_date (n : nat) (rs : list row) : Prop :=
  StronglySorted (fun r1 r2 => date_of n r1 <= date_of n r2) rs.

(** The three date indices are monotonic. *)
Definition consistent (m wt y : DataFrame) : bool :=
  DataManager.is_monotonic m && DataManager.is_monotonic wt
  && DataManager.is_monotonic y.

(** No cell of the table is missing. *)
Definition no_null (df : DataFrame) : Prop :=
  forall r c, In r (rows df) -> In c (values r) -> isna c = false.

(** The table line 101 finds: the monthly monitoring data joined with the
    weather, the soil and the yield history, when the steps before pass. *)
Definition joined_table `{Numerics} (w : World) : result DataFrame :=
  snd (Py.bind DataManager.index_dates
         (fun _ => Py.bind DataManager.merge_weather_soil
                     (fun c => Py.bind (DataManager.merge_yield c)
                                 (fun c' => Py.bind (DataManager.check_yield_column c')
                                              (fun _ => Py.ret c')))) w).

(** The table [prepare_features] standardises: the merged table without
    its incomplete rows (line 104), when the steps before pass. *)
Definition merged_table `{Numerics} (w : World) : result DataFrame :=
  snd (Py.bind DataManager.index_dates (fun _ => DataManager.merge_sources) w).

(** The standardisation of that table returns numbers (no NaN). *)
Definition standardised_to_numbers `{Numerics} (w : World) : Prop :=
  forall merged Y,
    merged_table w = Ok merged ->
    fit_transform (DataManager.numeric_matrix merged) = Ok Y ->
    Forall (Forall (fun y => PrimFloat.is_nan y = false)) Y.

(** The parcel is not in the soil table. *)
Definition unknown_to (soil : DataFrame) (p : cell) : Prop :=
  forall d ks, getitem soil "parcelle_id" = Ok (d, ks) ->
               forall k, In k ks -> cell_eqb p k = false.

(** The soil table has an attribute: a column besides [parcelle_id]. *)
Definition has_attribute (soil : DataFrame) : Prop :=
  exists c, In c (names soil) /\ c <> "parcelle_id".

(** The errors that refuse a table for the order of its dates: the three
    of [_verify_temporal_consistency] and the two of [merge_asof]. *)
Definition order_errors : list string :=
  ["Les données de monitoring ne sont pas triées par date.";
   "Les données météorologiques ne sont pas triées par date.";
   "Les données historiques de rendements ne sont pas triées par date.";
   "left keys must be sorted";
   "right keys must be sorted"].

Definition order_error (e : exn) : bool :=
  match e with
  | ValueError msg => existsb (String.eqb msg) order_errors
  | _ => false
  end.

End PipelineSpec.

(** ** Relations and invariants of the proofs *)

Module Invariant.

(** A relation between the world before and after that every step of a
    computation keeps. *)
Definition keeps {W A} (R : W -> W -> Prop) (m : M W A) : Prop :=
  forall w, R w (fst (m w)).

(** The outcome of [m] and the tables it leaves are a function of the held
    tables alone. *)
Definition determined {A} (m : M World A) : Prop :=
  forall w w', manager w = manager w' ->
               manager (fst (m w)) = manager (fst (m w')) /\ snd (m w) = snd (m w').

(** What a step may leave as it was: the full sources of the dashboard, the
    held tables, the files. *)
Definition same_full_sources (w w' : World) : Prop :=
  full_yield_source (dashboard w') = full_yield_source (dashboard w) /\
  full_ndvi_source (dashboard w') = full_ndvi_source (dashboard w).
Definition same_manager (w w' : World) : Prop := manager w' = manager w.
Definition same_disk (w w' : World) : Prop := disk w' = disk w.

(** The table a held table becomes at line 58 to 60, and at line 62 and 63. *)
Definition dated (t : DataFrame) : result DataFrame :=
  let? s := getitem t "date" in
  let? d := Frame.to_datetime s in
  Ok (setitem t "date" Datetime64 d).

Definition indexed (t : DataFrame) : result DataFrame :=
  let? t' := dated t in Frame.set_index t' "date".

(** The invariant of the tables between the monthly means and the result:
    the second column is [parcelle_id], the only one of that name, it is
    not numeric, and every row reaches it. *)
Definition keyed_names (l : list string) : Prop :=
  exists a rest, l = a :: "parcelle_id" :: rest
                 /\ a <> "parcelle_id" /\ ~ In "parcelle_id" rest.

Definition keyed (df : DataFrame) : Prop :=
  keyed_names (names df) /\
  Forall (fun r => (2 <= List.length (values r))%nat) (rows df) /\
  is_number (Merge.dtype_at df 1) = false.

(** The object once the rows [ids] were pushed to the columns [ks]. *)
Definition column (full : Js.object) (k : string) : list Js.value :=
  match Js.lookup full k with Some a => a | None => [] end.

Definition extended (full : Js.object) (ids : list nat) (ks : list string)
  (o : Js.object) : Js.object :=
  map (fun kv => if existsb (String.eqb (fst kv)) ks
                 then (fst kv, snd kv ++ map (Js.at_index (column full (fst kv))) ids)
                 else kv) o.

(** An outcome that is not an error about the order of the dates, and a
    computation that has no other outcome. *)
Definition orderly {A} (r : result A) : Prop :=
  match r with
  | Ok _ => True
  | Raise e => PipelineSpec.order_error e = false
  end.

Definition orderly_run {W A} (m : M W A) : Prop :=
  forall w, orderly (snd (m w)).

(** A cell of a date column once [pd.to_datetime] has passed: a timestamp
    or [NaT]. *)
Definition timed (c : cell) : Prop :=
  match c with
  | Date _ | NA => True
  | _ => False
  end.

End Invariant.
Import Invariant.

(* ================================================================== *)
(** * The rest of the two files *)
(* ================================================================== *)

(** ** What is left to the libraries

    Three library behaviours are used by the remaining methods outside
    what is modelled here; the methods are written over any implementation
    of them, so nothing is assumed about these cases. *)

(** The result of [seasonal_decompose], as the three series
    [analyze_yield_patterns] returns. *)
Record Decomposition : Type := mkDecomposition {
  trend : list cell;
  seasonal : list cell;
  residual : list cell
}.

Class Libraries : Type := {
  (** [pd.merge(left, right, how='left', on=keys)] when a key names a level
      of an index, or several columns of one table *)
  merge_on_levels : DataFrame -> DataFrame -> list string -> result DataFrame;
  (** [sorted(l)] when [<] does not order [l] (a NaN or a NaT among
      several values): what Timsort leaves, or raises *)
  sorted_unordered : list cell -> result (list cell);
  (** [seasonal_decompose(s, model='additive', period=12)] on a series
      given by its dtype and its (label, value) pairs *)
  seasonal_decompose : dtype * list (cell * cell) -> result Decomposition
}.

(** ** pandas: rows by value, and the index as a column *)

Module Rows.

(** The name of an index that has none (pandas' [None]). *)
Definition unnamed : string := "".

(** [c == v] for a cell of a column and a Python scalar: values of
    different kinds are not equal, and a missing value equals nothing. *)
Definition equals (c v : cell) : bool :=
  match c, v with
  | Str s, Str t => String.eqb s t
  | Num x, Num y => PrimFloat.eqb x y
  | Date s, Date t => Z.eqb s t
  | _, _ => false
  end.

(** The rows with their labels: the labels of a default index are the
    positions. *)
Definition labelled (df : DataFrame) : list row :=
  match index df with
  | Some _ => rows df
  | None =>
      map (fun ir => mkRow (Num (Float64.of_Z (Z.of_nat (fst ir)))) (values (snd ir)))
          (combine (seq O (List.length (rows df))) (rows df))
  end.

(** [df[df[c] == v]]: the rows whose cell in column [c] equals [v], with
    the labels they had. *)
Definition where_equals (df : DataFrame) (c : string) (v : cell) : result DataFrame :=
  match position c (names df) with
  | Some n =>
      Ok (mkDF (Some (match index df with
                      | Some i => i
                      | None => (unnamed, Float64)
                      end))
               (columns df)
               (filter (fun r => equals (cell_at n r) v) (labelled df)))
  | None => key_error c
  end.

(** [df.reset_index()]: the labels become the first column, under the name
    of the index, or [index] ([level_0] when there is a column [index])
    for an index without a name; a column of that name must not exist. *)
Definition reset_index (df : DataFrame) : result DataFrame :=
  let i := match index df with Some i => i | None => (unnamed, Float64) end in
  let name := if String.eqb (fst i) unnamed
              then (if has_column df "index" then "level_0" else "index")
              else fst i in
  if has_column df name
  then Raise (ValueError (String.append "cannot insert "
                            (String.append name ", already exists")))
  else Ok (mkDF None ((name, snd i) :: columns df)
                (map (fun r => mkRow NA (label r :: values r)) (labelled df))).

End Rows.

(** ** pandas: a left merge on several keys *)

Module MergeOn.

Import Frame Merge.

Definition count (k : string) (l : list string) : nat :=
  List.length (filter (String.eqb k) l).

Definition names_index (df : DataFrame) (k : string) : bool :=
  match index df with
  | Some i => String.eqb k (fst i)
  | None => false
  end.

(** The keys are plain labels of the table: none names two columns, none
    names the index. *)
Definition plain (df : DataFrame) (keys : list string) : bool :=
  forallb (fun k => (count k (names df) <=? 1)%nat && negb (names_index df k)) keys.

(** The positions of the keys, key by key, in the right table first; the
    first key that one of the tables lacks is the [KeyError]. *)
Fixpoint key_positions (keys : list string) (left right : DataFrame)
  : result (list (nat * nat)) :=
  match keys with
  | [] => Ok []
  | k :: ks =>
      match position k (names right), position k (names left) with
      | Some nr, Some nl =>
          let? ps := key_positions ks left right in Ok ((nl, nr) :: ps)
      | _, _ => key_error k
      end
  end.

Definition is_text (c : cell) : bool :=
  match c with Str _ => true | _ => false end.

(** Key columns that cannot be merged: a timestamp column with another
    kind, and text with numbers. *)
Definition incompatible (left right : DataFrame) (p : nat * nat) : bool :=
  match dtype_at left (fst p), dtype_at right (snd p) with
  | Float64, Float64 | Object, Object | Datetime64, Datetime64 => false
  | Object, Float64 => existsb is_text (map (cell_at (fst p)) (rows left))
  | Float64, Object => existsb is_text (map (cell_at (snd p)) (rows right))
  | _, _ => true
  end.

Definition no_row (df : DataFrame) : bool :=
  match rows df with [] => true | _ => false end.

Definition same_keys (ps : list (nat * nat)) (l r : row) : bool :=
  forallb (fun p => cell_eqb (cell_at (fst p) l) (cell_at (snd p) r)) ps.

(** The columns of the merge of a left table without rows: its key columns
    are left out and those of the right table stay. *)
Definition columns_of_empty_left (keys : list string) (left right : DataFrame)
  : list (string * dtype) :=
  let lcols := filter (fun c => negb (mem (fst c) keys)) (columns left) in
  map (suffixed "_x" (names right)) lcols
  ++ map (suffixed "_y" (map fst lcols)) (columns right).

(** [pd.merge(left, right, how='left', on=keys)]: every row of the left
    table, in order, once for each row of the right table with equal keys,
    or once with missing values when there is none.  The kinds of the key
    columns are compared unless exactly one table has no row. *)
Definition merge_left_on `{Libraries} (left right : DataFrame) (keys : list string)
  : result DataFrame :=
  if negb (plain left keys && plain right keys)
  then merge_on_levels left right keys
  else
    let? ps := key_positions keys left right in
    if negb (xorb (no_row left) (no_row right))
       && existsb (incompatible left right) ps
    then Raise (ValueError "You are trying to merge on columns of different types")
    else
      match rows left with
      | [] => Ok (mkDF None (columns_of_empty_left keys left right) [])
      | _ =>
          Ok (mkDF None
                   (merged_columns keys left right)
                   (flat_map
                      (fun l =>
                         match filter (same_keys ps l) (rows right) with
                         | [] => [mkRow NA (values l ++ extension keys right None)]
                         | ms => map (fun r => mkRow NA (values l ++ extension keys right (Some r))) ms
                         end)
                      (rows left)))
      end.

End MergeOn.

(** ** data_manager.py: the yield history of a parcel *)

Module Patterns.

Import Frame Rows MergeOn.
#[local] Open Scope py_scope.

(** [_enrich_with_yield_history(self, data)] *)
Definition _enrich_with_yield_history `{Libraries} (data : DataFrame)
  : M World DataFrame :=
  yields <- held DataManager.cannot_merge_none yield_history ;;
  Py.lift (merge_left_on data yields ["date"; "parcelle_id"]).

Definition estimate_absent_from_history : exn :=
  KeyError "'rendement_estime' est absent des données yield_history.".

(** [get_temporal_patterns(self, parcelle_id)] *)
Definition get_temporal_patterns `{Libraries} (parcelle_id : cell)
  : M World DataFrame :=
  monitoring <- held not_subscriptable monitoring_data ;;
  parcelle_data <- Py.lift (where_equals monitoring "parcelle_id" parcelle_id) ;;
  yields <- held no_attribute yield_history ;;
  if has_column yields "rendement_estime"
  then
    l <- Py.lift (reset_index parcelle_data) ;;
    r <- Py.lift (select yields ["date"; "parcelle_id"; "rendement_estime"]) ;;
    Py.lift (merge_left_on l r ["date"; "parcelle_id"])
  else Py.raise estimate_absent_from_history.

Definition estimate_absent_from_patterns : exn :=
  KeyError "'rendement_estime' est absent des données pour l'analyse des patterns.".

(** [analyze_yield_patterns(self, parcelle_id)]; [statsmodels] is
    installed.  [history] is a copy: the held table is not touched. *)
Definition analyze_yield_patterns `{Libraries} (parcelle_id : cell)
  : M World Decomposition :=
  yields <- held not_subscriptable yield_history ;;
  history <- Py.lift (where_equals yields "parcelle_id" parcelle_id) ;;
  if has_column history "rendement_estime"
  then
    t <- Py.lift (set_index history "date") ;;
    s <- Py.lift (getitem t "rendement_estime") ;;
    Py.lift (seasonal_decompose (fst s, combine (map label (rows t)) (snd s)))
  else Py.raise estimate_absent_from_patterns.

End Patterns.

(** ** dashboard.py: the parcels offered for selection *)

Module Options.

Import Frame.
#[local] Open Scope py_scope.

(** [s.unique()]: the values in the order of their first occurrence;
    missing values count as one value. *)
Definition unique (cs : list cell) : list cell :=
  fold_left (fun seen c => if existsb (cell_eqb c) seen then seen else seen ++ [c])
            cs [].

Definition is_text (c : cell) : bool :=
  match c with Str _ => true | _ => false end.

Definition is_number_cell (c : cell) : bool :=
  match c with Num x => negb (PrimFloat.is_nan x) | _ => false end.

Definition is_date (c : cell) : bool :=
  match c with Date _ => true | _ => false end.

(** [not (b < a)] for two values of the same kind. *)
Definition not_after (a b : cell) : bool :=
  match a, b with
  | Str s, Str t => String.leb s t
  | Num x, Num y => negb (PrimFloat.ltb y x)
  | Date s, Date t => Z.leb s t
  | _, _ => true
  end.

(** The values are of one kind that [<] orders. *)
Definition ordered (l : list cell) : bool :=
  forallb is_text l || forallb is_number_cell l || forallb is_date l.

(** [sorted(l)]: text cannot be compared with anything else; values that
    [<] orders are sorted, and the sort is stable. *)
Definition sorted `{Libraries} (l : list cell) : result (list cell) :=
  if existsb is_text l && existsb (fun c => negb (is_text c)) l
  then Raise (TypeError "'<' not supported between instances of 'float' and 'str'")
  else if ordered l || (List.length l <=? 1)%nat
       then Ok (stable_sort not_after l)
       else sorted_unordered l.

(** [get_parcelle_options] *)
Definition get_parcelle_options `{Libraries} : M World (list cell) :=
  Py.try_except
    (w <- Py.get ;;
     match monitoring_data (manager w) with
     | None => Py.raise (ValueError "Données de monitoring non chargées.")
     | Some t =>
         s <- Py.lift (getitem t "parcelle_id") ;;
         Py.lift (sorted (unique (snd s)))
     end)
    (fun err =>
       logging (LogError "Erreur lors de la récupération des options de parcelle"
                         (Some err)) ;;
       Py.ret []).

End Options.

(** ** dashboard.py: the callback of the stress matrix (JavaScript) *)

Module JsStress.

Import Js.
#[local] Open Scope py_scope.

(** [o[k] = v]: the property is replaced where it stands, or added last. *)
Fixpoint set_property (o : object) (k : string) (v : list value) : object :=
  match o with
  | [] => [(k, v)]
  | (k', v') :: o' => if String.eqb k k' then (k', v) :: o'
                      else (k', v') :: set_property o' k v
  end.

(** [filt[k].push(data[k][i])] *)
Definition push_to (data : object) (k : string) (i : nat) : M object unit :=
  fun filt =>
    match lookup filt k with
    | None => (filt, Raise (TypeError (String.append "Cannot read properties of undefined: " k)))
    | Some v =>
        match array_of data k with
        | Ok a => (assign filt k (v ++ [at_index a i]), Ok tt)
        | Raise e => (filt, Raise e)
        end
    end.

(** The callback of [create_stress_matrix]; the world is [source.data],
    [data] is [full_source.data] and [choix] is [select.value]. *)
Definition callback_stress (data : object) (choix : value) : M object unit :=
  Py.modify (fun filt => set_property filt "temp_bin" []) ;;
  Py.modify (fun filt => set_property filt "stress_bin" []) ;;
  Py.modify (fun filt => set_property filt "norm_count" []) ;;
  ids <- Py.lift (array_of data "parcelle_id") ;;
  for_each (seq O (List.length ids))
    (fun i =>
       if strict_equals (at_index ids i) choix
       then push_to data "temp_bin" i ;;
            push_to data "stress_bin" i ;;
            push_to data "norm_count" i
       else Py.ret tt).

End JsStress.

(** ** Vocabulary of the statements about the date indices *)

Module DatesSpec.

(** The dates of a column are in order: none is missing and none is before
    the one above it. *)
Definition chronological (dates : list cell) : bool :=
  forallb (fun c => negb (isna c)) dates && Frame.sortedb cell_leb dates.

(** The outcome of the temporal check on three date columns. *)
Definition verdict (monitoring weather yields : list cell) : result unit :=
  if negb (chronological monitoring)
  then Raise (ValueError "Les données de monitoring ne sont pas triées par date.")
  else if negb (chronological weather)
  then Raise (ValueError "Les données météorologiques ne sont pas triées par date.")
  else if negb (chronological yields)
  then Raise (ValueError "Les données historiques de rendements ne sont pas triées par date.")
  else Ok tt.

End DatesSpec.

(** An implementation for the examples: it refuses what is outside the
    model (for [seasonal_decompose], as [statsmodels] refuses a series with
    fewer than two periods of observations). *)

Module Refusing.

#[export] Instance libraries : Libraries :=
  {| merge_on_levels := fun _ _ _ => Raise (ValueError "a key names an index level");
     sorted_unordered := fun _ => Raise (TypeError "values that are not ordered");
     seasonal_decompose :=
       fun _ => Raise (ValueError "x must have 2 complete cycles requires 24 observations.") |}.

End Refusing.

(** ** Vocabulary of the statements about the stress matrix *)

Module StressSpec.

(** The feature table once line 202 and 203 have written the two bins of
    the temperatures [ts] and of the stress values [ss] to it. *)
Definition binned (t : DataFrame) (ts ss : list cell) : DataFrame :=
  setitem (setitem t "temp_bin" Float64
                   (map (fun c => Num (Dashboard.temp_bin (Series.num_of c))) ts))
          "stress_bin" Float64
          (map (fun c => Num (Dashboard.stress_bin (Series.num_of c))) ss).

(** The dashboard with another feature table. *)
Definition with_features (d : AgriculturalDashboard) (t : DataFrame)
  : AgriculturalDashboard :=
  mkDashboard (full_yield_source d) (full_ndvi_source d)
              (yield_source d) (ndvi_source d)
              (stress_source d) (full_stress_source d) (Some t).

(** The world with one more record in its log. *)
Definition logged (w : World) (l : log_record) : World :=
  mkWorld (disk w) (manager w) (dashboard w) (logs w ++ [l]).

(** What [create_stress_matrix] never touches. *)
Definition same_elsewhere (w w' : World) : Prop :=
  disk w' = disk w /\ manager w' = manager w /\
  full_yield_source (dashboard w') = full_yield_source (dashboard w) /\
  full_ndvi_source (dashboard w') = full_ndvi_source (dashboard w) /\
  yield_source (dashboard w') = yield_source (dashboard w) /\
  ndvi_source (dashboard w') = ndvi_source (dashboard w).

End StressSpec.

(** ** A weather station: readings that belong to no parcel *)

Module Station.

#[local] Open Scope float_scope.

Definition readings : DataFrame :=
  mkDF None
       [("date", Datetime64); ("temperature", Float64); ("stress_hydrique", Float64)]
       [mkRow NA [Date (Sample.ts 2023 1 10); Num 21.5; Num 0.4]].

(** A dashboard whose features are these readings. *)
Definition observing : World :=
  mkWorld Farm.files new_manager
          (mkDashboard None None None None None None (Some readings)) [].

End Station.

(** ** Vocabulary of the statements about the stress callback *)

Module JsStressSpec.

Import Js.

(** The three columns of the visible source [o] hold the rows [shown] of
    the full columns [tb], [sb] and [nc]; its other columns are those of
    [filt]. *)
Definition view (tb sb nc : list value) (filt o : object) (shown : list nat) : Prop :=
  lookup o "temp_bin" = Some (map (at_index tb) shown) /\
  lookup o "stress_bin" = Some (map (at_index sb) shown) /\
  lookup o "norm_count" = Some (map (at_index nc) shown) /\
  forall k, k <> "temp_bin" -> k <> "stress_bin" -> k <> "norm_count" ->
            lookup o k = lookup filt k.

End JsStressSpec.

(** ** A stress matrix in the browser *)

Module Heatmap.

Import Js.
#[local] Open Scope float_scope.

(** Three cells of the matrix, two of parcel P001; both sources start
    with them. *)
Definition matrix : object :=
  [("index", [Number 0; Number 1; Number 2]);
   ("parcelle_id", [String "P001"; String "P001"; String "P002"]);
   ("temp_bin", [Number 20; Number 25; Number 20]);
   ("stress_bin", [Number 0.2; Number 0.4; Number 0.2]);
   ("count", [Number 2; Number 1; Number 1]);
   ("norm_count", [Number 1; Number 0.5; Number 0.5])].

End Heatmap.

(** ** Vocabulary of the statements about the yield history of the features *)

Module JoinSpec.

(** The rows of the yield history [y] that have the date and the parcel of
    the row [l]; [dl] and [pl] are the positions of [date] and
    [parcelle_id] in the table of [l], [dy] and [py] those in [y]. *)
Definition estimates_of (dl pl dy py : nat) (y : DataFrame) (l : row) : list row :=
  filter (fun r => cell_eqb (cell_at dl l) (cell_at dy r)
                   && cell_eqb (cell_at pl l) (cell_at py r))
         (rows y).

(** The positions, and the names, of the columns of [y] other than
    [date] and [parcelle_id]. *)
Definition attributes (y : DataFrame) : list nat :=
  filter (fun j => negb (String.eqb (nth j (names y) "") "date"
                         || String.eqb (nth j (names y) "") "parcelle_id"))
         (seq O (List.length (columns y))).

Definition attribute_names (y : DataFrame) : list string :=
  map (fun j => nth j (names y) "") (attributes y).

(** What a left join gives for the row [l]: its cells followed by the
    attributes of each of its rows of [y], in the order of [y], or by
    missing values when it has none. *)
Definition joined (dl pl dy py : nat) (y : DataFrame) (l : row) : list (list cell) :=
  match estimates_of dl pl dy py y l with
  | [] => [values l ++ map (fun _ => NA) (attributes y)]
  | ms => map (fun r => values l ++ map (fun j => cell_at j r) (attributes y)) ms
  end.

(** A name that the other table also has gets a suffix. *)
Definition renamed (suffix : string) (others : list string) (n : string) : string :=
  if existsb (String.eqb n) others then String.append n suffix else n.

End JoinSpec.

(* ================================================================== *)
(** * Theorems *)
(* ================================================================== *)

(** ** Facts about binary64 arithmetic *)

Lemma SFmul_comm prec emax (x y : spec_float) :
  SFmul prec emax x y = SFmul prec emax y x.
Proof.
  destruct x as [sx | sx | | sx mx ex], y as [sy | sy | | sy my ey];
    simpl; try reflexivity; try (now rewrite xorb_comm).
  now rewrite xorb_comm, Pos.mul_comm, Z.add_comm.
Qed.

Lemma float_mul_comm (x y : float) : (x * y)%float = (y * x)%float.
Proof.
  apply Prim2SF_inj. rewrite !mul_spec. apply SFmul_comm.
Qed.

(** ** Facts about tables *)

Lemma wfb_wf df : wfb df = true -> wf df.
Proof.
  unfold wfb, wf. rewrite forallb_forall, Forall_forall.
  intros H r Hr. now apply Nat.eqb_eq, H.
Qed.

Lemma position_Some c l n :
  position c l = Some n -> (n < List.length l)%nat /\ nth n l "" = c.
Proof.
  revert n. induction l as [|x l IH]; simpl; intros n H; [discriminate|].
  destruct (String.eqb_spec c x) as [->|Hne].
  - injection H as <-. split; [lia | reflexivity].
  - destruct (position c l) as [m|]; [|discriminate].
    injection H as <-. destruct (IH m eq_refl). split; [lia | assumption].
Qed.

Lemma position_None c l : position c l = None <-> existsb (String.eqb c) l = false.
Proof.
  induction l as [|x l IH]; simpl; [tauto|].
  destruct (String.eqb c x); simpl.
  - split; discriminate.
  - destruct (position c l); simpl in *.
    + split; [discriminate | intros H; now apply IH in H].
    + split; [intros _; now apply IH | reflexivity].
Qed.

Lemma has_column_position df c :
  has_column df c = true -> exists n, position c (names df) = Some n.
Proof.
  unfold has_column. intros H.
  destruct (position c (names df)) as [n|] eqn:E; [now exists n|].
  apply position_None in E. congruence.
Qed.

Lemma position_app_l c l l' n :
  position c l = Some n -> position c (l ++ l') = Some n.
Proof.
  revert n. induction l as [|x l IH]; simpl; intros n H; [discriminate|].
  destruct (String.eqb c x); [assumption|].
  destruct (position c l) as [m|]; [|discriminate].
  now rewrite (IH m eq_refl).
Qed.

Lemma position_app_r c l l' :
  position c l = None ->
  position c (l ++ l') = option_map (fun n => (List.length l + n)%nat) (position c l').
Proof.
  induction l as [|x l IH]; simpl; intros H.
  - now destruct (position c l').
  - destruct (String.eqb c x); [discriminate|].
    destruct (position c l); [discriminate|].
    rewrite IH by reflexivity. now destruct (position c l').
Qed.

Lemma set_nth_length {A} n (a : A) l : List.length (set_nth n a l) = List.length l.
Proof.
  revert n. induction l as [|x l IH]; intros [|n]; simpl; auto.
Qed.

Lemma nth_set_nth_same {A} n (a d : A) l :
  (n < List.length l)%nat -> nth n (set_nth n a l) d = a.
Proof.
  revert n. induction l as [|x l IH]; intros [|n]; simpl; intros H;
    try lia; auto. apply IH. lia.
Qed.

Lemma nth_set_nth_other {A} n m (a d : A) l :
  n <> m -> nth m (set_nth n a l) d = nth m l d.
Proof.
  revert n m. induction l as [|x l IH]; intros [|n] [|m]; simpl; intros H;
    try reflexivity; try congruence. apply IH. congruence.
Qed.

Lemma map_fst_set_nth (n : nat) c d (l : list (string * dtype)) :
  nth n (map fst l) "" = c -> map fst (set_nth n (c, d) l) = map fst l.
Proof.
  revert n. induction l as [|x l IH]; intros [|n]; simpl; intros H; auto.
  - now rewrite H.
  - now rewrite IH.
Qed.

Lemma map_combine_map {A B C} (f : A -> B) (g : A * B -> C) l :
  map g (combine l (map f l)) = map (fun a => g (a, f a)) l.
Proof. induction l; simpl; congruence. Qed.

Lemma getitem_length df c d s :
  getitem df c = Ok (d, s) -> List.length s = List.length (rows df).
Proof.
  unfold getitem. destruct (position c (names df)); [|discriminate].
  intros H. injection H as _ <-. apply length_map.
Qed.

Lemma getitem_has_column df c d s :
  getitem df c = Ok (d, s) -> has_column df c = true.
Proof.
  unfold getitem, has_column.
  destruct (position c (names df)) eqn:E; [|discriminate]. intros _.
  destruct (existsb (String.eqb c) (names df)) eqn:E'; [reflexivity|].
  apply position_None in E'. congruence.
Qed.

Lemma names_setitem_old df c d s n :
  position c (names df) = Some n -> names (setitem df c d s) = names df.
Proof.
  intros H. unfold setitem. rewrite H. unfold names. simpl.
  apply map_fst_set_nth. now apply position_Some in H.
Qed.

Lemma names_setitem_new df c d s :
  position c (names df) = None -> names (setitem df c d s) = names df ++ [c].
Proof.
  intros H. unfold setitem. rewrite H. unfold names. simpl.
  now rewrite map_app.
Qed.

Lemma has_column_setitem df c d s : has_column (setitem df c d s) c = true.
Proof.
  unfold has_column.
  destruct (position c (names df)) as [n|] eqn:E.
  - rewrite (names_setitem_old _ _ _ _ _ E).
    destruct (existsb (String.eqb c) (names df)) eqn:E'; [reflexivity|].
    apply position_None in E'. congruence.
  - rewrite (names_setitem_new _ _ _ _ E), existsb_app. simpl.
    now rewrite String.eqb_refl, orb_true_r.
Qed.

Lemma getitem_setitem_same df c d s :
  wf df -> List.length s = List.length (rows df) ->
  getitem (setitem df c d s) c = Ok (d, s).
Proof.
  intros Hwf Hlen. unfold getitem.
  destruct (position c (names df)) as [n|] eqn:E.
  - rewrite (names_setitem_old _ _ _ _ _ E), E.
    pose proof (position_Some _ _ _ E) as [Hn _].
    unfold names in Hn. rewrite length_map in Hn.
    unfold setitem. rewrite E. simpl. f_equal. f_equal.
    + rewrite <- (length_map snd) in Hn.
      assert (G : forall l : list (string * dtype),
                 map snd (set_nth n (c, d) l) = set_nth n d (map snd l)).
      { clear. intros l. revert n. induction l; intros [|n]; simpl; congruence. }
      rewrite G. now apply nth_set_nth_same.
    + rewrite map_map. unfold cell_at. simpl.
      revert s Hlen. induction Hwf as [|r rs Hr _ IH]; intros [|v s] Hlen;
        simpl in *; try discriminate; [reflexivity|].
      rewrite nth_set_nth_same by lia. f_equal. apply IH. lia.
  - rewrite (names_setitem_new _ _ _ _ E).
    rewrite (position_app_r _ _ _ E). simpl. rewrite String.eqb_refl. simpl.
    rewrite Nat.add_0_r.
    unfold setitem. rewrite E. simpl. f_equal. f_equal.
    + rewrite map_app. unfold names. rewrite length_map, <- (length_map snd).
      now rewrite app_nth2, Nat.sub_diag by lia.
    + rewrite map_map. unfold cell_at, names. simpl. rewrite length_map.
      revert s Hlen. induction Hwf as [|r rs Hr _ IH]; intros [|v s] Hlen;
        simpl in *; try discriminate; [reflexivity|].
      rewrite app_nth2 by lia. rewrite Hr, Nat.sub_diag. simpl. f_equal.
      apply IH. lia.
Qed.

Lemma getitem_setitem_other df c d s c' :
  c' <> c -> wf df -> List.length s = List.length (rows df) ->
  has_column df c' = true ->
  getitem (setitem df c d s) c' = getitem df c'.
Proof.
  intros Hne Hwf Hlen Hc'. apply has_column_position in Hc' as [m Hm].
  unfold getitem.
  pose proof (position_Some _ _ _ Hm) as [Hlt Hnth].
  unfold names in Hlt. rewrite length_map in Hlt.
  destruct (position c (names df)) as [n|] eqn:E.
  - rewrite (names_setitem_old _ _ _ _ _ E), Hm.
    assert (Hnm : n <> m).
    { intros ->. apply position_Some in E as [_ E]. congruence. }
    unfold setitem. rewrite E. simpl. f_equal. f_equal.
    + assert (G : forall l : list (string * dtype),
                 map snd (set_nth n (c, d) l) = set_nth n d (map snd l)).
      { clear. intros l. revert n. induction l; intros [|n]; simpl; congruence. }
      rewrite G. now apply nth_set_nth_other.
    + rewrite map_map. unfold cell_at. simpl.
      revert s Hlen. generalize (rows df) as rs.
      induction rs as [|r rs IH]; intros [|v s] Hlen; simpl in *;
        try discriminate; [reflexivity|].
      rewrite nth_set_nth_other by assumption. f_equal. apply IH. lia.
  - rewrite (names_setitem_new _ _ _ _ E), (position_app_l _ _ _ _ Hm), Hm.
    unfold setitem. rewrite E. simpl. f_equal. f_equal.
    + rewrite map_app, app_nth1; [reflexivity|]. now rewrite length_map.
    + rewrite map_map. unfold cell_at. simpl.
      revert s Hlen. induction Hwf as [|r rs Hr _ IH]; intros [|v s] Hlen;
        simpl in *; try discriminate; [reflexivity|].
      rewrite app_nth1 by lia. f_equal. apply IH. lia.
Qed.

Lemma positions_names cs l ns :
  positions cs l = Ok ns -> map (fun n => nth n l "") ns = cs.
Proof.
  revert ns. induction cs as [|c cs IH]; simpl; intros ns H.
  - now injection H as <-.
  - destruct (position c l) as [n|] eqn:E; [|discriminate].
    destruct (positions cs l) as [ms|]; simpl in H; [|discriminate].
    injection H as <-. simpl. apply position_Some in E as [_ ->].
    now rewrite (IH ms eq_refl).
Qed.

Lemma positions_lookup cs l ns c k :
  positions cs l = Ok ns -> position c cs = Some k ->
  position c l = Some (nth k ns O).
Proof.
  revert ns k. induction cs as [|x cs IH]; simpl; intros ns k H Hk;
    [discriminate|].
  destruct (position x l) as [n|] eqn:E; [|discriminate].
  destruct (positions cs l) as [ms|]; simpl in H; [|discriminate].
  injection H as <-.
  destruct (String.eqb_spec c x) as [->|Hne].
  - injection Hk as <-. assumption.
  - destruct (position c cs) as [j|]; [|discriminate].
    injection Hk as <-. simpl. now apply IH.
Qed.

Lemma positions_Ok cs l :
  forallb (fun c => existsb (String.eqb c) l) cs = true ->
  exists ns, positions cs l = Ok ns.
Proof.
  induction cs as [|c cs IH]; simpl; intros H; [now eexists|].
  apply andb_true_iff in H as [Hc Hcs].
  destruct (position c l) as [n|] eqn:E.
  - destruct (IH Hcs) as [ns ->]. simpl. now eexists.
  - apply position_None in E. congruence.
Qed.

Lemma names_select df cs out : select df cs = Ok out -> names out = cs.
Proof.
  unfold select. destruct (positions cs (names df)) as [ns|] eqn:E;
    simpl; [|discriminate].
  intros H. injection H as <-. unfold names at 1. simpl.
  rewrite map_map. rewrite <- (positions_names _ _ _ E).
  apply map_ext. intros n. unfold names.
  now rewrite <- (map_nth fst).
Qed.

Lemma getitem_select df cs out c :
  select df cs = Ok out -> In c cs -> getitem out c = getitem df c.
Proof.
  intros Hsel Hin. pose proof (names_select _ _ _ Hsel) as Hn.
  unfold select in Hsel.
  destruct (positions cs (names df)) as [ns|] eqn:E; simpl in Hsel;
    [|discriminate].
  destruct (position c cs) as [k|] eqn:Ek.
  2:{ apply position_None in Ek.
      assert (existsb (String.eqb c) cs = true); [|congruence].
      apply existsb_exists. exists c. split; [assumption | apply String.eqb_refl]. }
  pose proof (positions_lookup _ _ _ _ _ E Ek) as Hp.
  pose proof (position_Some _ _ _ Ek) as [Hk _].
  assert (Hlen : List.length ns = List.length cs).
  { rewrite <- (positions_names _ _ _ E). now rewrite length_map. }
  unfold getitem. rewrite Hn, Ek, Hp.
  injection Hsel as <-. simpl. f_equal. f_equal.
  - rewrite map_map.
    rewrite (nth_indep _ Object (snd (nth O (columns df) ("", Object))))
      by (rewrite length_map; lia).
    rewrite (map_nth (fun n => snd (nth n (columns df) ("", Object))) ns O k).
    now rewrite <- (map_nth snd).
  - rewrite map_map. apply map_ext. intros r. unfold cell_at. simpl.
    rewrite (nth_indep _ NA (nth O (values r) NA))
      by (rewrite length_map; lia).
    now rewrite (map_nth (fun n => nth n (values r) NA) ns O k).
Qed.

(** ** The risk score *)

Section RiskMetricsFacts.

Import RiskMetrics.

(** What line 158 assigns: per row, [stress * 0.5 + biomasse * 0.3] in
    binary64, which is the score of the specification. *)
Lemma risk_column ss bs :
  Series.add (map (fun c => Num (Series.num_of c * 0.5)%float) ss)
             (map (fun c => Num (Series.num_of c * 0.3)%float) bs)
  = map (fun sb => Num (risk_score (Series.num_of (fst sb))
                                   (Series.num_of (snd sb))))
        (combine ss bs).
Proof.
  unfold Series.add, risk_score.
  revert bs. induction ss as [|s ss IH]; intros [|b bs]; simpl;
    try reflexivity.
  rewrite IH. now rewrite (float_mul_comm 0.5), (float_mul_comm 0.3).
Qed.

(** The table the caller holds after the call, and what line 159 is
    evaluated on. *)
Lemma calculate_risk_metrics_run data ss bs :
  getitem data "stress_hydrique" = Ok (Float64, ss) ->
  getitem data "biomasse_estimee" = Ok (Float64, bs) ->
  let data' :=
    setitem data "risk_score" Float64
      (map (fun sb => Num (risk_score (Series.num_of (fst sb))
                                      (Series.num_of (snd sb))))
           (combine ss bs)) in
  calculate_risk_metrics data
  = (data', select data' ["parcelle_id"; "date"; "risk_score"]).
Proof.
  intros Hs Hb. unfold calculate_risk_metrics, Py.bind, Py.get, Py.lift,
    Py.modify. rewrite Hs. simpl. rewrite Hb. simpl.
  rewrite risk_column. reflexivity.
Qed.

End RiskMetricsFacts.

(** C2. For every table with the columns [parcelle_id], [date] and the
    numeric columns [stress_hydrique] and [biomasse_estimee],
    [calculate_risk_metrics] returns a table whose columns are exactly
    [parcelle_id], [date], [risk_score]; the first two are the input's, and
    each row's [risk_score] is [0.5 * stress_hydrique + 0.3 * biomasse_estimee]
    in binary64.  Stress 0.4 and biomass 2.0 give the float 0.8. *)
Theorem calculate_risk_metrics_spec (data : DataFrame) (ss bs : list cell) :
  wf data ->
  NoDup (names data) ->
  has_column data "parcelle_id" = true ->
  has_column data "date" = true ->
  getitem data "stress_hydrique" = Ok (Float64, ss) ->
  getitem data "biomasse_estimee" = Ok (Float64, bs) ->
  (exists data' out,
      RiskMetrics.calculate_risk_metrics data = (data', Ok out) /\
      names out = ["parcelle_id"; "date"; "risk_score"] /\
      getitem out "parcelle_id" = getitem data "parcelle_id" /\
      getitem out "date" = getitem data "date" /\
      getitem out "risk_score"
      = Ok (Float64,
            map (fun sb => Num (RiskMetrics.risk_score (Series.num_of (fst sb))
                                                       (Series.num_of (snd sb))))
                (combine ss bs)))
  /\ RiskMetrics.risk_score 0.4 2.0 = 0.8%float.
Proof.
  intros Hwf _ Hp Hd Hs Hb. split; [|reflexivity].
  rewrite (calculate_risk_metrics_run _ _ _ Hs Hb). cbv zeta.
  set (col := map _ (combine ss bs)).
  assert (Hlen : List.length col = List.length (rows data)).
  { unfold col. rewrite length_map, length_combine.
    rewrite (getitem_length _ _ _ _ Hs), (getitem_length _ _ _ _ Hb). lia. }
  set (data' := setitem data "risk_score" Float64 col).
  assert (Hp' : has_column data' "parcelle_id" = true).
  { destruct (getitem data "parcelle_id") as [[d s]|] eqn:E.
    - eapply getitem_has_column. unfold data'.
      rewrite getitem_setitem_other; eauto. discriminate.
    - apply has_column_position in Hp as [n Hn]. unfold getitem in E.
      rewrite Hn in E. discriminate. }
  assert (Hd' : has_column data' "date" = true).
  { destruct (getitem data "date") as [[d s]|] eqn:E.
    - eapply getitem_has_column. unfold data'.
      rewrite getitem_setitem_other; eauto. discriminate.
    - apply has_column_position in Hd as [n Hn]. unfold getitem in E.
      rewrite Hn in E. discriminate. }
  destruct (positions_Ok ["parcelle_id"; "date"; "risk_score"] (names data'))
    as [ns Hns].
  { pose proof (has_column_setitem data "risk_score" Float64 col) as Hr'.
    fold data' in Hr'. unfold has_column in Hp', Hd', Hr'.
    cbn [forallb]. now rewrite Hp', Hd', Hr'. }
  assert (Hsel : exists out,
             select data' ["parcelle_id"; "date"; "risk_score"] = Ok out).
  { unfold select. rewrite Hns. simpl. now eexists. }
  destruct Hsel as [out Hout]. exists data', out. rewrite Hout.
  split; [reflexivity|]. split; [now apply names_select in Hout|].
  rewrite !(getitem_select _ _ _ _ Hout) by (simpl; tauto).
  unfold data'.
  rewrite !getitem_setitem_other by (assumption || discriminate).
  rewrite getitem_setitem_same by assumption.
  repeat split.
Qed.

Lemma calculate_risk_metrics_spec_witness :
  (exists data' out,
      RiskMetrics.calculate_risk_metrics Sample.readings = (data', Ok out) /\
      names out = ["parcelle_id"; "date"; "risk_score"] /\
      getitem out "parcelle_id" = getitem Sample.readings "parcelle_id" /\
      getitem out "date" = getitem Sample.readings "date" /\
      getitem out "risk_score"
      = Ok (Float64,
            map (fun sb => Num (RiskMetrics.risk_score (Series.num_of (fst sb))
                                                       (Series.num_of (snd sb))))
                (combine [Num 0.4%float] [Num 2.0%float])))
  /\ RiskMetrics.risk_score 0.4 2.0 = 0.8%float.
Proof.
  apply (calculate_risk_metrics_spec Sample.readings).
  - apply wfb_wf. reflexivity.
  - repeat constructor; simpl; intuition discriminate.
  - reflexivity.
  - reflexivity.
  - reflexivity.
  - reflexivity.
Defined.

(** C10. [calculate_risk_metrics] mutates its argument: after the call the
    caller's table has the column [risk_score], holding the scores; when the
    table had no such column it is a new, last column, and the table is no
    longer the one that was passed.  The other columns are as before.  This
    holds whether or not the call then returns (line 159 may still raise). *)
Theorem calculate_risk_metrics_mutates_argument (data : DataFrame) (ss bs : list cell) :
  wf data ->
  getitem data "stress_hydrique" = Ok (Float64, ss) ->
  getitem data "biomasse_estimee" = Ok (Float64, bs) ->
  has_column (fst (RiskMetrics.calculate_risk_metrics data)) "risk_score" = true /\
  getitem (fst (RiskMetrics.calculate_risk_metrics data)) "risk_score"
  = Ok (Float64,
        map (fun sb => Num (RiskMetrics.risk_score (Series.num_of (fst sb))
                                                   (Series.num_of (snd sb))))
            (combine ss bs)) /\
  (forall c, c <> "risk_score" -> has_column data c = true ->
             getitem (fst (RiskMetrics.calculate_risk_metrics data)) c
             = getitem data c) /\
  (has_column data "risk_score" = false ->
   names (fst (RiskMetrics.calculate_risk_metrics data))
   = names data ++ ["risk_score"] /\
   fst (RiskMetrics.calculate_risk_metrics data) <> data).
Proof.
  intros Hwf Hs Hb.
  rewrite (calculate_risk_metrics_run _ _ _ Hs Hb). cbv zeta. simpl fst.
  set (col := map _ (combine ss bs)).
  assert (Hlen : List.length col = List.length (rows data)).
  { unfold col. rewrite length_map, length_combine.
    rewrite (getitem_length _ _ _ _ Hs), (getitem_length _ _ _ _ Hb). lia. }
  split; [apply has_column_setitem|].
  split; [now apply getitem_setitem_same|].
  split; [intros c Hc Hin; now apply getitem_setitem_other|].
  intros Hnew. apply position_None in Hnew.
  pose proof (names_setitem_new data "risk_score" Float64 col Hnew) as Hn.
  split; [assumption|].
  intros Heq. rewrite Heq in Hn.
  apply (f_equal (@List.length string)) in Hn.
  rewrite length_app in Hn. simpl in Hn. lia.
Qed.

Lemma calculate_risk_metrics_mutates_argument_witness :
  has_column (fst (RiskMetrics.calculate_risk_metrics Sample.readings)) "risk_score" = true /\
  getitem (fst (RiskMetrics.calculate_risk_metrics Sample.readings)) "risk_score"
  = Ok (Float64,
        map (fun sb => Num (RiskMetrics.risk_score (Series.num_of (fst sb))
                                                   (Series.num_of (snd sb))))
            (combine [Num 0.4%float] [Num 2.0%float])) /\
  (forall c, c <> "risk_score" -> has_column Sample.readings c = true ->
             getitem (fst (RiskMetrics.calculate_risk_metrics Sample.readings)) c
             = getitem Sample.readings c) /\
  (has_column Sample.readings "risk_score" = false ->
   names (fst (RiskMetrics.calculate_risk_metrics Sample.readings))
   = names Sample.readings ++ ["risk_score"] /\
   fst (RiskMetrics.calculate_risk_metrics Sample.readings) <> Sample.readings).
Proof.
  apply (calculate_risk_metrics_mutates_argument Sample.readings).
  - apply wfb_wf. reflexivity.
  - reflexivity.
  - reflexivity.
Defined.

(** ** Running stateful code *)

Section Monad.

Context {W : Type}.

Lemma bind_Ok {A B} (m : M W A) (k : A -> M W B) w w1 a :
  m w = (w1, Ok a) -> Py.bind m k w = k a w1.
Proof. unfold Py.bind. now intros ->. Qed.

Lemma bind_Raise {A B} (m : M W A) (k : A -> M W B) w w1 e :
  m w = (w1, Raise e) -> Py.bind m k w = (w1, Raise e).
Proof. unfold Py.bind. now intros ->. Qed.

Lemma bind_inv_Ok {A B} (m : M W A) (k : A -> M W B) w w' b :
  Py.bind m k w = (w', Ok b) ->
  exists w1 a, m w = (w1, Ok a) /\ k a w1 = (w', Ok b).
Proof.
  unfold Py.bind. destruct (m w) as [w1 [a|e]]; intros H.
  - now exists w1, a.
  - discriminate.
Qed.

Lemma bind_inv_Raise {A B} (m : M W A) (k : A -> M W B) w w' e :
  Py.bind m k w = (w', Raise e) ->
  m w = (w', Raise e) \/ exists w1 a, m w = (w1, Ok a) /\ k a w1 = (w', Raise e).
Proof.
  unfold Py.bind. destruct (m w) as [w1 [a|e1]]; intros H.
  - right. now exists w1, a.
  - left. now injection H as -> ->.
Qed.

Lemma lift_inv {A} (r : result A) (w w' : W) x :
  Py.lift r w = (w', x) -> w' = w /\ x = r.
Proof. unfold Py.lift. intros H. now injection H as <- <-. Qed.

Lemma try_except_Ok {A} (m : M W A) h w w1 a :
  m w = (w1, Ok a) -> Py.try_except m h w = (w1, Ok a).
Proof. unfold Py.try_except. now intros ->. Qed.

Lemma try_except_Raise {A} (m : M W A) h w w1 e :
  m w = (w1, Raise e) -> Py.try_except m h w = h e w1.
Proof. unfold Py.try_except. now intros ->. Qed.

Variable R : W -> W -> Prop.
Hypothesis R_refl : forall w, R w w.
Hypothesis R_trans : forall a b c, R a b -> R b c -> R a c.

Lemma keeps_ret {A} (a : A) : keeps R (Py.ret a).
Proof. intros w. apply R_refl. Qed.

Lemma keeps_raise {A} e : keeps R (@Py.raise W A e).
Proof. intros w. apply R_refl. Qed.

Lemma keeps_lift {A} (r : result A) : keeps R (Py.lift r).
Proof. intros w. apply R_refl. Qed.

Lemma keeps_get : keeps R Py.get.
Proof. intros w. apply R_refl. Qed.

Lemma keeps_modify f : (forall w, R w (f w)) -> keeps R (Py.modify f).
Proof. intros H w. apply H. Qed.

Lemma keeps_bind {A B} (m : M W A) (k : A -> M W B) :
  keeps R m -> (forall a, keeps R (k a)) -> keeps R (Py.bind m k).
Proof.
  intros Hm Hk w. unfold Py.bind. specialize (Hm w).
  destruct (m w) as [w1 [a|e]]; simpl in *.
  - eapply R_trans; [exact Hm | apply Hk].
  - assumption.
Qed.

Lemma keeps_try_except {A} (m : M W A) h :
  keeps R m -> (forall e, keeps R (h e)) -> keeps R (Py.try_except m h).
Proof.
  intros Hm Hh w. unfold Py.try_except. specialize (Hm w).
  destruct (m w) as [w1 [a|e]]; simpl in *.
  - assumption.
  - eapply R_trans; [exact Hm | apply Hh].
Qed.

End Monad.

(** Goes through a computation step by step, leaving the steps that write
    to the world. *)
Ltac keeps_step :=
  first
    [ apply keeps_ret; assumption
    | apply keeps_raise; assumption
    | apply keeps_lift; assumption
    | apply keeps_get; assumption
    | apply keeps_bind; [assumption | | intros ?]
    | apply keeps_try_except; [assumption | | intros ?]
    | match goal with
      | |- keeps _ (if ?b then _ else _) => destruct b
      | |- keeps _ (match ?x with _ => _ end) => destruct x
      end ].

(** ** What the data manager leaves alone *)

Section ManagerFrame.

Context `{Numerics}.

(** A relation that ignores the held tables and the log is kept by every
    method of the data manager. *)
Variable R : World -> World -> Prop.
Hypothesis R_refl : forall w, R w w.
Hypothesis R_trans : forall a b c, R a b -> R b c -> R a c.
Hypothesis R_manager :
  forall w m, R w (mkWorld (disk w) m (dashboard w) (logs w)).
Hypothesis R_logs :
  forall w l, R w (mkWorld (disk w) (manager w) (dashboard w) l).

Lemma keeps_set_manager f : keeps R (set_manager f).
Proof. apply keeps_modify. intros w. apply R_manager. Qed.

Lemma keeps_logging l : keeps R (logging l).
Proof. apply keeps_modify. intros w. apply R_logs. Qed.

Lemma keeps_held e field : keeps R (held e field).
Proof. intros w. unfold held. destruct (field (manager w)); apply R_refl. Qed.

Lemma keeps_read_csv file : keeps R (DataManager.read_csv file).
Proof. intros w. apply R_refl. Qed.

Ltac manager_step :=
  first
    [ apply keeps_held
    | apply keeps_read_csv
    | apply keeps_logging
    | apply keeps_set_manager
    | keeps_step ].

Lemma keeps_load_data : keeps R DataManager.load_data.
Proof.
  unfold DataManager.load_data, set_monitoring_data, set_weather_data,
    set_soil_data, set_yield_history.
  repeat manager_step.
Qed.

Lemma keeps_merge_sources : keeps R DataManager.merge_sources.
Proof.
  unfold DataManager.merge_sources, DataManager.merge_weather_soil,
    DataManager.merge_yield, DataManager.check_yield_column.
  repeat manager_step.
Qed.

Lemma keeps_prepare_features : keeps R DataManager.prepare_features.
Proof.
  unfold DataManager.prepare_features, DataManager.prepare_features_try,
    DataManager.prepare_features_except, DataManager.index_dates,
    DataManager.convert_dates, DataManager.index_by_date,
    set_monitoring_data, set_weather_data, set_yield_history.
  repeat first [ apply keeps_merge_sources | manager_step ].
Qed.

End ManagerFrame.

(** ** The sources of the dashboard *)

Lemma same_full_sources_refl w : same_full_sources w w.
Proof. now split. Qed.

Lemma same_full_sources_trans a b c :
  same_full_sources a b -> same_full_sources b c -> same_full_sources a c.
Proof. intros [? ?] [? ?]. split; congruence. Qed.

Lemma create_data_sources_same_full_sources `{Numerics} :
  keeps same_full_sources Dashboard.create_data_sources.
Proof.
  pose proof same_full_sources_refl as R_refl.
  pose proof same_full_sources_trans as R_trans.
  assert (Hd : forall f,
             (forall d, full_yield_source (f d) = full_yield_source d /\
                        full_ndvi_source (f d) = full_ndvi_source d) ->
             keeps same_full_sources (set_dashboard f)).
  { intros f Hf. apply keeps_modify. intros w. apply Hf. }
  assert (Hl : forall l, keeps same_full_sources (logging l)).
  { intros l. apply keeps_modify. intros w. now split. }
  unfold Dashboard.create_data_sources, Dashboard.create_data_sources_try,
    Dashboard.create_data_sources_except, Dashboard.set_features,
    Dashboard.set_yield_source, Dashboard.set_ndvi_source.
  repeat first
    [ apply Hl
    | apply Hd; intros d; now split
    | apply keeps_load_data; first [assumption | intros; now split]
    | apply keeps_prepare_features; first [assumption | intros; now split]
    | keeps_step ].
Qed.

(** On the farm the preparation succeeds: the filtered sources are built,
    the full ones are not. *)
Example farm_dashboard_has_no_full_source :
  snd (@Dashboard.__init__ Reference.numerics Farm.start) = Ok tt /\
  option_map (fun s => names (data s))
             (yield_source (dashboard (fst (@Dashboard.__init__ Reference.numerics Farm.start))))
  = Some ["parcelle_id"; "date"; "rendement_estime"] /\
  option_map (fun s => names (data s))
             (ndvi_source (dashboard (fst (@Dashboard.__init__ Reference.numerics Farm.start))))
  = Some ["parcelle_id"; "date"; "ndvi"] /\
  full_yield_source (dashboard (fst (@Dashboard.__init__ Reference.numerics Farm.start)))
  = None /\
  full_ndvi_source (dashboard (fst (@Dashboard.__init__ Reference.numerics Farm.start)))
  = None.
Proof. repeat split; vm_compute; reflexivity. Qed.

(** C5 (what the code does).  However the preparation ends, the dashboard
    built by [__init__] holds no full source: [full_yield_source] and
    [full_ndvi_source] are still [None], also when the filtered sources
    were built. *)
Theorem full_sources_stay_None `{Numerics} (w : World) :
  full_yield_source (dashboard (fst (Dashboard.__init__ w))) = None /\
  full_ndvi_source (dashboard (fst (Dashboard.__init__ w))) = None.
Proof.
  unfold Dashboard.__init__, Py.bind, set_dashboard, Py.modify.
  match goal with
  | |- context [Dashboard.create_data_sources ?w0] =>
      pose proof (create_data_sources_same_full_sources w0) as [Hy Hn];
      destruct (Dashboard.create_data_sources w0) as [w1 r]
  end.
  simpl in *. now rewrite Hy, Hn.
Qed.

Lemma create_data_sources_except_run e w :
  snd (Dashboard.create_data_sources_except e w) = Ok tt /\
  DashboardSpec.left_empty e w (fst (Dashboard.create_data_sources_except e w)).
Proof. repeat split. Qed.

Lemma lacks_required_filter t :
  DashboardSpec.lacks_required t = true ->
  filter (fun c => negb (has_column t c)) Dashboard.required_columns <> [].
Proof.
  unfold DashboardSpec.lacks_required. intros Hex.
  apply existsb_exists in Hex as [c [Hin Hc]].
  intros Hnil.
  assert (Hf : In c (filter (fun c => negb (has_column t c)) Dashboard.required_columns))
    by now apply filter_In.
  now rewrite Hnil in Hf.
Qed.

(** C6. [create_data_sources] never raises: it returns normally in every
    world.  When loading raises, when preparing raises, when a required
    column ([parcelle_id], [date], [rendement_estime], [ndvi]) is missing
    from the prepared table, and in general whenever its [try] block
    raises, the failure is logged and the yield and NDVI sources are left
    [None]. *)
Theorem create_data_sources_never_raises `{Numerics} (w : World) :
  snd (Dashboard.create_data_sources w) = Ok tt /\
  (forall w1 e,
      Dashboard.create_data_sources_try w = (w1, Raise e) ->
      DashboardSpec.left_empty e w1 (fst (Dashboard.create_data_sources w))) /\
  (forall w1 e,
      DataManager.load_data w = (w1, Raise e) ->
      DashboardSpec.left_empty e w1 (fst (Dashboard.create_data_sources w))) /\
  (forall w1 w2 e,
      DataManager.load_data w = (w1, Ok tt) ->
      DataManager.prepare_features w1 = (w2, Raise e) ->
      DashboardSpec.left_empty e w2 (fst (Dashboard.create_data_sources w))) /\
  (forall w1 w2 t,
      DataManager.load_data w = (w1, Ok tt) ->
      DataManager.prepare_features w1 = (w2, Ok t) ->
      DashboardSpec.lacks_required t = true ->
      exists msg,
        DashboardSpec.left_empty (ValueError msg)
          (fst (Dashboard.set_features (Some t) w2))
          (fst (Dashboard.create_data_sources w))).
Proof.
  assert (Hgen : forall w1 e,
      Dashboard.create_data_sources_try w = (w1, Raise e) ->
      DashboardSpec.left_empty e w1 (fst (Dashboard.create_data_sources w))).
  { intros w1 e Hbody. unfold Dashboard.create_data_sources.
    rewrite (try_except_Raise _ _ _ _ _ Hbody).
    apply create_data_sources_except_run. }
  split; [|split; [exact Hgen|split; [|split]]].
  - unfold Dashboard.create_data_sources, Py.try_except.
    destruct (Dashboard.create_data_sources_try w) as [w1 [[]|e]].
    + reflexivity.
    + apply create_data_sources_except_run.
  - intros w1 e Hload. apply Hgen.
    unfold Dashboard.create_data_sources_try.
    now apply bind_Raise.
  - intros w1 w2 e Hload Hprep. apply Hgen.
    unfold Dashboard.create_data_sources_try.
    rewrite (bind_Ok _ _ _ _ _ Hload). now apply bind_Raise.
  - intros w1 w2 t Hload Hprep Hlack.
    apply lacks_required_filter in Hlack.
    destruct (filter (fun c => negb (has_column t c)) Dashboard.required_columns)
      as [|c cs] eqn:Hmiss; [congruence|].
    eexists. apply Hgen.
    unfold Dashboard.create_data_sources_try.
    rewrite (bind_Ok _ _ _ _ _ Hload), (bind_Ok _ _ _ _ _ Hprep).
    erewrite bind_Ok by reflexivity.
    rewrite Hmiss. reflexivity.
Qed.

Lemma wf_setitem df c d s :
  wf df -> List.length s = List.length (rows df) -> wf (setitem df c d s).
Proof.
  intros Hwf Hlen. unfold wf, setitem.
  destruct (position c (names df)) as [n|]; simpl.
  - rewrite set_nth_length. apply Forall_map.
    revert s Hlen. induction Hwf as [|r rs Hr _ IH]; intros [|v s] Hlen;
      simpl in *; try discriminate; constructor.
    + simpl. now rewrite set_nth_length.
    + apply IH. lia.
  - rewrite length_app. simpl. apply Forall_map.
    revert s Hlen. induction Hwf as [|r rs Hr _ IH]; intros [|v s] Hlen;
      simpl in *; try discriminate; constructor.
    + simpl. rewrite length_app. simpl. lia.
    + apply IH. lia.
Qed.

Lemma rows_setitem_length df c d s :
  List.length s = List.length (rows df) ->
  List.length (rows (setitem df c d s)) = List.length (rows df).
Proof.
  intros Hlen. unfold setitem.
  destruct (position c (names df)); simpl;
    now rewrite length_map, length_combine, Hlen, Nat.min_id.
Qed.

(** ** The bins of the stress matrix *)

(** C8 (as the claim states it, refuted).  The bucket of the stress index
    0.37 is not the float 0.3. *)
Lemma stress_bin_037_is_not_03 : Dashboard.stress_bin 0.37 <> 0.3%float.
Proof.
  intros Heq.
  apply (f_equal (fun x => PrimFloat.eqb x 0.3)) in Heq.
  vm_compute in Heq. discriminate.
Qed.

(** C8 (amended).  [create_stress_matrix] gives every row of the feature
    table the bucket [(t // 5) * 5] of its temperature [t] and the bucket
    [(s // 0.1) * 0.1] of its stress [s], in binary64.  The temperature
    22.7 falls into bucket 20; the stress 0.37 falls into the third bucket,
    whose label is the float [3 * 0.1], that is 0.30000000000000004: within
    one rounding of 0.3. *)
Theorem create_stress_matrix_bins (w : World) (t : DataFrame) (ts ss : list cell) :
  features (dashboard w) = Some t ->
  wf t ->
  getitem t "temperature" = Ok (Float64, ts) ->
  getitem t "stress_hydrique" = Ok (Float64, ss) ->
  (exists t',
      features (dashboard (fst (Dashboard.create_stress_matrix w))) = Some t' /\
      getitem t' "temp_bin"
      = Ok (Float64, map (fun c => Num (Dashboard.temp_bin (Series.num_of c))) ts) /\
      getitem t' "stress_bin"
      = Ok (Float64, map (fun c => Num (Dashboard.stress_bin (Series.num_of c))) ss))
  /\ (forall x, Dashboard.temp_bin x = (Float64.floor_divide x 5 * 5)%float)
  /\ (forall x, Dashboard.stress_bin x = (Float64.floor_divide x 0.1 * 0.1)%float)
  /\ Dashboard.temp_bin 22.7 = 20%float
  /\ Float64.floor_divide 0.37 0.1 = 3%float
  /\ Dashboard.stress_bin 0.37 = (3 * 0.1)%float
  /\ Dashboard.stress_bin 0.37 = 0.30000000000000004%float
  /\ PrimFloat.ltb (PrimFloat.abs (Dashboard.stress_bin 0.37 - 0.3)) 1e-16 = true.
Proof.
  intros Hf Hwf Ht Hs.
  split; [|repeat split; reflexivity].
  unfold Dashboard.temp_bin, Dashboard.stress_bin.
  set (tb := map (fun c => Num (Float64.floor_divide (Series.num_of c) 5 * 5)%float) ts).
  set (sb := map (fun c => Num (Float64.floor_divide (Series.num_of c) 0.1 * 0.1)%float) ss).
  set (t1 := setitem t "temp_bin" Float64 tb).
  set (t2 := setitem t1 "stress_bin" Float64 sb).
  assert (Ltb : List.length tb = List.length (rows t)).
  { unfold tb. now rewrite length_map, (getitem_length _ _ _ _ Ht). }
  assert (Hwf1 : wf t1) by now apply wf_setitem.
  assert (Lsb : List.length sb = List.length (rows t1)).
  { unfold sb, t1. rewrite length_map, (getitem_length _ _ _ _ Hs).
    now rewrite rows_setitem_length. }
  assert (Hs1 : getitem t1 "stress_hydrique" = Ok (Float64, ss)).
  { unfold t1. rewrite getitem_setitem_other; try assumption; try discriminate.
    eapply getitem_has_column; eassumption. }
  assert (Hfinal : features (dashboard (fst (Dashboard.create_stress_matrix w)))
                   = Some t2).
  { unfold Dashboard.create_stress_matrix, Py.try_except, Py.bind,
      Dashboard.the_features. rewrite Hf.
    rewrite (getitem_has_column _ _ _ _ Ht), (getitem_has_column _ _ _ _ Hs).
    cbn [negb orb]. unfold Py.lift. rewrite Ht.
    cbn [Series.floordiv_scalar Series.mul_scalar fst snd].
    unfold Dashboard.set_feature_column at 1, set_dashboard, Py.modify.
    cbn [dashboard features option_map]. rewrite Hf. cbn [option_map].
    rewrite map_map. cbn [Series.num_of]. fold tb. fold t1.
    rewrite Hs1.
    cbn [Series.floordiv_scalar Series.mul_scalar fst snd].
    unfold Dashboard.set_feature_column at 1, set_dashboard, Py.modify.
    cbn [dashboard features option_map].
    rewrite map_map. cbn [Series.num_of]. fold sb. fold t2.
    destruct (Counting.group_size t2 ["parcelle_id"; "temp_bin"; "stress_bin"])
      as [m|e]; [|reflexivity].
    destruct (getitem m "count") as [c|e]; reflexivity. }
  exists t2. split; [exact Hfinal|]. unfold t2. split.
  - rewrite getitem_setitem_other; try assumption; try discriminate.
    + unfold t1. now apply getitem_setitem_same.
    + unfold t1. apply has_column_setitem.
  - now apply getitem_setitem_same.
Qed.

Lemma create_stress_matrix_bins_witness :
  (exists t',
      features (dashboard (fst (Dashboard.create_stress_matrix Farm.observing))) = Some t' /\
      getitem t' "temp_bin"
      = Ok (Float64,
            map (fun c => Num (Dashboard.temp_bin (Series.num_of c)))
                [Num 21.5; Num 19.0; Num 22.7; Num 24.0; Num 20.0]%float) /\
      getitem t' "stress_bin"
      = Ok (Float64,
            map (fun c => Num (Dashboard.stress_bin (Series.num_of c)))
                [Num 0.4; Num 0.2; Num 0.37; Num 0.5; Num 0.3]%float))
  /\ (forall x, Dashboard.temp_bin x = (Float64.floor_divide x 5 * 5)%float)
  /\ (forall x, Dashboard.stress_bin x = (Float64.floor_divide x 0.1 * 0.1)%float)
  /\ Dashboard.temp_bin 22.7 = 20%float
  /\ Float64.floor_divide 0.37 0.1 = 3%float
  /\ Dashboard.stress_bin 0.37 = (3 * 0.1)%float
  /\ Dashboard.stress_bin 0.37 = 0.30000000000000004%float
  /\ PrimFloat.ltb (PrimFloat.abs (Dashboard.stress_bin 0.37 - 0.3)) 1e-16 = true.
Proof.
  apply (create_stress_matrix_bins Farm.observing Farm.monitoring).
  - reflexivity.
  - apply wfb_wf. reflexivity.
  - reflexivity.
  - reflexivity.
Defined.

(** ** The stable sort *)

Section StableSort.

Context {A : Type} (leb : A -> A -> bool).

Lemma insert_sorted_perm x l : Permutation (x :: l) (Frame.insert_sorted leb x l).
Proof.
  induction l as [|y l IH]; simpl; [reflexivity|].
  destruct (leb x y); [reflexivity|].
  rewrite perm_swap. now constructor.
Qed.

Lemma stable_sort_perm l : Permutation l (Frame.stable_sort leb l).
Proof.
  unfold Frame.stable_sort. induction l as [|x l IH]; simpl; [reflexivity|].
  rewrite <- insert_sorted_perm. now constructor.
Qed.

(** [before] is the order the sort has to establish: the key does not
    decrease and, among equal keys, the input order is kept.  [earlier]
    is the input order. *)
Variables before earlier : A -> A -> Prop.
Hypothesis before_trans : forall a b c, before a b -> before b c -> before a c.
Hypothesis leb_true : forall a b, earlier a b -> leb a b = true -> before a b.
Hypothesis leb_false : forall a b, earlier a b -> leb a b = false -> before b a.

Lemma insert_sorted_sorted x l :
  Forall (earlier x) l -> StronglySorted before l ->
  StronglySorted before (Frame.insert_sorted leb x l).
Proof.
  intros Hx Hs. induction Hs as [|y l Hs IH Hy]; simpl.
  - repeat constructor.
  - apply Forall_cons_iff in Hx as [Hxy Hxl].
    destruct (leb x y) eqn:E.
    + constructor; [now constructor|].
      constructor; [now apply leb_true|].
      eapply Forall_impl; [|exact Hy]. intros z Hz.
      eapply before_trans; [apply leb_true; eassumption | exact Hz].
    + constructor; [now apply IH|].
      eapply Permutation_Forall; [apply insert_sorted_perm|].
      constructor; [now apply leb_false | assumption].
Qed.

Lemma stable_sort_sorted l :
  StronglySorted earlier l -> StronglySorted before (Frame.stable_sort leb l).
Proof.
  unfold Frame.stable_sort. induction 1 as [|x l Hs IH Hx]; simpl.
  - constructor.
  - apply insert_sorted_sorted; [|assumption].
    eapply Permutation_Forall; [apply stable_sort_perm | exact Hx].
Qed.

End StableSort.

Lemma seq_increasing start len : StronglySorted lt (seq start len).
Proof.
  revert start. induction len as [|len IH]; intros start; simpl; constructor.
  - apply IH.
  - apply Forall_forall. intros x Hx. apply in_seq in Hx. lia.
Qed.

Lemma filter_StronglySorted {A} (R : A -> A -> Prop) p l :
  StronglySorted R l -> StronglySorted R (filter p l).
Proof.
  induction 1 as [|x l Hs IH Hx]; simpl; [constructor|].
  destruct (p x); [|assumption].
  constructor; [assumption|].
  apply Forall_forall. intros y Hy. apply filter_In in Hy as [Hy _].
  rewrite Forall_forall in Hx. now apply Hx.
Qed.

(** ** The selection callbacks *)

Section Callbacks.

Import Js JsSpec.

Variable full : object.

Lemma keys_assign o k x : keys (assign o k x) = keys o.
Proof.
  induction o as [|[k' v'] o IH]; simpl; [reflexivity|].
  destruct (String.eqb k k'); simpl; [reflexivity | now rewrite IH].
Qed.

Lemma lookup_In o k : In k (keys o) -> exists v, lookup o k = Some v.
Proof.
  induction o as [|[k' v'] o IH]; simpl; [tauto|].
  intros [->|Hin].
  - rewrite String.eqb_refl. now eexists.
  - destruct (String.eqb k k'); [now eexists | now apply IH].
Qed.

Lemma lookup_assign_same o k v x :
  lookup o k = Some v -> lookup (assign o k x) k = Some x.
Proof.
  induction o as [|[k' v'] o IH]; simpl; [discriminate|].
  destruct (String.eqb k k') eqn:E; simpl; rewrite E; auto.
Qed.

Lemma assign_same o k v : lookup o k = Some v -> assign o k v = o.
Proof.
  induction o as [|[k' v'] o IH]; simpl; [reflexivity|].
  destruct (String.eqb k k'); intros Hl.
  - now injection Hl as ->.
  - now rewrite IH.
Qed.

Lemma assign_assign o k x y : assign (assign o k x) k y = assign o k y.
Proof.
  induction o as [|[k' v'] o IH]; simpl; [reflexivity|].
  destruct (String.eqb k k') eqn:E; simpl; rewrite E; [reflexivity|].
  now rewrite IH.
Qed.

Lemma push_run key i a filt v :
  lookup full key = Some a -> lookup filt key = Some v ->
  push full key i filt = (assign filt key (v ++ [at_index a i]), Ok tt).
Proof.
  intros Ha Hv. unfold push, array_of, Py.bind, Py.lift, Py.modify.
  now rewrite Ha, Hv.
Qed.

Lemma for_each_push key a ids filt v :
  lookup full key = Some a -> lookup filt key = Some v ->
  for_each ids (push full key) filt
  = (assign filt key (v ++ map (at_index a) ids), Ok tt).
Proof.
  intros Ha. revert filt v. induction ids as [|i ids IH]; intros filt v Hv; simpl.
  - now rewrite app_nil_r, (assign_same _ _ _ Hv).
  - unfold Py.bind. rewrite (push_run _ _ _ _ _ Ha Hv).
    rewrite (IH _ (v ++ [at_index a i])) by (eapply lookup_assign_same; eassumption).
    now rewrite assign_assign, <- app_assoc.
Qed.

Lemma keys_extended ids ks o : keys (extended full ids ks o) = keys o.
Proof.
  unfold keys, extended. rewrite map_map. apply map_ext.
  intros [k v]. simpl. now destruct (existsb (String.eqb k) ks).
Qed.

Lemma extended_nil ids o : extended full ids [] o = o.
Proof. unfold extended. simpl. apply map_id. Qed.

Lemma extended_assign ids k ks o v :
  NoDup (keys o) -> ~ In k ks -> lookup o k = Some v ->
  extended full ids ks (assign o k (v ++ map (at_index (column full k)) ids))
  = extended full ids (k :: ks) o.
Proof.
  intros Hnd Hk. induction o as [|[k' v'] o IH]; simpl; [discriminate|].
  apply NoDup_cons_iff in Hnd as [Hk' Hnd].
  destruct (String.eqb_spec k k') as [<-|Hne]; intros Hl.
  - injection Hl as ->. simpl. rewrite String.eqb_refl. simpl.
    assert (Hex : existsb (String.eqb k) ks = false).
    { destruct (existsb (String.eqb k) ks) eqn:E; [|reflexivity].
      apply existsb_exists in E as [x [Hx E]].
      apply String.eqb_eq in E. now subst. }
    rewrite Hex. f_equal.
    unfold extended. apply map_ext_in. intros [k2 v2] Hin. simpl.
    destruct (String.eqb_spec k2 k) as [->|Hne2]; [|reflexivity].
    exfalso. apply Hk'. unfold keys. now apply (in_map fst) in Hin.
  - simpl. rewrite (IH Hnd Hl).
    destruct (String.eqb_spec k' k) as [->|_]; [congruence|]. reflexivity.
Qed.

Lemma for_each_keys ids ks o :
  NoDup ks -> NoDup (keys o) ->
  (forall k, In k ks -> In k (keys o) /\ lookup full k <> None) ->
  for_each ks (fun key => for_each ids (push full key)) o
  = (extended full ids ks o, Ok tt).
Proof.
  intros Hks. revert o. induction Hks as [|k ks Hk Hks IH]; intros o Hnd Hin; simpl.
  - now rewrite extended_nil.
  - destruct (Hin k (or_introl eq_refl)) as [Hko Hkf].
    destruct (lookup_In _ _ Hko) as [v Hv].
    destruct (lookup full k) as [a|] eqn:Ha; [|congruence].
    unfold Py.bind. rewrite (for_each_push _ _ _ _ _ Ha Hv).
    rewrite IH.
    + f_equal. replace a with (column full k) by (unfold column; now rewrite Ha).
      now apply extended_assign.
    + now rewrite keys_assign.
    + intros k' Hk'. rewrite keys_assign. apply Hin. now right.
Qed.

Lemma lookup_extended ids o k v a :
  In k (keys o) -> lookup o k = Some v -> lookup full k = Some a ->
  lookup (extended full ids (keys o) o) k = Some (v ++ map (at_index a) ids).
Proof.
  intros Hin Hv Ha.
  assert (G : forall ks, In k ks ->
                lookup (extended full ids ks o) k = Some (v ++ map (at_index a) ids)).
  { intros ks Hks. clear Hin. induction o as [|[k' v'] o IH]; simpl in *;
      [discriminate|].
    destruct (String.eqb_spec k k') as [<-|Hne].
    - injection Hv as ->.
      assert (Hex : existsb (String.eqb k) ks = true).
      { apply existsb_exists. exists k. split; [assumption | apply String.eqb_refl]. }
      rewrite Hex. simpl. rewrite String.eqb_refl. unfold column. now rewrite Ha.
    - destruct (existsb (String.eqb k') ks); simpl;
        destruct (String.eqb_spec k k'); try congruence; now apply IH. }
  now apply G.
Qed.

Lemma clear_run (filt : object) :
  clear filt = (map (fun kv => (fst kv, @nil value)) filt, Ok tt).
Proof. reflexivity. Qed.

Lemma keys_cleared (filt : object) :
  keys (map (fun kv => (fst kv, @nil value)) filt) = keys filt.
Proof. unfold keys. rewrite map_map. now apply map_ext. Qed.

Lemma lookup_cleared (filt : object) k :
  In k (keys filt) ->
  lookup (map (fun kv => (fst kv, @nil value)) filt) k = Some [].
Proof.
  induction filt as [|[k' v'] o IH]; simpl; [tauto|].
  intros [->|Hin].
  - now rewrite String.eqb_refl.
  - destruct (String.eqb k k'); [reflexivity | now apply IH].
Qed.

(** Pushing the rows [ids] to every column full of the cleared source shows them. *)
Lemma extended_shows (filt : object) ids :
  (forall k, In k (keys filt) -> lookup full k <> None) ->
  shows full
        (extended full ids (keys (map (fun kv => (fst kv, @nil value)) filt))
                  (map (fun kv => (fst kv, @nil value)) filt))
        (keys filt) ids.
Proof.
  intros Hfull. split.
  - now rewrite keys_extended, keys_cleared.
  - intros k Hk. destruct (lookup full k) as [a|] eqn:Ha;
      [|now apply Hfull in Hk].
    exists a. split; [reflexivity|].
    rewrite (lookup_extended _ _ _ [] a).
    + reflexivity.
    + now rewrite keys_cleared.
    + now apply lookup_cleared.
    + assumption.
Qed.

End Callbacks.

Section Selection.

Import Js JsSpec.

Variable full : object.

Lemma for_each_ext {A} (l : list A) (f g : A -> M object unit) :
  (forall a o, f a o = g a o) -> forall o, for_each l f o = for_each l g o.
Proof.
  intros Hfg. induction l as [|a l IH]; intros o; simpl; [reflexivity|].
  unfold Py.bind. rewrite Hfg. destruct (g a o) as [o' [u|e]]; [apply IH | reflexivity].
Qed.

Lemma extended_app ids1 ids2 ks o :
  extended full ids2 ks (extended full ids1 ks o) = extended full (ids1 ++ ids2) ks o.
Proof.
  unfold extended. rewrite map_map. apply map_ext. intros [k v]. simpl.
  destruct (existsb (String.eqb k) ks) eqn:E; simpl; rewrite E; [|reflexivity].
  now rewrite map_app, app_assoc.
Qed.

Lemma extended_no_rows ks o : extended full [] ks o = o.
Proof.
  unfold extended. rewrite <- (map_id o) at 2. apply map_ext. intros [k v]. simpl.
  destruct (existsb (String.eqb k) ks); [|reflexivity]. now rewrite app_nil_r.
Qed.

Lemma for_each_row i o :
  NoDup (keys o) -> (forall k, In k (keys o) -> lookup full k <> None) ->
  for_each (keys o) (fun key => push full key i) o
  = (extended full [i] (keys o) o, Ok tt).
Proof.
  intros Hnd Hfull.
  rewrite <- (for_each_keys full [i] (keys o) o); try assumption.
  - apply for_each_ext. intros key o'. simpl. unfold Py.bind, Py.ret.
    now destruct (push full key i o') as [o'' [[]|e]].
  - intros k Hk. split; [assumption | now apply Hfull].
Qed.

Lemma for_each_rows (p : nat -> bool) l o :
  NoDup (keys o) -> (forall k, In k (keys o) -> lookup full k <> None) ->
  for_each l (fun i => if p i
                       then Py.bind Py.get (fun filt =>
                              for_each (keys filt) (fun key => push full key i))
                       else Py.ret tt) o
  = (extended full (filter p l) (keys o) o, Ok tt).
Proof.
  revert o. induction l as [|i l IH]; intros o Hnd Hfull; simpl.
  - now rewrite extended_no_rows.
  - unfold Py.bind at 1. destruct (p i).
    + unfold Py.bind at 1, Py.get. rewrite (for_each_row i o Hnd Hfull).
      rewrite IH; rewrite ?keys_extended; try assumption.
      now rewrite extended_app.
    + unfold Py.ret. now apply IH.
Qed.

Lemma shown_before_trans dates a b c :
  shown_before dates a b -> shown_before dates b c -> shown_before dates a c.
Proof. unfold shown_before. lia. Qed.

Lemma sort_by_date_sorted dates (indices : list nat) :
  lookup full "date" = Some dates ->
  StronglySorted lt indices ->
  (forall i, In i indices -> time_value (at_index dates i) <> None) ->
  exists shown,
    sort_by_date full indices = Ok shown /\
    Permutation shown indices /\
    StronglySorted (shown_before dates) shown.
Proof.
  intros Hd Hs Hv.
  set (earlier := fun i j : nat =>
                    (i < j)%nat /\ time_value (at_index dates i) <> None
                    /\ time_value (at_index dates j) <> None).
  set (leb := fun a b => date_leb (at_index dates a) (at_index dates b)).
  assert (Hsort : StronglySorted (shown_before dates) (Frame.stable_sort leb indices)).
  { apply (stable_sort_sorted leb (shown_before dates) earlier).
    - apply shown_before_trans.
    - intros a b (Hab & Ha & Hb). unfold leb, date_leb, shown_before, date_at.
      destruct (time_value (at_index dates a)); [|congruence].
      destruct (time_value (at_index dates b)); [|congruence].
      intros Hle. apply Z.leb_le in Hle. lia.
    - intros a b (Hab & Ha & Hb). unfold leb, date_leb, shown_before, date_at.
      destruct (time_value (at_index dates a)); [|congruence].
      destruct (time_value (at_index dates b)); [|congruence].
      intros Hle. apply Z.leb_gt in Hle. lia.
    - clear - Hs Hv. induction Hs as [|i l Hs IH Hi]; constructor.
      + apply IH. intros j Hj. apply Hv. now right.
      + rewrite Forall_forall in *. intros j Hj. repeat split.
        * now apply Hi.
        * apply Hv. now left.
        * apply Hv. now right. }
  assert (Hperm : Permutation (Frame.stable_sort leb indices) indices).
  { symmetry. apply stable_sort_perm. }
  unfold sort_by_date, array_of. rewrite Hd. simpl.
  destruct indices as [|i [|j l]].
  - exists []. repeat split; constructor.
  - exists [i]. repeat split; [reflexivity|].
    constructor; constructor.
  - eexists. split; [reflexivity|]. split; assumption.
Qed.

End Selection.

(** C9. Whatever the full dataset and the selection: the callback of the
    yield chart replaces the visible data by exactly the rows of the full
    dataset whose [parcelle_id] is the selection, by ascending date (rows
    of the same date in source order); the callback of the NDVI chart by
    the same rows in source order.  The full dataset has the columns of the
    visible source, and the dates of the selected rows are valid. *)
Theorem selection_callbacks_filter_and_sort
  (full filt : Js.object) (choix : Js.value) (ids dates : list Js.value) :
  NoDup (Js.keys filt) ->
  (forall k, In k (Js.keys filt) -> Js.lookup full k <> None) ->
  Js.lookup full "parcelle_id" = Some ids ->
  Js.lookup full "date" = Some dates ->
  (forall i, In i (JsSpec.selected ids choix) ->
             Js.time_value (Js.at_index dates i) <> None) ->
  (exists filt' shown,
      Js.callback_yield full choix filt = (filt', Ok tt) /\
      JsSpec.shows full filt' (Js.keys filt) shown /\
      Permutation shown (JsSpec.selected ids choix) /\
      StronglySorted (JsSpec.shown_before dates) shown)
  /\
  (exists filt',
      Js.callback_ndvi full choix filt = (filt', Ok tt) /\
      JsSpec.shows full filt' (Js.keys filt) (JsSpec.selected ids choix))
  /\
  (forall i, In i (JsSpec.selected ids choix) <->
             (i < List.length ids)%nat
             /\ Js.strict_equals (Js.at_index ids i) choix = true).
Proof.
  intros Hnd Hfull Hids Hdates Hvalid.
  assert (Hnd0 : NoDup (Js.keys (map (fun kv => (fst kv, @nil Js.value)) filt)))
    by now rewrite keys_cleared.
  assert (Hfull0 : forall k,
             In k (Js.keys (map (fun kv => (fst kv, @nil Js.value)) filt)) ->
             Js.lookup full k <> None)
    by (intros k; rewrite keys_cleared; apply Hfull).
  split; [|split].
  - destruct (sort_by_date_sorted full dates (JsSpec.selected ids choix) Hdates)
      as (shown & Hsort & Hperm & Hsorted).
    { apply filter_StronglySorted, seq_increasing. }
    { assumption. }
    exists (extended full shown
                     (Js.keys (map (fun kv => (fst kv, @nil Js.value)) filt))
                     (map (fun kv => (fst kv, @nil Js.value)) filt)), shown.
    split; [|split; [now apply extended_shows | split; assumption]].
    unfold Js.callback_yield, Py.bind, Py.lift, Py.get, Js.matching, Js.array_of.
    rewrite clear_run, Hids. simpl Py.rbind.
    fold (JsSpec.selected ids choix). cbv iota beta. rewrite Hsort.
    apply for_each_keys; try assumption.
    intros k Hk. split; [assumption | now apply Hfull0].
  - eexists. split; [|now apply extended_shows].
    unfold Js.callback_ndvi, Py.bind at 1 2, Py.lift, Js.array_of.
    rewrite clear_run, Hids.
    rewrite (for_each_rows full
               (fun i => Js.strict_equals (Js.at_index ids i) choix)); try assumption.
    reflexivity.
  - intros i. unfold JsSpec.selected. rewrite filter_In, in_seq. intuition lia.
Qed.

Lemma selection_callbacks_filter_and_sort_witness :
  (exists filt' shown,
      Js.callback_yield Browser.full_yield (Js.String "P001") Browser.visible_yield
      = (filt', Ok tt) /\
      JsSpec.shows Browser.full_yield filt' (Js.keys Browser.visible_yield) shown /\
      Permutation shown
        (JsSpec.selected
           [Js.String "P001"; Js.String "P002"; Js.String "P001"; Js.String "P001"]
           (Js.String "P001")) /\
      StronglySorted
        (JsSpec.shown_before
           [Js.Number 1677542400000; Js.Number 1675123200000;
            Js.Number 1675123200000; Js.Number 1672444800000])
        shown)
  /\
  (exists filt',
      Js.callback_ndvi Browser.full_yield (Js.String "P001") Browser.visible_yield
      = (filt', Ok tt) /\
      JsSpec.shows Browser.full_yield filt' (Js.keys Browser.visible_yield)
        (JsSpec.selected
           [Js.String "P001"; Js.String "P002"; Js.String "P001"; Js.String "P001"]
           (Js.String "P001")))
  /\
  (forall i,
      In i (JsSpec.selected
              [Js.String "P001"; Js.String "P002"; Js.String "P001"; Js.String "P001"]
              (Js.String "P001")) <->
      (i < 4)%nat
      /\ Js.strict_equals
           (Js.at_index
              [Js.String "P001"; Js.String "P002"; Js.String "P001"; Js.String "P001"] i)
           (Js.String "P001") = true).
Proof.
  apply (selection_callbacks_filter_and_sort
           Browser.full_yield Browser.visible_yield (Js.String "P001")).
  - repeat constructor; simpl; intuition discriminate.
  - simpl. intros k [<-|[<-|[<-|[<-|[]]]]]; discriminate.
  - reflexivity.
  - reflexivity.
  - simpl. intros i [<-|[<-|[<-|[]]]]; vm_compute; discriminate.
Defined.

(** ** What a method of the data manager depends on *)

Section Determined.

Lemma determined_ret {A} (a : A) : determined (Py.ret a).
Proof. intros w w' Hm. now split. Qed.

Lemma determined_raise {A} e : determined (@Py.raise World A e).
Proof. intros w w' Hm. now split. Qed.

Lemma determined_lift {A} (r : result A) : determined (Py.lift r).
Proof. intros w w' Hm. now split. Qed.

Lemma determined_held e field : determined (held e field).
Proof.
  intros w w' Hm. unfold held. rewrite <- Hm.
  destruct (field (manager w)); now split.
Qed.

Lemma determined_set_manager f : determined (set_manager f).
Proof. intros w w' Hm. simpl. now rewrite Hm. Qed.

Lemma determined_logging l : determined (logging l).
Proof. intros w w' Hm. now split. Qed.

Lemma determined_bind {A B} (m : M World A) (k : A -> M World B) :
  determined m -> (forall a, determined (k a)) -> determined (Py.bind m k).
Proof.
  intros Hm Hk w w' Hw. unfold Py.bind. destruct (Hm w w' Hw) as [H1 H2].
  destruct (m w) as [w1 r1], (m w') as [w1' r1']. simpl in *. subst r1'.
  destruct r1 as [a|e]; [now apply Hk | now split].
Qed.

Lemma determined_try_except {A} (m : M World A) h :
  determined m -> (forall e, determined (h e)) -> determined (Py.try_except m h).
Proof.
  intros Hm Hh w w' Hw. unfold Py.try_except. destruct (Hm w w' Hw) as [H1 H2].
  destruct (m w) as [w1 r1], (m w') as [w1' r1']. simpl in *. subst r1'.
  destruct r1 as [a|e]; [now split | now apply Hh].
Qed.

Ltac determined_step :=
  first
    [ apply determined_ret
    | apply determined_raise
    | apply determined_lift
    | apply determined_held
    | apply determined_set_manager
    | apply determined_logging
    | apply determined_bind; [| intros ?]
    | apply determined_try_except; [| intros ?]
    | match goal with
      | |- determined (if ?b then _ else _) => destruct b
      | |- determined (match ?x with _ => _ end) => destruct x
      end ].

Lemma determined_prepare_features `{Numerics} :
  determined DataManager.prepare_features.
Proof.
  unfold DataManager.prepare_features, DataManager.prepare_features_try,
    DataManager.prepare_features_except, DataManager.index_dates,
    DataManager.convert_dates, DataManager.index_by_date,
    DataManager.merge_sources, DataManager.merge_weather_soil,
    DataManager.merge_yield, DataManager.check_yield_column,
    set_monitoring_data, set_weather_data, set_yield_history.
  repeat determined_step.
Qed.

End Determined.

(** The held tables and the files are kept by what only reads them. *)

Lemma same_manager_refl w : same_manager w w.
Proof. reflexivity. Qed.
Lemma same_manager_trans a b c :
  same_manager a b -> same_manager b c -> same_manager a c.
Proof. unfold same_manager. congruence. Qed.
Lemma same_disk_refl w : same_disk w w.
Proof. reflexivity. Qed.
Lemma same_disk_trans a b c : same_disk a b -> same_disk b c -> same_disk a c.
Proof. unfold same_disk. congruence. Qed.

Lemma prepare_features_same_disk `{Numerics} :
  keeps same_disk DataManager.prepare_features.
Proof.
  apply keeps_prepare_features;
    first [apply same_disk_refl | apply same_disk_trans | reflexivity].
Qed.

Lemma load_data_same_disk : keeps same_disk DataManager.load_data.
Proof.
  apply keeps_load_data;
    first [apply same_disk_refl | apply same_disk_trans | reflexivity].
Qed.

Lemma merge_sources_same_manager `{Numerics} :
  keeps same_manager DataManager.merge_sources.
Proof.
  pose proof same_manager_refl as R_refl.
  pose proof same_manager_trans as R_trans.
  assert (Hh : forall e f, keeps same_manager (held e f)).
  { intros e f w. unfold held. now destruct (f (manager w)). }
  unfold DataManager.merge_sources, DataManager.merge_weather_soil,
    DataManager.merge_yield, DataManager.check_yield_column.
  repeat first [ apply Hh | keeps_step ].
Qed.

(** After a fresh load the held tables are the files, whatever was held. *)
Lemma load_data_from_disk w w1 :
  DataManager.load_data w = (w1, Ok tt) ->
  exists m ws so y,
    disk w = mkDisk (Ok m) (Ok ws) (Ok so) (Ok y) /\
    manager w1 = mkManager (Some m) (Some ws) (Some so) (Some y).
Proof.
  unfold DataManager.load_data, DataManager.read_csv, Py.bind,
    set_monitoring_data, set_weather_data, set_soil_data, set_yield_history,
    set_manager, Py.modify.
  destruct (disk w) as [[m|e1] [ws|e2] [so|e3] [y|e4]]; simpl; try discriminate.
  intros Heq. injection Heq as <-. now exists m, ws, so, y.
Qed.

Lemma load_data_determined_by_disk w w' :
  disk w = disk w' ->
  snd (DataManager.load_data w) = snd (DataManager.load_data w') /\
  (is_ok (snd (DataManager.load_data w)) = true ->
   manager (fst (DataManager.load_data w)) = manager (fst (DataManager.load_data w'))).
Proof.
  unfold DataManager.load_data, DataManager.read_csv, Py.bind,
    set_monitoring_data, set_weather_data, set_soil_data, set_yield_history,
    set_manager, Py.modify. intros <-.
  destruct (disk w) as [[m|e1] [ws|e2] [so|e3] [y|e4]]; simpl; split;
    try reflexivity; discriminate.
Qed.

(** ** Running [index_dates] *)

Lemma convert_dates_run field set w t :
  field (manager w) = Some t ->
  DataManager.convert_dates field set w
  = match dated t with
    | Ok t' => set t' w
    | Raise e => (w, Raise e)
    end.
Proof.
  intros Hf. unfold DataManager.convert_dates, Py.bind, held, Py.lift, dated.
  rewrite Hf. destruct (getitem t "date") as [s|e]; simpl; [|reflexivity].
  now destruct (Frame.to_datetime s).
Qed.

Lemma index_by_date_run field set w t :
  field (manager w) = Some t ->
  DataManager.index_by_date field set w
  = match Frame.set_index t "date" with
    | Ok t' => set t' w
    | Raise e => (w, Raise e)
    end.
Proof.
  intros Hf. unfold DataManager.index_by_date, Py.bind, held, Py.lift.
  rewrite Hf. now destruct (Frame.set_index t "date").
Qed.

Lemma index_dates_inv w w1 :
  DataManager.index_dates w = (w1, Ok tt) ->
  exists md wd yd md' wd' yd',
    monitoring_data (manager w) = Some md /\
    weather_data (manager w) = Some wd /\
    yield_history (manager w) = Some yd /\
    indexed md = Ok md' /\ indexed wd = Ok wd' /\ dated yd = Ok yd' /\
    w1 = mkWorld (disk w)
                 (mkManager (Some md') (Some wd') (soil_data (manager w)) (Some yd'))
                 (dashboard w) (logs w).
Proof.
  unfold DataManager.index_dates. intros Hrun.
  apply bind_inv_Ok in Hrun as (wa & [] & H1 & Hrun).
  apply bind_inv_Ok in Hrun as (wb & [] & H2 & Hrun).
  apply bind_inv_Ok in Hrun as (wc & [] & H3 & Hrun).
  apply bind_inv_Ok in Hrun as (wd_ & [] & H4 & H5).
  destruct (monitoring_data (manager w)) as [md|] eqn:Emd;
    [|unfold DataManager.convert_dates, Py.bind, held in H1;
      rewrite Emd in H1; discriminate].
  rewrite (convert_dates_run _ _ _ _ Emd) in H1.
  destruct (dated md) as [md1|] eqn:Edm; [|discriminate].
  injection H1 as <-.
  destruct (weather_data (manager w)) as [wd|] eqn:Ewd;
    [|unfold DataManager.convert_dates, Py.bind, held in H2; simpl in H2;
      discriminate].
  rewrite (convert_dates_run _ _ _ wd) in H2 by reflexivity.
  destruct (dated wd) as [wd1|] eqn:Edw; [|discriminate].
  injection H2 as <-.
  destruct (yield_history (manager w)) as [yd|] eqn:Eyd;
    [|unfold DataManager.convert_dates, Py.bind, held in H3; simpl in H3;
      discriminate].
  rewrite (convert_dates_run _ _ _ yd) in H3 by reflexivity.
  destruct (dated yd) as [yd1|] eqn:Edy; [|discriminate].
  injection H3 as <-.
  rewrite (index_by_date_run _ _ _ md1) in H4 by reflexivity.
  destruct (Frame.set_index md1 "date") as [md2|] eqn:Eim; [|discriminate].
  injection H4 as <-.
  rewrite (index_by_date_run _ _ _ wd1) in H5 by reflexivity.
  destruct (Frame.set_index wd1 "date") as [wd2|] eqn:Eiw; [|discriminate].
  injection H5 as <-.
  exists md, wd, yd, md2, wd2, yd1. unfold indexed. rewrite Edm, Edw. simpl.
  repeat split; assumption.
Qed.

Lemma position_remove_nth c l n :
  NoDup l -> position c l = Some n -> position c (Frame.remove_nth n l) = None.
Proof.
  intros Hnd. revert n. induction Hnd as [|x l Hx Hnd IH]; simpl; intros n Hp;
    [discriminate|].
  destruct (String.eqb_spec c x) as [->|Hne].
  - injection Hp as <-. simpl. apply position_None.
    destruct (existsb (String.eqb x) l) eqn:E; [|reflexivity].
    apply existsb_exists in E as [y [Hy E]]. apply String.eqb_eq in E. now subst.
  - destruct (position c l) as [m|] eqn:E; [|discriminate].
    injection Hp as <-. simpl.
    destruct (String.eqb_spec c x); [congruence|].
    now rewrite (IH m eq_refl).
Qed.

Lemma map_fst_remove_nth {A B} n (l : list (A * B)) :
  map fst (Frame.remove_nth n l) = Frame.remove_nth n (map fst l).
Proof.
  revert n. induction l as [|x l IH]; intros [|n]; simpl; try reflexivity.
  now rewrite IH.
Qed.

Lemma dated_names t t' : dated t = Ok t' -> names t' = names t.
Proof.
  unfold dated. destruct (getitem t "date") as [s|] eqn:Eg; simpl; [|discriminate].
  destruct (Frame.to_datetime s); simpl; [|discriminate].
  intros Heq. injection Heq as <-.
  unfold getitem in Eg.
  destruct (position "date" (names t)) as [n|] eqn:Ep; [|discriminate].
  now apply names_setitem_old with (n := n).
Qed.

(** Once indexed, a table is labelled by its dates and, its column names
    being distinct, has no [date] column left. *)
Lemma indexed_spec t t' :
  indexed t = Ok t' ->
  exists n,
    position "date" (names t) = Some n /\
    index t' = Some ("date", Datetime64) /\
    names t' = Frame.remove_nth n (names t) /\
    (NoDup (names t) -> has_column t' "date" = false).
Proof.
  unfold indexed. destruct (dated t) as [t1|] eqn:Ed; simpl; [|discriminate].
  pose proof (dated_names _ _ Ed) as Hn.
  unfold dated in Ed.
  destruct (getitem t "date") as [s|] eqn:Eg; simpl in Ed; [|discriminate].
  destruct (Frame.to_datetime s) as [d|]; simpl in Ed; [|discriminate].
  injection Ed as <-.
  unfold getitem in Eg.
  destruct (position "date" (names t)) as [n|] eqn:Ep; [|discriminate].
  unfold Frame.set_index. rewrite Hn, Ep. intros Heq. injection Heq as <-.
  exists n. split; [reflexivity|]. simpl.
  pose proof (position_Some _ _ _ Ep) as [Hlt _].
  unfold names in Hlt. rewrite length_map in Hlt.
  assert (Hnames : names {| index := Some (nth n (columns (setitem t "date" Datetime64 d)) ("", Object));
                            columns := Frame.remove_nth n (columns (setitem t "date" Datetime64 d));
                            rows := map (fun r => mkRow (cell_at n r) (Frame.remove_nth n (values r)))
                                        (rows (setitem t "date" Datetime64 d)) |}
                   = Frame.remove_nth n (names t)).
  { unfold names at 1. simpl. rewrite map_fst_remove_nth.
    fold (names (setitem t "date" Datetime64 d)). now rewrite Hn. }
  split; [|split].
  - unfold setitem. rewrite Ep. simpl. now rewrite nth_set_nth_same.
  - exact Hnames.
  - intros Hnd. unfold has_column. rewrite Hnames.
    apply position_None. now apply position_remove_nth.
Qed.

Lemma prepare_features_needs_date_column `{Numerics} w t :
  monitoring_data (manager w) = Some t -> has_column t "date" = false ->
  snd (DataManager.prepare_features w) = Raise (KeyError "date").
Proof.
  intros Hm Hc.
  assert (Hd : dated t = Raise (KeyError "date")).
  { unfold dated, getitem. apply position_None in Hc. now rewrite Hc. }
  unfold DataManager.prepare_features, DataManager.prepare_features_try,
    DataManager.index_dates.
  erewrite try_except_Raise; [reflexivity|].
  do 2 apply bind_Raise.
  rewrite (convert_dates_run _ _ _ _ Hm), Hd. reflexivity.
Qed.

Lemma prepare_features_inv `{Numerics} w w1 t :
  DataManager.prepare_features w = (w1, Ok t) ->
  exists w2 w3 merged,
    DataManager.index_dates w = (w2, Ok tt) /\
    DataManager.merge_sources w2 = (w3, Ok merged) /\
    manager w3 = manager w2 /\
    DataManager.scale merged = Ok t /\
    manager w1 = manager w2.
Proof.
  unfold DataManager.prepare_features, Py.try_except. intros Hrun.
  destruct (DataManager.prepare_features_try w) as [w' [t'|e]] eqn:Ebody;
    [|discriminate].
  injection Hrun as -> ->.
  unfold DataManager.prepare_features_try in Ebody.
  apply bind_inv_Ok in Ebody as (w2 & [] & Hidx & Ebody).
  apply bind_inv_Ok in Ebody as (w3 & merged & Hmerge & Ebody).
  apply bind_inv_Ok in Ebody as (w4 & scaled & Hscale & Ebody).
  apply lift_inv in Hscale as [-> Hscale].
  apply bind_inv_Ok in Ebody as (w5 & [] & Hlog & Ebody).
  injection Hlog as <-. injection Ebody as <- <-.
  pose proof (merge_sources_same_manager w2) as Hkeep.
  rewrite Hmerge in Hkeep. unfold same_manager in Hkeep. simpl in Hkeep.
  exists w2, w3, merged. repeat split; try assumption. now symmetry.
Qed.

(** ** Calling [prepare_features] again *)

(** C3 (as the claim states it, refuted).  On the farm the first call
    succeeds; it changes the held monitoring table, and the second call on
    the state it leaves raises [KeyError: 'date']. *)
Lemma second_prepare_features_raises :
  is_ok (snd (@DataManager.prepare_features Reference.numerics Farm.loaded)) = true /\
  monitoring_data
    (manager (fst (@DataManager.prepare_features Reference.numerics Farm.loaded)))
  <> monitoring_data (manager Farm.loaded) /\
  snd (@DataManager.prepare_features Reference.numerics
         (fst (@DataManager.prepare_features Reference.numerics Farm.loaded)))
  = Raise (KeyError "date").
Proof.
  split; [vm_compute; reflexivity|]. split.
  - intros Heq. vm_compute in Heq. discriminate.
  - vm_compute. reflexivity.
Qed.

(** C3 (amended).  [prepare_features] computes the feature table from the
    held tables alone, but does not leave them as they were: after a call
    that succeeds, the held monitoring table is indexed by its dates and has
    no [date] column any more (its column names are distinct), so a second
    call on that state raises [KeyError: 'date'].  The same feature table
    is returned again once the tables are reloaded. *)
Theorem prepare_features_consumes_held_tables `{Numerics}
  (w w1 : World) (t md : DataFrame) :
  DataManager.prepare_features w = (w1, Ok t) ->
  monitoring_data (manager w) = Some md ->
  NoDup (names md) ->
  (forall w', manager w' = manager w ->
              snd (DataManager.prepare_features w') = Ok t) /\
  (exists md',
      monitoring_data (manager w1) = Some md' /\
      index md' = Some ("date", Datetime64) /\
      has_column md "date" = true /\ has_column md' "date" = false) /\
  snd (DataManager.prepare_features w1) = Raise (KeyError "date") /\
  (forall w0,
      DataManager.load_data w0 = (w, Ok tt) ->
      snd (Py.bind DataManager.load_data
                   (fun _ => DataManager.prepare_features) w1) = Ok t).
Proof.
  intros Hrun Hmd Hnd.
  assert (Hdet : forall w', manager w' = manager w ->
                            snd (DataManager.prepare_features w') = Ok t).
  { intros w' Hw'. destruct (determined_prepare_features w' w Hw') as [_ ->].
    now rewrite Hrun. }
  destruct (prepare_features_inv _ _ _ Hrun)
    as (w2 & w3 & merged & Hidx & _ & _ & _ & Hm1).
  destruct (index_dates_inv _ _ Hidx)
    as (md0 & wd & yd & md' & wd' & yd' & Hmd0 & _ & _ & Himd & _ & _ & ->).
  rewrite Hmd in Hmd0. injection Hmd0 as <-.
  destruct (indexed_spec _ _ Himd) as (n & Hpos & Hindex & _ & Hnodate).
  assert (Hheld : monitoring_data (manager w1) = Some md') by now rewrite Hm1.
  split; [exact Hdet|]. split; [|split].
  - exists md'. repeat split; try assumption.
    + unfold has_column.
      destruct (existsb (String.eqb "date") (names md)) eqn:E; [reflexivity|].
      apply position_None in E. congruence.
    + now apply Hnodate.
  - apply (prepare_features_needs_date_column w1 md' Hheld). now apply Hnodate.
  - intros w0 Hload.
    assert (Hdisk : disk w0 = disk w1).
    { pose proof (load_data_same_disk w0) as Hd0. rewrite Hload in Hd0.
      pose proof (prepare_features_same_disk w) as Hd1. rewrite Hrun in Hd1.
      unfold same_disk in *. simpl in *. congruence. }
    destruct (load_data_determined_by_disk w0 w1 Hdisk) as [Hres Hman].
    rewrite Hload in Hres, Hman. simpl in Hres, Hman.
    specialize (Hman eq_refl).
    unfold Py.bind.
    destruct (DataManager.load_data w1) as [w1' r] eqn:Eload. simpl in *.
    subst r. apply Hdet. now symmetry.
Qed.

Lemma prepare_features_consumes_held_tables_witness :
  (forall w', manager w' = manager Farm.loaded ->
              snd (@DataManager.prepare_features Reference.numerics w')
              = Ok Farm.features) /\
  (exists md',
      monitoring_data (manager Farm.prepared) = Some md' /\
      index md' = Some ("date", Datetime64) /\
      has_column Farm.monitoring "date" = true /\ has_column md' "date" = false) /\
  snd (@DataManager.prepare_features Reference.numerics Farm.prepared)
  = Raise (KeyError "date") /\
  (forall w0,
      DataManager.load_data w0 = (Farm.loaded, Ok tt) ->
      snd (Py.bind DataManager.load_data
                   (fun _ => @DataManager.prepare_features Reference.numerics)
                   Farm.prepared) = Ok Farm.features).
Proof.
  apply (@prepare_features_consumes_held_tables Reference.numerics
           Farm.loaded Farm.prepared Farm.features Farm.monitoring).
  - vm_compute. reflexivity.
  - reflexivity.
  - repeat constructor; simpl; intuition discriminate.
Defined.

(** ** The yield column *)

Lemma merge_weather_soil_same_manager `{Numerics} :
  keeps same_manager DataManager.merge_weather_soil.
Proof.
  pose proof same_manager_refl as R_refl.
  pose proof same_manager_trans as R_trans.
  assert (Hh : forall e f, keeps same_manager (held e f)).
  { intros e f w. unfold held. now destruct (f (manager w)). }
  unfold DataManager.merge_weather_soil.
  repeat first [ apply Hh | keeps_step ].
Qed.

Lemma merge_yield_same_manager c : keeps same_manager (DataManager.merge_yield c).
Proof.
  pose proof same_manager_refl as R_refl.
  pose proof same_manager_trans as R_trans.
  assert (Hh : forall e f, keeps same_manager (held e f)).
  { intros e f w. unfold held. now destruct (f (manager w)). }
  unfold DataManager.merge_yield.
  repeat first [ apply Hh | keeps_step ].
Qed.

Lemma merge_yield_without_column c w y :
  yield_history (manager w) = Some y ->
  has_column y "rendement_estime" = false ->
  DataManager.merge_yield c w = (w, Raise DataManager.yield_missing).
Proof.
  intros Hy Hc. unfold DataManager.merge_yield, Py.bind, held.
  now rewrite Hy, Hc.
Qed.

Lemma prepare_features_raises `{Numerics} w w1 e :
  DataManager.prepare_features_try w = (w1, Raise e) ->
  DataManager.prepare_features w
  = (mkWorld (disk w1) (manager w1) (dashboard w1)
             (logs w1 ++ [LogError "Erreur lors de la préparation des caractéristiques"
                                   (Some e)]),
     Raise e).
Proof.
  intros Hbody. unfold DataManager.prepare_features.
  now rewrite (try_except_Raise _ _ _ _ _ Hbody).
Qed.

Lemma dated_has_column t t' c :
  dated t = Ok t' -> has_column t' c = has_column t c.
Proof. intros Hd. unfold has_column. now rewrite (dated_names _ _ Hd). Qed.

(** C4 (as the claim states it, refuted).  Two yield histories with
    different column lists, both without [rendement_estime]: the error
    raised and the record logged are the same for both, so neither carries
    the column list. *)
Lemma yield_error_carries_no_column_list :
  names (Farm.yields_named "rendement") <> names (Farm.yields_named "yield_t_ha") /\
  @DataManager.prepare_features Reference.numerics
     (Farm.loaded_with_yields (Farm.yields_named "rendement"))
  = (fst (@DataManager.prepare_features Reference.numerics
            (Farm.loaded_with_yields (Farm.yields_named "rendement"))),
     Raise (KeyError "'rendement_estime' n'est pas présent dans yield_history")) /\
  @DataManager.prepare_features Reference.numerics
     (Farm.loaded_with_yields (Farm.yields_named "yield_t_ha"))
  = (fst (@DataManager.prepare_features Reference.numerics
            (Farm.loaded_with_yields (Farm.yields_named "yield_t_ha"))),
     Raise (KeyError "'rendement_estime' n'est pas présent dans yield_history")) /\
  logs (fst (@DataManager.prepare_features Reference.numerics
               (Farm.loaded_with_yields (Farm.yields_named "rendement"))))
  = logs (fst (@DataManager.prepare_features Reference.numerics
                 (Farm.loaded_with_yields (Farm.yields_named "yield_t_ha")))).
Proof.
  split; [discriminate|]. repeat split; vm_compute; reflexivity.
Qed.

(** C4 (amended).  [prepare_features] raises whenever the held yield
    history lacks [rendement_estime]; when the steps before the yield merge
    pass, the error is the [KeyError] of line 98; when the yield merge
    passes and the merged table has no [rendement_estime], it is the
    [KeyError] of line 102.  Both have a fixed message.  Whatever is raised
    is logged with that message and raised again as it is: no column list
    is attached. *)
Theorem prepare_features_yield_errors `{Numerics} (w : World) :
  ((forall y, yield_history (manager w) = Some y ->
              has_column y "rendement_estime" = false) ->
   is_ok (snd (DataManager.prepare_features w)) = false) /\
  (forall w1 w2 c y,
      DataManager.index_dates w = (w1, Ok tt) ->
      DataManager.merge_weather_soil w1 = (w2, Ok c) ->
      yield_history (manager w) = Some y ->
      has_column y "rendement_estime" = false ->
      snd (DataManager.prepare_features w) = Raise DataManager.yield_missing) /\
  (forall w1 w2 w3 c c',
      DataManager.index_dates w = (w1, Ok tt) ->
      DataManager.merge_weather_soil w1 = (w2, Ok c) ->
      DataManager.merge_yield c w2 = (w3, Ok c') ->
      has_column c' "rendement_estime" = false ->
      snd (DataManager.prepare_features w)
      = Raise DataManager.yield_missing_after_merge) /\
  (forall w' e,
      DataManager.prepare_features w = (w', Raise e) ->
      exists l,
        logs w' = l ++ [LogError "Erreur lors de la préparation des caractéristiques"
                                 (Some e)]).
Proof.
  assert (Hb : forall w1 w2 c y,
      DataManager.index_dates w = (w1, Ok tt) ->
      DataManager.merge_weather_soil w1 = (w2, Ok c) ->
      yield_history (manager w) = Some y ->
      has_column y "rendement_estime" = false ->
      DataManager.prepare_features_try w = (w2, Raise DataManager.yield_missing)).
  { intros w1 w2 c y Hidx Hws Hy Hc.
    destruct (index_dates_inv _ _ Hidx)
      as (md & wd & yd & md' & wd' & yd' & _ & _ & Hyd & _ & _ & Hdy & Hw1).
    rewrite Hy in Hyd. injection Hyd as <-.
    pose proof (merge_weather_soil_same_manager w1) as Hk.
    rewrite Hws in Hk. unfold same_manager in Hk. simpl in Hk.
    assert (Hy2 : yield_history (manager w2) = Some yd')
      by (rewrite Hk, Hw1; reflexivity).
    assert (Hc2 : has_column yd' "rendement_estime" = false)
      by now rewrite (dated_has_column _ _ _ Hdy).
    unfold DataManager.prepare_features_try.
    rewrite (bind_Ok _ _ _ _ _ Hidx). apply bind_Raise.
    unfold DataManager.merge_sources.
    rewrite (bind_Ok _ _ _ _ _ Hws). apply bind_Raise.
    now apply merge_yield_without_column with (y := yd'). }
  split; [|split; [|split]].
  - intros Hlack.
    destruct (DataManager.prepare_features w) as [w' [t|e]] eqn:Hrun; [|reflexivity].
    exfalso.
    destruct (prepare_features_inv _ _ _ Hrun)
      as (w2 & w3 & merged & Hidx & Hmerge & _).
    unfold DataManager.merge_sources in Hmerge.
    apply bind_inv_Ok in Hmerge as (wa & c & Hws & Hmerge).
    destruct (index_dates_inv _ _ Hidx)
      as (md & wd & yd & md' & wd' & yd' & _ & _ & Hyd & _).
    pose proof (Hb _ _ _ _ Hidx Hws Hyd (Hlack _ Hyd)) as Hbody.
    rewrite (prepare_features_raises _ _ _ Hbody) in Hrun. discriminate.
  - intros w1 w2 c y Hidx Hws Hy Hc.
    now rewrite (prepare_features_raises _ _ _ (Hb _ _ _ _ Hidx Hws Hy Hc)).
  - intros w1 w2 w3 c c' Hidx Hws Hmy Hc.
    rewrite (prepare_features_raises w w3 DataManager.yield_missing_after_merge);
      [reflexivity|].
    unfold DataManager.prepare_features_try.
    rewrite (bind_Ok _ _ _ _ _ Hidx). apply bind_Raise.
    unfold DataManager.merge_sources.
    rewrite (bind_Ok _ _ _ _ _ Hws), (bind_Ok _ _ _ _ _ Hmy). apply bind_Raise.
    unfold DataManager.check_yield_column. now rewrite Hc.
  - intros w' e Hrun. unfold DataManager.prepare_features, Py.try_except in Hrun.
    destruct (DataManager.prepare_features_try w) as [w1 [t|e1]]; [discriminate|].
    injection Hrun as <- <-. now eexists.
Qed.

(** The second check can be reached: a monitoring table with a column
    [rendement_estime] of its own makes the merge rename both, and the
    merged table has none left. *)
Example yield_missing_after_merge_reached :
  snd (@DataManager.prepare_features Reference.numerics
         (Farm.loaded_with_monitoring Farm.monitoring_with_estimate))
  = Raise DataManager.yield_missing_after_merge.
Proof. vm_compute. reflexivity. Qed.

(** ** The temporal consistency check *)

(** C7 (at the failing input).  The rows of the monitoring table are not
    in date order: [prepare_features] returns the feature table all the
    same, the date index it leaves is not monotonic, and the check, run
    then, raises. *)
Lemma unsorted_monitoring_is_prepared :
  @DataManager.prepare_features Reference.numerics
     (Farm.loaded_with_monitoring Farm.monitoring_shuffled)
  = (Farm.prepared_shuffled, Ok Farm.features) /\
  option_map DataManager.is_monotonic
             (monitoring_data (manager Farm.prepared_shuffled)) = Some false /\
  snd (DataManager._verify_temporal_consistency Farm.prepared_shuffled)
  = Raise (ValueError "Les données de monitoring ne sont pas triées par date.").
Proof. repeat split; vm_compute; reflexivity. Qed.

(** ** The parcel column through the merges *)

Lemma suffix_x_not_parcelle_id s : String.append s "_x" <> "parcelle_id".
Proof.
  intros Heq.
  do 11 (destruct s as [|? s]; simpl in Heq; [discriminate|];
         injection Heq as _ Heq).
  destruct s; discriminate.
Qed.

Lemma suffix_y_not_parcelle_id s : String.append s "_y" <> "parcelle_id".
Proof.
  intros Heq.
  do 11 (destruct s as [|? s]; simpl in Heq; [discriminate|];
         injection Heq as _ Heq).
  destruct s; discriminate.
Qed.

Lemma mem_In c l : Merge.mem c l = true <-> In c l.
Proof.
  unfold Merge.mem. rewrite existsb_exists. split.
  - intros [x [Hx E]]. apply String.eqb_eq in E. now subst.
  - intros Hin. exists c. split; [assumption | apply String.eqb_refl].
Qed.

Lemma mem_false c l : Merge.mem c l = false <-> ~ In c l.
Proof.
  rewrite <- mem_In. destruct (Merge.mem c l); split; congruence.
Qed.

(** A renamed column is named [parcelle_id] only if it was and was kept. *)
Lemma suffixed_x_parcelle_id others c :
  fst (Merge.suffixed "_x" others c) = "parcelle_id" ->
  fst c = "parcelle_id" /\ Merge.mem "parcelle_id" others = false.
Proof.
  unfold Merge.suffixed. destruct (Merge.mem (fst c) others) eqn:E; simpl.
  - intros H. now apply suffix_x_not_parcelle_id in H.
  - intros H. rewrite H in E. now split.
Qed.

Lemma suffixed_y_parcelle_id others c :
  fst (Merge.suffixed "_y" others c) = "parcelle_id" ->
  fst c = "parcelle_id" /\ Merge.mem "parcelle_id" others = false.
Proof.
  unfold Merge.suffixed. destruct (Merge.mem (fst c) others) eqn:E; simpl.
  - intros H. now apply suffix_y_not_parcelle_id in H.
  - intros H. rewrite H in E. now split.
Qed.

Lemma position_not_In c l : ~ In c l -> position c l = None.
Proof.
  intros Hn. apply position_None.
  destruct (existsb (String.eqb c) l) eqn:E; [|reflexivity].
  apply existsb_exists in E as [x [Hx E]]. apply String.eqb_eq in E. now subst.
Qed.

Lemma position_In c l n : position c l = Some n -> In c l.
Proof.
  intros Hp. destruct (position_Some _ _ _ Hp) as [Hlt <-]. now apply nth_In.
Qed.

Lemma keyed_names_position l : keyed_names l -> position "parcelle_id" l = Some 1%nat.
Proof.
  intros (a & rest & -> & Ha & _). cbn [position].
  destruct (String.eqb_spec "parcelle_id" a); [congruence|].
  now rewrite String.eqb_refl.
Qed.

Lemma keyed_names_unique l n :
  keyed_names l -> nth n l "" = "parcelle_id" -> (n < List.length l)%nat -> n = 1%nat.
Proof.
  intros (a & rest & -> & Ha & Hrest) Hnth Hlt.
  destruct n as [|[|n]]; simpl in *; [congruence | reflexivity |].
  exfalso. apply Hrest. rewrite <- Hnth. apply nth_In. lia.
Qed.

Lemma merged_columns_keyed keys left right :
  keyed_names (names left) ->
  position "parcelle_id" (map fst (Merge.merged_columns keys left right)) <> None ->
  keyed_names (map fst (Merge.merged_columns keys left right)) /\
  nth 1 (map snd (Merge.merged_columns keys left right)) Object
  = nth 1 (map snd (columns left)) Object.
Proof.
  intros (a & rest & Hnames & Ha & Hrest) Hfound.
  unfold Merge.merged_columns in *.
  set (rcols := Merge.kept_columns keys right) in *.
  set (others := map fst rcols) in *.
  unfold names in Hnames.
  destruct (columns left) as [|c0 [|c1 crest]] eqn:Ecols; try discriminate.
  simpl in Hnames. injection Hnames as H0 H1 Hcrest.
  assert (Hleft : In "parcelle_id" (names left)).
  { unfold names. rewrite Ecols. simpl. right. left. assumption. }
  set (tail := map (Merge.suffixed "_x" others) crest
               ++ map (Merge.suffixed "_y" (names left)) rcols) in *.
  assert (Htail : ~ In "parcelle_id" (map fst tail)).
  { unfold tail. rewrite map_app, in_app_iff, !in_map_iff.
    intros [(c & Hc & Hin)|(c & Hc & Hin)].
    - apply in_map_iff in Hin as (c' & <- & Hin').
      apply suffixed_x_parcelle_id in Hc as [Hc _].
      apply Hrest. rewrite <- Hcrest, <- Hc. now apply in_map.
    - apply in_map_iff in Hin as (c' & <- & Hin').
      apply suffixed_y_parcelle_id in Hc as [_ Hc].
      apply mem_false in Hc. contradiction. }
  assert (H0' : fst (Merge.suffixed "_x" others c0) <> "parcelle_id").
  { intros Hc. apply suffixed_x_parcelle_id in Hc as [Hc _]. congruence. }
  cbn [map app position] in *. fold tail in Hfound |- *.
  destruct (String.eqb_spec "parcelle_id" (fst (Merge.suffixed "_x" others c0)));
    [congruence|].
  split.
  - exists (fst (Merge.suffixed "_x" others c0)), (map fst tail).
    split; [|split; assumption]. f_equal. f_equal.
    destruct (String.eqb_spec "parcelle_id" (fst (Merge.suffixed "_x" others c1)))
      as [<-|Hne]; [reflexivity|].
    exfalso. apply Hfound. now rewrite (position_not_In _ _ Htail).
  - unfold Merge.suffixed. now destruct (Merge.mem (fst c1) others).
Qed.

(** What the two merges build. *)
Lemma merge_asof_spec left right on by_ m :
  Merge.merge_asof left right on by_ = Ok m ->
  columns m = Merge.merged_columns (on :: Frame.option_list by_) left right /\
  exists ext,
    rows m = map (fun l => mkRow NA (values l ++ ext l)) (rows left).
Proof.
  unfold Merge.merge_asof.
  destruct (position on (names left)) as [nl|]; [|discriminate].
  destruct (position on (names right)) as [nr|]; [|discriminate].
  match goal with |- Py.rbind ?r _ = _ -> _ => destruct r as [bys|e] end;
    [|discriminate]. cbn [Py.rbind].
  repeat match goal with
         | |- (if ?b then _ else _) = _ -> _ => destruct b; [discriminate|]
         end.
  intros Heq. injection Heq as <-. simpl. split; [reflexivity|]. now eexists.
Qed.

Lemma merge_left_spec left right key m :
  Merge.merge_left left right key = Ok m ->
  exists nl nr,
    position key (names left) = Some nl /\
    position key (names right) = Some nr /\
    columns m = Merge.merged_columns [key] left right /\
    forall r, In r (rows m) ->
              exists l ext,
                In l (rows left) /\ values r = values l ++ ext /\
                ((forall r0, In r0 (rows right) ->
                             cell_eqb (cell_at nl l) (cell_at nr r0) = false) ->
                 ext = map (fun _ => NA) (Merge.kept [key] right)).
Proof.
  unfold Merge.merge_left.
  destruct (position key (names left)) as [nl|]; [|discriminate].
  destruct (position key (names right)) as [nr|]; [|discriminate].
  destruct (negb _); [discriminate|].
  intros Heq. injection Heq as <-. exists nl, nr. cbn [columns rows].
  repeat split. intros r Hr. apply in_flat_map in Hr as (l & Hl & Hr).
  destruct (filter _ (rows right)) as [|r1 ms] eqn:Ef.
  - destruct Hr as [<-|[]]. exists l, (Merge.extension [key] right None).
    simpl. split; [assumption|]. split; reflexivity.
  - assert (Hx : exists r0,
               In r0 (r1 :: ms)
               /\ r = mkRow NA (values l ++ Merge.extension [key] right (Some r0))).
    { destruct Hr as [<-|Hr].
      - exists r1. split; [now left | reflexivity].
      - apply in_map_iff in Hr as (r0 & <- & Hr0). exists r0.
        split; [now right | reflexivity]. }
    destruct Hx as (r0 & Hr0 & ->).
    exists l, (Merge.extension [key] right (Some r0)). simpl.
    split; [assumption|]. split; [reflexivity|]. intros Hnone. exfalso.
    assert (Hin : In r0 (filter (fun r => cell_eqb (cell_at nl l) (cell_at nr r))
                                (rows right))) by now rewrite Ef.
    apply filter_In in Hin as [Hin Heq]. rewrite (Hnone _ Hin) in Heq. discriminate.
Qed.

Lemma filter_nil_not_In c l :
  filter (String.eqb c) l = [] -> ~ In c l.
Proof.
  intros Hf Hin.
  assert (Hc : In c (filter (String.eqb c) l)).
  { apply filter_In. split; [assumption | apply String.eqb_refl]. }
  now rewrite Hf in Hc.
Qed.

Lemma single_occurrence c l n :
  (List.length (filter (String.eqb c) l) <= 1)%nat ->
  position c l = Some n -> ~ In c (Frame.remove_nth n l).
Proof.
  revert n. induction l as [|x l IH]; simpl; intros n Hcount Hp; [discriminate|].
  destruct (String.eqb_spec c x) as [->|Hne].
  - injection Hp as <-. simpl in *. apply filter_nil_not_In.
    destruct (filter (String.eqb x) l); [reflexivity | simpl in Hcount; lia].
  - destruct (position c l) as [m|] eqn:E; [|discriminate].
    injection Hp as <-. simpl. intros [Hx|Hin]; [congruence|].
    now apply (IH m).
Qed.

Lemma numeric_columns_spec df c :
  In c (columns df) -> is_number (snd c) = true -> In (fst c) (Frame.numeric_columns df).
Proof.
  intros Hin Hnum. unfold Frame.numeric_columns. apply in_map.
  apply filter_In. now split.
Qed.

(** The monthly means of the monitoring table are keyed. *)
Lemma monitoring_monthly_keyed `{Numerics} md sel mm :
  index md = Some ("date", Datetime64) ->
  select md (Frame.numeric_columns md ++ ["parcelle_id"]) = Ok sel ->
  Frame.monthly_mean_by sel "parcelle_id" = Ok mm ->
  keyed mm.
Proof.
  intros Hindex Hsel Hmm.
  pose proof (names_select _ _ _ Hsel) as Hnames.
  unfold select in Hsel.
  destruct (positions _ (names md)) as [ns|] eqn:Epos; simpl in Hsel; [|discriminate].
  assert (Hsel_index : index sel = index md) by now injection Hsel as <-.
  assert (Hsel_cols : columns sel
                      = map (fun n : nat => nth n (columns md) ("", Object)) ns)
    by now injection Hsel as <-.
  clear Hsel.
  unfold Frame.monthly_mean_by in Hmm. rewrite Hsel_index, Hindex, Hnames in Hmm.
  destruct (position "parcelle_id" (Frame.numeric_columns md ++ ["parcelle_id"]))
    as [n|] eqn:En; [|discriminate].
  destruct (Nat.ltb_spec 1 (List.length (filter (String.eqb "parcelle_id")
                                           (Frame.numeric_columns md ++ ["parcelle_id"]))))
    as [|Hcount]; [discriminate|].
  injection Hmm as <-. rewrite Hsel_cols. unfold names in Hnames.
  rewrite Hsel_cols in Hnames.
  set (sel_cols := map (fun n : nat => nth n (columns md) ("", Object)) ns) in *.
  assert (Hsel_names : map fst sel_cols = Frame.numeric_columns md ++ ["parcelle_id"])
    by exact Hnames.
  pose proof (position_Some _ _ _ En) as [Hn_lt Hn_name].
  assert (Hnot_numeric : ~ In "parcelle_id" (Frame.numeric_columns md)).
  { rewrite filter_app, length_app in Hcount. cbn [filter] in Hcount.
    rewrite String.eqb_refl in Hcount. cbn [List.length] in Hcount.
    apply filter_nil_not_In.
    destruct (filter (String.eqb "parcelle_id") (Frame.numeric_columns md));
      [reflexivity | cbn [List.length] in Hcount; lia]. }
  assert (Hn : n = List.length (Frame.numeric_columns md)).
  { rewrite (position_app_r _ _ _ (position_not_In _ _ Hnot_numeric)) in En.
    cbn [position] in En. rewrite String.eqb_refl in En. simpl in En.
    injection En as <-. lia. }
  assert (Hlen_ns : List.length ns = List.length sel_cols)
    by (unfold sel_cols; now rewrite length_map).
  assert (Hlen_sel : List.length sel_cols
                     = List.length (Frame.numeric_columns md ++ ["parcelle_id"]))
    by now rewrite <- Hsel_names, length_map.
  assert (Hkey : fst (nth n sel_cols ("", Object)) = "parcelle_id").
  { rewrite <- Hn_name, <- Hsel_names. now rewrite <- (map_nth fst). }
  repeat split.
  - exists "date", (map fst (map (fun c : string * dtype => (fst c, Float64))
                                 (Frame.remove_nth n sel_cols))).
    split; [|split].
    + unfold names. cbn [columns map fst]. now rewrite Hkey.
    + discriminate.
    + rewrite map_map. cbn [fst]. rewrite map_fst_remove_nth, Hsel_names.
      now apply single_occurrence.
  - cbn [rows]. apply Forall_map. apply Forall_forall. intros g _. simpl. lia.
  - unfold Merge.dtype_at. cbn [columns map snd nth].
    destruct (is_number (snd (nth n sel_cols ("", Object)))) eqn:Enum; [|reflexivity].
    exfalso. apply Hnot_numeric. rewrite <- Hkey.
    assert (Hns : (n < List.length ns)%nat) by (rewrite Hlen_ns, Hlen_sel; exact Hn_lt).
    unfold sel_cols in Enum |- *.
    rewrite (nth_indep _ _ (nth O (columns md) ("", Object))) in Enum |- *
      by (rewrite length_map; exact Hns).
    rewrite (map_nth (fun n => nth n (columns md) ("", Object)) ns O n) in Enum |- *.
    apply numeric_columns_spec; [|assumption].
    pose proof (positions_lookup _ _ _ _ _ Epos En) as Hp.
    apply position_Some in Hp as [Hp _]. unfold names in Hp.
    rewrite length_map in Hp. now apply nth_In.
Qed.

Lemma sort_values_spec df c out :
  Frame.sort_values df c = Ok out ->
  columns out = columns df /\ Permutation (rows df) (rows out).
Proof.
  unfold Frame.sort_values. destruct (position c (names df)); [|discriminate].
  intros Heq. injection Heq as <-. simpl. split; [reflexivity|].
  apply stable_sort_perm.
Qed.

Lemma sort_values_keyed df c out :
  Frame.sort_values df c = Ok out -> keyed df -> keyed out.
Proof.
  intros Hsort (Hn & Hr & Hd). destruct (sort_values_spec _ _ _ Hsort) as [Hc Hp].
  unfold keyed, names, Merge.dtype_at. rewrite Hc. repeat split; try assumption.
  eapply Permutation_Forall; eassumption.
Qed.

Lemma kept_columns_not_keys keys right c :
  In c (map fst (Merge.kept_columns keys right)) -> Merge.mem c keys = false.
Proof.
  unfold Merge.kept_columns, Merge.kept. rewrite map_map.
  intros Hin. apply in_map_iff in Hin as (j & <- & Hj).
  apply filter_In in Hj as [_ Hj]. apply negb_true_iff in Hj.
  rewrite <- (map_nth fst). exact Hj.
Qed.

(** A table merged onto a keyed table is keyed, as soon as it still has a
    column [parcelle_id]; it has when [parcelle_id] is a key of the merge. *)
Lemma merged_keyed keys left right m :
  keyed left ->
  columns m = Merge.merged_columns keys left right ->
  (forall r, In r (rows m) ->
             exists l ext, In l (rows left) /\ values r = values l ++ ext) ->
  position "parcelle_id" (names m) <> None \/ In "parcelle_id" keys ->
  keyed m.
Proof.
  intros (Hn & Hr & Hd) Hcols Hrows Hfound.
  assert (Hpos : position "parcelle_id" (map fst (Merge.merged_columns keys left right))
                 <> None).
  { destruct Hfound as [Hf|Hkey]; [unfold names in Hf; now rewrite Hcols in Hf|].
    destruct Hn as (a & rest & Hnames & Ha & Hrest).
    unfold Merge.merged_columns, names in *.
    destruct (columns left) as [|c0 [|c1 crest]]; try discriminate.
    cbn [map] in Hnames. injection Hnames as H0 H1 _.
    cbn [map app position].
    assert (Hc0 : fst (Merge.suffixed "_x" (map fst (Merge.kept_columns keys right)) c0)
                  <> "parcelle_id").
    { intros Hc. apply suffixed_x_parcelle_id in Hc as [Hc _]. congruence. }
    assert (Hc1 : fst (Merge.suffixed "_x" (map fst (Merge.kept_columns keys right)) c1)
                  = "parcelle_id").
    { unfold Merge.suffixed. rewrite H1.
      destruct (Merge.mem "parcelle_id" (map fst (Merge.kept_columns keys right)))
        eqn:E; [|assumption].
      apply mem_In, kept_columns_not_keys in E. apply mem_false in E. contradiction. }
    destruct (String.eqb_spec "parcelle_id"
                (fst (Merge.suffixed "_x" (map fst (Merge.kept_columns keys right)) c0)));
      [congruence|].
    rewrite Hc1, String.eqb_refl. discriminate. }
  destruct (merged_columns_keyed keys left right Hn Hpos) as [Hkn Hdt].
  unfold keyed, names, Merge.dtype_at. rewrite Hcols. repeat split.
  - exact Hkn.
  - apply Forall_forall. intros r Hin.
    destruct (Hrows r Hin) as (l & ext & Hl & ->).
    rewrite Forall_forall in Hr. specialize (Hr l Hl).
    rewrite length_app. lia.
  - rewrite Hdt. exact Hd.
Qed.

Lemma merge_asof_rows left right on by_ m :
  Merge.merge_asof left right on by_ = Ok m ->
  forall r, In r (rows m) ->
            exists l ext, In l (rows left) /\ values r = values l ++ ext.
Proof.
  intros Hm r Hr. destruct (merge_asof_spec _ _ _ _ _ Hm) as [_ [ext Hrows]].
  rewrite Hrows in Hr. apply in_map_iff in Hr as (l & <- & Hl).
  now exists l, (ext l).
Qed.

Lemma merge_asof_keyed left right on by_ m :
  Merge.merge_asof left right on by_ = Ok m ->
  keyed left ->
  position "parcelle_id" (names m) <> None \/ In "parcelle_id" (on :: Frame.option_list by_) ->
  keyed m.
Proof.
  intros Hm Hk Hfound. destruct (merge_asof_spec _ _ _ _ _ Hm) as [Hc _].
  eapply merged_keyed; try eassumption.
  now apply merge_asof_rows with (1 := Hm).
Qed.

(** ** Running the merges *)

Lemma held_inv e field w w' t :
  held e field w = (w', Ok t) -> w' = w /\ field (manager w) = Some t.
Proof.
  unfold held. destruct (field (manager w)); intros Heq; [|discriminate].
  now injection Heq as <- <-.
Qed.

Lemma merge_weather_soil_inv `{Numerics} w w' c2 :
  DataManager.merge_weather_soil w = (w', Ok c2) ->
  exists md sel mm l r c1 so,
    w' = w /\
    monitoring_data (manager w) = Some md /\
    select md (Frame.numeric_columns md ++ ["parcelle_id"]) = Ok sel /\
    Frame.monthly_mean_by sel "parcelle_id" = Ok mm /\
    Frame.sort_values mm "date" = Ok l /\
    Merge.merge_asof l r "date" None = Ok c1 /\
    soil_data (manager w) = Some so /\
    Merge.merge_left c1 so "parcelle_id" = Ok c2.
Proof.
  unfold DataManager.merge_weather_soil. intros Hrun.
  apply bind_inv_Ok in Hrun as (w1 & md & Hmd & Hrun).
  apply held_inv in Hmd as [-> Hmd].
  apply bind_inv_Ok in Hrun as (w1 & sel & Hsel & Hrun).
  apply lift_inv in Hsel as [-> Hsel].
  apply bind_inv_Ok in Hrun as (w1 & mm & Hmm & Hrun).
  apply lift_inv in Hmm as [-> Hmm].
  apply bind_inv_Ok in Hrun as (w1 & wd & Hwd & Hrun).
  apply held_inv in Hwd as [-> Hwd].
  apply bind_inv_Ok in Hrun as (w1 & wsel & Hwsel & Hrun).
  apply lift_inv in Hwsel as [-> Hwsel].
  apply bind_inv_Ok in Hrun as (w1 & wm & Hwm & Hrun).
  apply lift_inv in Hwm as [-> Hwm].
  apply bind_inv_Ok in Hrun as (w1 & l & Hl & Hrun).
  apply lift_inv in Hl as [-> Hl].
  apply bind_inv_Ok in Hrun as (w1 & r & Hr & Hrun).
  apply lift_inv in Hr as [-> Hr].
  apply bind_inv_Ok in Hrun as (w1 & c1 & Hc1 & Hrun).
  apply lift_inv in Hc1 as [-> Hc1].
  apply bind_inv_Ok in Hrun as (w1 & so & Hso & Hrun).
  apply held_inv in Hso as [-> Hso].
  apply lift_inv in Hrun as [-> Hc2].
  exists md, sel, mm, l, r, c1, so. repeat split; congruence.
Qed.

Lemma merge_yield_inv c2 w w' c3 :
  DataManager.merge_yield c2 w = (w', Ok c3) ->
  exists l r,
    Frame.sort_values c2 "date" = Ok l /\
    Merge.merge_asof l r "date" (Some "parcelle_id") = Ok c3.
Proof.
  unfold DataManager.merge_yield. intros Hrun.
  apply bind_inv_Ok in Hrun as (w1 & y & Hy & Hrun).
  apply held_inv in Hy as [-> Hy].
  destruct (has_column y "rendement_estime"); [|discriminate].
  apply bind_inv_Ok in Hrun as (w1 & l & Hl & Hrun).
  apply lift_inv in Hl as [-> Hl].
  apply bind_inv_Ok in Hrun as (w1 & t & Ht & Hrun).
  apply lift_inv in Ht as [-> Ht].
  apply bind_inv_Ok in Hrun as (w1 & r & Hr & Hrun).
  apply lift_inv in Hr as [-> Hr].
  apply lift_inv in Hrun as [-> Hc3].
  exists l, r. split; congruence.
Qed.

Lemma merge_sources_inv `{Numerics} w w' merged :
  DataManager.merge_sources w = (w', Ok merged) ->
  exists c2 c3 w2 w3,
    DataManager.merge_weather_soil w = (w, Ok c2) /\
    DataManager.merge_yield c2 w = (w2, Ok c3) /\
    DataManager.check_yield_column c3 w2 = (w3, Ok tt) /\
    merged = Frame.dropna c3.
Proof.
  unfold DataManager.merge_sources. intros Hrun.
  apply bind_inv_Ok in Hrun as (w1 & c2 & Hc2 & Hrun).
  pose proof (merge_weather_soil_inv _ _ _ Hc2) as (? & ? & ? & ? & ? & ? & ? & Hw & _).
  subst w1.
  apply bind_inv_Ok in Hrun as (w2 & c3 & Hc3 & Hrun).
  apply bind_inv_Ok in Hrun as (w3 & [] & Hcheck & Hrun).
  injection Hrun as _ <-.
  now exists c2, c3, w2, w3.
Qed.

Lemma scale_inv `{Numerics} merged out :
  DataManager.scale merged = Ok out ->
  exists Y,
    fit_transform (DataManager.numeric_matrix merged) = Ok Y /\
    out = DataManager.assign_numeric merged Y.
Proof.
  unfold DataManager.scale.
  destruct (fit_transform (DataManager.numeric_matrix merged)) as [Y|];
    simpl; [|discriminate].
  destruct (DataManager.same_shape _ Y); [|discriminate].
  intros Heq. injection Heq as <-. now exists Y.
Qed.

Lemma Forall_set_nth {A} (P : A -> Prop) n a l :
  Forall P l -> P a -> Forall P (set_nth n a l).
Proof.
  intros Hl Ha. revert n. induction Hl as [|x l Hx Hl IH]; intros [|n]; simpl;
    constructor; auto.
Qed.

Lemma Forall_write_row (P : cell -> Prop) js ys vs :
  Forall P vs -> Forall (fun y => P (Num y)) ys ->
  Forall P (DataManager.write_row js ys vs).
Proof.
  unfold DataManager.write_row. intros Hvs Hys.
  assert (Hc : Forall (fun jy : nat * float => P (Num (snd jy))) (combine js ys)).
  { apply Forall_forall. intros [j y] Hin. apply in_combine_r in Hin.
    rewrite Forall_forall in Hys. now apply Hys. }
  revert vs Hvs. induction Hc as [|jy l Hjy _ IH]; intros vs Hvs; simpl;
    [assumption|].
  apply IH. now apply Forall_set_nth.
Qed.

Lemma nth_write_row n js ys vs d :
  ~ In n js -> nth n (DataManager.write_row js ys vs) d = nth n vs d.
Proof.
  unfold DataManager.write_row. intros Hn.
  assert (Hc : Forall (fun jy : nat * float => fst jy <> n) (combine js ys)).
  { apply Forall_forall. intros [j y] Hin. apply in_combine_l in Hin.
    simpl. congruence. }
  revert vs. induction Hc as [|jy l Hjy _ IH]; intros vs; simpl; [reflexivity|].
  rewrite IH. now apply nth_set_nth_other.
Qed.

(** ** The rows [prepare_features] returns *)

Lemma dropna_no_null df : PipelineSpec.no_null (Frame.dropna df).
Proof.
  intros r c Hr Hc. unfold Frame.dropna in Hr. simpl in Hr.
  apply filter_In in Hr as [_ Hcomplete]. unfold Frame.complete in Hcomplete.
  rewrite forallb_forall in Hcomplete. specialize (Hcomplete c Hc).
  now apply negb_true_iff in Hcomplete.
Qed.

Lemma assign_numeric_no_null merged Y :
  PipelineSpec.no_null merged ->
  Forall (Forall (fun y => PrimFloat.is_nan y = false)) Y ->
  PipelineSpec.no_null (DataManager.assign_numeric merged Y).
Proof.
  intros Hm HY r c Hr Hc. unfold DataManager.assign_numeric in Hr. simpl in Hr.
  apply in_map_iff in Hr as ([r0 y] & <- & Hin). simpl in Hc.
  pose proof (in_combine_l _ _ _ _ Hin) as Hr0.
  pose proof (in_combine_r _ _ _ _ Hin) as Hy.
  rewrite Forall_forall in HY. specialize (HY y Hy).
  assert (Hall : Forall (fun c => isna c = false)
                        (DataManager.write_row (DataManager.numeric_positions merged)
                                               y (values r0))).
  { apply Forall_write_row.
    - apply Forall_forall. intros c' Hc'. now apply (Hm r0).
    - exact HY. }
  rewrite Forall_forall in Hall. now apply Hall.
Qed.

Lemma same_shape_length X Y :
  DataManager.same_shape X Y = true -> List.length Y = List.length X.
Proof.
  unfold DataManager.same_shape. intros Hs. apply andb_true_iff in Hs as [Hs _].
  apply Nat.eqb_eq in Hs. now symmetry.
Qed.

Lemma has_attribute_kept soil :
  PipelineSpec.has_attribute soil -> Merge.kept ["parcelle_id"] soil <> [].
Proof.
  intros (c & Hin & Hne) Hnil.
  destruct (In_nth _ _ "" Hin) as (j & Hj & Hnth).
  assert (Hk : In j (Merge.kept ["parcelle_id"] soil)).
  { unfold Merge.kept. apply filter_In. split.
    - apply in_seq. unfold names in Hj. rewrite length_map in Hj. lia.
    - rewrite Hnth. unfold Merge.mem. cbn [existsb].
      destruct (String.eqb_spec c "parcelle_id"); [congruence | reflexivity]. }
  now rewrite Hnil in Hk.
Qed.

(** A parcel the soil table does not know has no complete row after the
    merges. *)
Lemma unknown_parcel_is_incomplete `{Numerics} w c3 soil p r :
  (exists w2 w3, DataManager.index_dates w = (w2, Ok tt)
                 /\ exists c2, DataManager.merge_weather_soil w2 = (w2, Ok c2)
                               /\ DataManager.merge_yield c2 w2 = (w3, Ok c3)) ->
  soil_data (manager w) = Some soil ->
  PipelineSpec.has_attribute soil ->
  PipelineSpec.unknown_to soil p ->
  In r (rows c3) -> cell_at 1 r = p -> Frame.complete r = false.
Proof.
  intros (w2 & w3 & Hidx & c2 & Hws & Hmy) Hsoil Hattr Hunknown Hr Hp.
  destruct (index_dates_inv _ _ Hidx)
    as (md & wd & yd & md' & wd' & yd' & _ & _ & _ & Himd & _ & _ & Hw2).
  destruct (indexed_spec _ _ Himd) as (n & _ & Hindex & _).
  destruct (merge_weather_soil_inv _ _ _ Hws)
    as (md2 & sel & mm & l & r1 & c1 & so & _ & Hmd2 & Hsel & Hmm & Hl & Hc1 & Hso & Hc2).
  rewrite Hw2 in Hmd2, Hso. simpl in Hmd2, Hso.
  injection Hmd2 as <-. rewrite Hsoil in Hso. injection Hso as <-.
  pose proof (monitoring_monthly_keyed _ _ _ Hindex Hsel Hmm) as Kmm.
  pose proof (sort_values_keyed _ _ _ Hl Kmm) as Kl.
  destruct (merge_left_spec _ _ _ _ Hc2) as (nl & nr & Hnl & Hnr & Hcols2 & Hrows2).
  assert (Kc1 : keyed c1).
  { apply (merge_asof_keyed _ _ _ _ _ Hc1 Kl). left. now rewrite Hnl. }
  assert (Hnl1 : nl = 1%nat).
  { destruct Kc1 as (Kn & _). rewrite (keyed_names_position _ Kn) in Hnl.
    now injection Hnl. }
  subst nl.
  destruct (merge_yield_inv _ _ _ _ Hmy) as (l2 & r2 & Hl2 & Hc3).
  destruct (sort_values_spec _ _ _ Hl2) as [_ Hperm2].
  destruct (merge_asof_rows _ _ _ _ _ Hc3 r Hr) as (row2 & ext3 & Hrow2 & Hvals).
  apply (Permutation_in _ (Permutation_sym Hperm2)) in Hrow2.
  destruct (Hrows2 _ Hrow2) as (row1 & ext2 & Hrow1 & Hvals2 & Hnone).
  destruct Kc1 as (_ & Klen1 & _). rewrite Forall_forall in Klen1.
  specialize (Klen1 _ Hrow1).
  assert (Hcell : cell_at 1 row1 = p).
  { rewrite <- Hp. unfold cell_at. rewrite Hvals, Hvals2.
    rewrite !app_nth1; [reflexivity | lia | rewrite length_app; lia]. }
  assert (Hext : ext2 = map (fun _ => NA) (Merge.kept ["parcelle_id"] soil)).
  { apply Hnone. intros r0 Hr0. rewrite Hcell.
    apply (Hunknown (Merge.dtype_at soil nr) (map (cell_at nr) (rows soil))).
    - unfold getitem. now rewrite Hnr.
    - now apply in_map. }
  pose proof (has_attribute_kept _ Hattr) as Hkept.
  assert (Hna : In NA (values r)).
  { rewrite Hvals, Hvals2, Hext. apply in_or_app. left. apply in_or_app. right.
    destruct (Merge.kept ["parcelle_id"] soil); [congruence | now left]. }
  unfold Frame.complete.
  destruct (forallb (fun c => negb (isna c)) (values r)) eqn:E; [|reflexivity].
  rewrite forallb_forall in E. specialize (E NA Hna). discriminate.
Qed.

Lemma joined_table_keyed `{Numerics} w w2 w3 c2 c3 :
  DataManager.index_dates w = (w2, Ok tt) ->
  DataManager.merge_weather_soil w2 = (w2, Ok c2) ->
  DataManager.merge_yield c2 w2 = (w3, Ok c3) ->
  keyed c3.
Proof.
  intros Hidx Hws Hmy.
  destruct (index_dates_inv _ _ Hidx)
    as (md & wd & yd & md' & wd' & yd' & _ & _ & _ & Himd & _ & _ & Hw2).
  destruct (indexed_spec _ _ Himd) as (n & _ & Hindex & _).
  destruct (merge_weather_soil_inv _ _ _ Hws)
    as (md2 & sel & mm & l & r1 & c1 & so & _ & Hmd2 & Hsel & Hmm & Hl & Hc1 & Hso & Hc2).
  rewrite Hw2 in Hmd2. simpl in Hmd2. injection Hmd2 as <-.
  pose proof (monitoring_monthly_keyed _ _ _ Hindex Hsel Hmm) as Kmm.
  pose proof (sort_values_keyed _ _ _ Hl Kmm) as Kl.
  destruct (merge_left_spec _ _ _ _ Hc2) as (nl & nr & Hnl & Hnr & Hcols2 & Hrows2).
  assert (Kc1 : keyed c1).
  { apply (merge_asof_keyed _ _ _ _ _ Hc1 Kl). left. now rewrite Hnl. }
  assert (Kc2 : keyed c2).
  { apply (merged_keyed ["parcelle_id"] c1 so c2 Kc1 Hcols2).
    - intros r Hr. destruct (Hrows2 r Hr) as (l0 & ext & Hl0 & Hv & _).
      now exists l0, ext.
    - right. now left. }
  destruct (merge_yield_inv _ _ _ _ Hmy) as (l2 & r2 & Hl2 & Hc3).
  pose proof (sort_values_keyed _ _ _ Hl2 Kc2) as Kl2.
  apply (merge_asof_keyed _ _ _ _ _ Hc3 Kl2). right. right. now left.
Qed.

Lemma numeric_positions_spec df j :
  In j (DataManager.numeric_positions df) -> is_number (Merge.dtype_at df j) = true.
Proof.
  unfold DataManager.numeric_positions. intros Hin.
  now apply filter_In in Hin as [_ Hin].
Qed.

(** C1 (as the claim states it, refuted).  A soil table with no column but
    [parcelle_id], which does not know parcel P002: the left join adds no
    field that could be missing, and the rows of P002 are returned. *)
Lemma unknown_parcel_is_kept_without_soil_attribute :
  soil_data (manager Farm.loaded_with_bare_soil) = Some Farm.bare_soil /\
  getitem Farm.bare_soil "parcelle_id" = Ok (Object, [Str "P001"]) /\
  (exists out ps,
      snd (@DataManager.prepare_features Reference.numerics Farm.loaded_with_bare_soil)
      = Ok out /\
      getitem out "parcelle_id" = Ok (Object, ps) /\
      In (Str "P002") ps).
Proof.
  split; [reflexivity|]. split; [reflexivity|].
  eexists. eexists. split; [vm_compute; reflexivity|].
  split; [vm_compute; reflexivity|].
  simpl. tauto.
Qed.

(** C1 (amended).  When [prepare_features] returns a table, it is the
    merged table without the rows that had a missing value, standardised:
    it has as many rows, and, the standardisation returning numbers, no
    missing value in any column.  Its column [parcelle_id] holds no parcel
    that the soil table does not know, provided the soil table has a column
    besides [parcelle_id]. *)
Theorem prepare_features_drops_incomplete_rows `{Numerics}
  (w w1 : World) (out soil : DataFrame) :
  DataManager.prepare_features w = (w1, Ok out) ->
  PipelineSpec.standardised_to_numbers w ->
  soil_data (manager w) = Some soil ->
  PipelineSpec.no_null out /\
  (exists joined,
      PipelineSpec.joined_table w = Ok joined /\
      PipelineSpec.merged_table w = Ok (Frame.dropna joined) /\
      PipelineSpec.no_null (Frame.dropna joined) /\
      names out = names joined /\
      List.length (rows out) = List.length (filter Frame.complete (rows joined))) /\
  (exists d ps,
      getitem out "parcelle_id" = Ok (d, ps) /\
      (PipelineSpec.has_attribute soil ->
       forall p, PipelineSpec.unknown_to soil p -> ~ In p ps)).
Proof.
  intros Hrun Hstd Hsoil.
  destruct (prepare_features_inv _ _ _ Hrun)
    as (w2 & w3 & merged & Hidx & Hmerge & _ & Hscale & _).
  destruct (merge_sources_inv _ _ _ Hmerge)
    as (c2 & c3 & w4 & w5 & Hws & Hmy & Hcheck & ->).
  destruct (scale_inv _ _ Hscale) as (Y & HY & ->).
  assert (Hmt : PipelineSpec.merged_table w = Ok (Frame.dropna c3)).
  { unfold PipelineSpec.merged_table.
    rewrite (bind_Ok _ _ _ _ _ Hidx), Hmerge. reflexivity. }
  pose proof (Hstd _ _ Hmt HY) as Hnum.
  pose proof (joined_table_keyed _ _ _ _ _ Hidx Hws Hmy) as (Kn & Klen & Kd).
  split; [|split].
  - apply assign_numeric_no_null; [apply dropna_no_null | exact Hnum].
  - exists c3. repeat split.
    + unfold PipelineSpec.joined_table.
      rewrite (bind_Ok _ _ _ _ _ Hidx), (bind_Ok _ _ _ _ _ Hws),
        (bind_Ok _ _ _ _ _ Hmy), (bind_Ok _ _ _ _ _ Hcheck). reflexivity.
    + assumption.
    + apply dropna_no_null.
    + unfold DataManager.assign_numeric. simpl.
      rewrite length_map, length_combine.
      unfold DataManager.scale in Hscale. rewrite HY in Hscale. simpl in Hscale.
      destruct (DataManager.same_shape _ Y) eqn:Es; [|discriminate].
      apply same_shape_length in Es. unfold DataManager.numeric_matrix in Es.
      rewrite length_map in Es. simpl in Es. lia.
  - exists (Merge.dtype_at c3 1),
      (map (cell_at 1) (rows (DataManager.assign_numeric (Frame.dropna c3) Y))).
    split.
    + unfold getitem.
      change (names (DataManager.assign_numeric (Frame.dropna c3) Y)) with (names c3).
      now rewrite (keyed_names_position _ Kn).
    + intros Hattr p Hunknown Hin.
      apply in_map_iff in Hin as (r & Hcell & Hr).
      unfold DataManager.assign_numeric in Hr. simpl in Hr.
      apply in_map_iff in Hr as ([r0 y] & <- & Hin).
      apply in_combine_l in Hin. apply filter_In in Hin as [Hr0 Hcomplete].
      unfold cell_at in Hcell. simpl in Hcell.
      rewrite nth_write_row in Hcell.
      * assert (Hinc : Frame.complete r0 = false).
        { eapply (unknown_parcel_is_incomplete w c3 soil p r0); try eassumption.
          exists w2, w4. split; [assumption|]. now exists c2. }
        congruence.
      * intros H1. apply numeric_positions_spec in H1.
        change (Merge.dtype_at (Frame.dropna c3) 1) with (Merge.dtype_at c3 1) in H1.
        congruence.
Qed.

Lemma prepare_features_drops_incomplete_rows_witness :
  PipelineSpec.no_null Farm.features /\
  (exists joined,
      @PipelineSpec.joined_table Reference.numerics Farm.loaded = Ok joined /\
      @PipelineSpec.merged_table Reference.numerics Farm.loaded
      = Ok (Frame.dropna joined) /\
      PipelineSpec.no_null (Frame.dropna joined) /\
      names Farm.features = names joined /\
      List.length (rows Farm.features)
      = List.length (filter Frame.complete (rows joined))) /\
  (exists d ps,
      getitem Farm.features "parcelle_id" = Ok (d, ps) /\
      ~ In (Str "P002") ps).
Proof.
  destruct (@prepare_features_drops_incomplete_rows Reference.numerics
              Farm.loaded Farm.prepared Farm.features Farm.soil)
    as (Hnull & Hmerged & d & ps & Hget & Hdrop).
  - vm_compute. reflexivity.
  - intros merged Y Hm HY. vm_compute in Hm. injection Hm as <-.
    vm_compute in HY. injection HY as <-. repeat constructor.
  - reflexivity.
  - split; [exact Hnull|]. split; [exact Hmerged|].
    exists d, ps. split; [exact Hget|]. apply Hdrop.
    + exists "ph". split; [simpl; tauto | discriminate].
    + intros d' ks Hsoil k Hk. vm_compute in Hsoil. injection Hsoil as _ <-.
      destruct Hk as [<-|[]]. reflexivity.
Defined.

(* ================================================================== *)
(** * The rest of the data manager *)
(* ================================================================== *)

(** ** Loading the files *)

(** ** Indexing by date *)

Lemma set_index_spec t c t' :
  Frame.set_index t c = Ok t' ->
  exists n,
    position c (names t) = Some n /\
    index t' = Some (nth n (columns t) ("", Object)) /\
    names t' = Frame.remove_nth n (names t) /\
    columns t' = Frame.remove_nth n (columns t) /\
    map label (rows t') = map (cell_at n) (rows t) /\
    (NoDup (names t) -> has_column t' c = false).
Proof.
  unfold Frame.set_index.
  destruct (position c (names t)) as [n|] eqn:Ep; [|discriminate].
  intros Heq. injection Heq as <-. exists n. simpl.
  repeat split.
  - unfold names. simpl. apply map_fst_remove_nth.
  - rewrite map_map. reflexivity.
  - intros Hnd. unfold has_column, names. simpl.
    rewrite map_fst_remove_nth. apply position_None.
    now apply position_remove_nth.
Qed.

Lemma set_index_without_column t c :
  has_column t c = false ->
  Frame.set_index t c
  = Raise (KeyError (("None of ['" ++ c ++ "'] are in the columns")%string)).
Proof.
  intros Hc. apply position_None in Hc. unfold Frame.set_index. now rewrite Hc.
Qed.

Lemma setup_temporal_indices_run w m wt y :
  monitoring_data (manager w) = Some m ->
  weather_data (manager w) = Some wt ->
  yield_history (manager w) = Some y ->
  DataManager._setup_temporal_indices w
  = match Frame.set_index m "date" with
    | Raise e => (w, Raise e)
    | Ok m' =>
        let w1 := mkWorld (disk w)
                          (mkManager (Some m') (Some wt) (soil_data (manager w)) (Some y))
                          (dashboard w) (logs w) in
        match Frame.set_index wt "date" with
        | Raise e => (w1, Raise e)
        | Ok wt' =>
            let w2 := mkWorld (disk w)
                              (mkManager (Some m') (Some wt') (soil_data (manager w)) (Some y))
                              (dashboard w) (logs w) in
            match Frame.set_index y "date" with
            | Raise e => (w2, Raise e)
            | Ok y' =>
                (mkWorld (disk w)
                         (mkManager (Some m') (Some wt') (soil_data (manager w)) (Some y'))
                         (dashboard w) (logs w), Ok tt)
            end
        end
    end.
Proof.
  intros Hm Hw Hy.
  unfold DataManager._setup_temporal_indices, Py.bind, held, Py.lift,
    set_monitoring_data, set_weather_data, set_yield_history, set_manager, Py.modify.
  rewrite Hm. destruct (Frame.set_index m "date") as [m'|e]; [|reflexivity].
  cbn [manager weather_data]. rewrite Hw.
  destruct (Frame.set_index wt "date") as [wt'|e]; cbn [manager weather_data soil_data yield_history disk dashboard logs];
    [|now rewrite Hy].
  rewrite Hy.
  destruct (Frame.set_index y "date") as [y'|e]; reflexivity.
Qed.

(** X2. [_setup_temporal_indices] moves the [date] column of the monitoring,
    weather and yield tables into their index, in place, and leaves
    everything else.  It cannot be repeated: the monitoring table (its
    column names being distinct) has no [date] column any more, so a second
    call raises a [KeyError] and changes nothing. *)
Theorem setup_temporal_indices_is_not_repeatable (w w1 : World) (m wt y : DataFrame) :
  monitoring_data (manager w) = Some m ->
  weather_data (manager w) = Some wt ->
  yield_history (manager w) = Some y ->
  NoDup (names m) ->
  DataManager._setup_temporal_indices w = (w1, Ok tt) ->
  (exists m' wt' y',
      Frame.set_index m "date" = Ok m' /\
      Frame.set_index wt "date" = Ok wt' /\
      Frame.set_index y "date" = Ok y' /\
      w1 = mkWorld (disk w)
                   (mkManager (Some m') (Some wt') (soil_data (manager w)) (Some y'))
                   (dashboard w) (logs w) /\
      has_column m "date" = true /\ has_column m' "date" = false /\
      (exists d, index m' = Some ("date", d)) /\
      List.length (rows m') = List.length (rows m)) /\
  exists msg, DataManager._setup_temporal_indices w1 = (w1, Raise (KeyError msg)).
Proof.
  intros Hm Hw Hy Hnd Hrun.
  rewrite (setup_temporal_indices_run _ _ _ _ Hm Hw Hy) in Hrun.
  destruct (Frame.set_index m "date") as [m'|] eqn:Em; [|discriminate].
  destruct (Frame.set_index wt "date") as [wt'|] eqn:Ewt; [|discriminate].
  destruct (Frame.set_index y "date") as [y'|] eqn:Ey; [|discriminate].
  cbv zeta in Hrun. injection Hrun as <-.
  destruct (set_index_spec _ _ _ Em) as (n & Hpos & Hidx & _ & _ & Hlab & Hnodate).
  split.
  - exists m', wt', y'. repeat split.
    + unfold has_column.
      destruct (existsb (String.eqb "date") (names m)) eqn:E; [reflexivity|].
      apply position_None in E. congruence.
    + now apply Hnodate.
    + exists (snd (nth n (columns m) ("", Object))). rewrite Hidx. f_equal.
      apply position_Some in Hpos as [Hlt Hnth]. unfold names in Hnth.
      change "" with (fst ("", Object)) in Hnth. rewrite map_nth in Hnth.
      destruct (nth n (columns m) ("", Object)) as [a b]. simpl in *. now subst.
    + apply (f_equal (@List.length cell)) in Hlab. now rewrite !length_map in Hlab.
  - eexists.
    rewrite (setup_temporal_indices_run _ m' wt' y') by reflexivity.
    rewrite (set_index_without_column m' "date") by now apply Hnodate.
    reflexivity.
Qed.

Lemma setup_temporal_indices_is_not_repeatable_witness :
  (exists m' wt' y',
      Frame.set_index Farm.monitoring "date" = Ok m' /\
      Frame.set_index Farm.weather "date" = Ok wt' /\
      Frame.set_index Farm.yields "date" = Ok y' /\
      fst (DataManager._setup_temporal_indices Farm.loaded)
      = mkWorld (disk Farm.loaded)
                (mkManager (Some m') (Some wt') (soil_data (manager Farm.loaded)) (Some y'))
                (dashboard Farm.loaded) (logs Farm.loaded) /\
      has_column Farm.monitoring "date" = true /\ has_column m' "date" = false /\
      (exists d, index m' = Some ("date", d)) /\
      List.length (rows m') = List.length (rows Farm.monitoring)) /\
  exists msg,
    DataManager._setup_temporal_indices
      (fst (DataManager._setup_temporal_indices Farm.loaded))
    = (fst (DataManager._setup_temporal_indices Farm.loaded), Raise (KeyError msg)).
Proof.
  apply (setup_temporal_indices_is_not_repeatable
           Farm.loaded (fst (DataManager._setup_temporal_indices Farm.loaded))
           Farm.monitoring Farm.weather Farm.yields).
  - reflexivity.
  - reflexivity.
  - reflexivity.
  - repeat constructor; simpl; intuition discriminate.
  - vm_compute. reflexivity.
Defined.
(** ** The temporal check and the date indices *)

Lemma is_monotonic_default_index t : index t = None -> DataManager.is_monotonic t = true.
Proof. unfold DataManager.is_monotonic. now intros ->. Qed.

Lemma is_monotonic_set_index t t' d ds :
  getitem t "date" = Ok (d, ds) ->
  Frame.set_index t "date" = Ok t' ->
  DataManager.is_monotonic t' = DatesSpec.chronological ds.
Proof.
  intros Hg Hs. destruct (set_index_spec _ _ _ Hs) as (n & Hpos & Hidx & _ & _ & Hlab & _).
  unfold getitem in Hg. rewrite Hpos in Hg. injection Hg as _ <-.
  unfold DataManager.is_monotonic, DatesSpec.chronological.
  now rewrite Hidx, Hlab.
Qed.

Lemma verify_temporal_consistency_run w m wt y :
  monitoring_data (manager w) = Some m ->
  weather_data (manager w) = Some wt ->
  yield_history (manager w) = Some y ->
  DataManager._verify_temporal_consistency w
  = (w,
     if negb (DataManager.is_monotonic m)
     then Raise (ValueError "Les données de monitoring ne sont pas triées par date.")
     else if negb (DataManager.is_monotonic wt)
     then Raise (ValueError "Les données météorologiques ne sont pas triées par date.")
     else if negb (DataManager.is_monotonic y)
     then Raise (ValueError "Les données historiques de rendements ne sont pas triées par date.")
     else Ok tt).
Proof.
  intros Hm Hw Hy.
  unfold DataManager._verify_temporal_consistency, Py.bind, held, Py.raise, Py.ret.
  rewrite Hm. cbv beta iota.
  destruct (DataManager.is_monotonic m); cbn [negb]; cbv beta iota; [|reflexivity].
  rewrite Hw. cbv beta iota.
  destruct (DataManager.is_monotonic wt); cbn [negb]; cbv beta iota; [|reflexivity].
  rewrite Hy. cbv beta iota.
  destruct (DataManager.is_monotonic y); reflexivity.
Qed.

(** X3. On the tables as [load_data] leaves them (a default index each),
    [_verify_temporal_consistency] passes whatever the order of the dates:
    it looks at the index only.  Once [_setup_temporal_indices] has made
    the dates the index, it passes exactly when the dates of the three
    tables are in order with none missing, and otherwise names the first
    table, monitoring, weather, yields, that is not. *)
Theorem temporal_check_needs_the_date_indices
  (w : World) (m wt y : DataFrame) (dm dw dy : dtype) (ms ws ys : list cell) :
  monitoring_data (manager w) = Some m ->
  weather_data (manager w) = Some wt ->
  yield_history (manager w) = Some y ->
  index m = None -> index wt = None -> index y = None ->
  getitem m "date" = Ok (dm, ms) ->
  getitem wt "date" = Ok (dw, ws) ->
  getitem y "date" = Ok (dy, ys) ->
  DataManager._verify_temporal_consistency w = (w, Ok tt) /\
  exists w1,
    DataManager._setup_temporal_indices w = (w1, Ok tt) /\
    DataManager._verify_temporal_consistency w1 = (w1, DatesSpec.verdict ms ws ys).
Proof.
  intros Hm Hw Hy Im Iw Iy Gm Gw Gy. split.
  - rewrite (verify_temporal_consistency_run _ _ _ _ Hm Hw Hy).
    now rewrite !is_monotonic_default_index.
  - assert (Hset : forall t d ds, getitem t "date" = Ok (d, ds) ->
                                  exists t', Frame.set_index t "date" = Ok t').
    { intros t d ds Hg. unfold getitem in Hg. unfold Frame.set_index.
      destruct (position "date" (names t)); [now eexists | discriminate]. }
    destruct (Hset _ _ _ Gm) as [m' Em], (Hset _ _ _ Gw) as [wt' Ew],
      (Hset _ _ _ Gy) as [y' Ey].
    eexists. split.
    + rewrite (setup_temporal_indices_run _ _ _ _ Hm Hw Hy), Em, Ew, Ey. reflexivity.
    + rewrite (verify_temporal_consistency_run _ m' wt' y') by reflexivity.
      rewrite (is_monotonic_set_index _ _ _ _ Gm Em),
        (is_monotonic_set_index _ _ _ _ Gw Ew),
        (is_monotonic_set_index _ _ _ _ Gy Ey).
      reflexivity.
Qed.

Lemma temporal_check_needs_the_date_indices_witness :
  DataManager._verify_temporal_consistency
    (Farm.loaded_with_monitoring Farm.monitoring_shuffled)
  = (Farm.loaded_with_monitoring Farm.monitoring_shuffled, Ok tt) /\
  exists w1,
    DataManager._setup_temporal_indices
      (Farm.loaded_with_monitoring Farm.monitoring_shuffled) = (w1, Ok tt) /\
    DataManager._verify_temporal_consistency w1
    = (w1, DatesSpec.verdict (map (cell_at 1) (rows Farm.monitoring_shuffled))
                             (map (cell_at 0) (rows Farm.weather))
                             (map (cell_at 1) (rows Farm.yields))).
Proof.
  apply (temporal_check_needs_the_date_indices
           (Farm.loaded_with_monitoring Farm.monitoring_shuffled)
           Farm.monitoring_shuffled Farm.weather Farm.yields
           Datetime64 Datetime64 Datetime64); reflexivity.
Defined.

(** There the monitoring dates are out of order, and the check says so. *)
Example shuffled_dates_verdict :
  DatesSpec.verdict (map (cell_at 1) (rows Farm.monitoring_shuffled))
                    (map (cell_at 0) (rows Farm.weather))
                    (map (cell_at 1) (rows Farm.yields))
  = Raise (ValueError "Les données de monitoring ne sont pas triées par date.").
Proof. vm_compute. reflexivity. Qed.
Lemma setup_temporal_indices_inv w w1 :
  DataManager._setup_temporal_indices w = (w1, Ok tt) ->
  exists m wt y m' wt' y',
    monitoring_data (manager w) = Some m /\
    weather_data (manager w) = Some wt /\
    yield_history (manager w) = Some y /\
    Frame.set_index m "date" = Ok m' /\
    Frame.set_index wt "date" = Ok wt' /\
    Frame.set_index y "date" = Ok y' /\
    w1 = mkWorld (disk w)
                 (mkManager (Some m') (Some wt') (soil_data (manager w)) (Some y'))
                 (dashboard w) (logs w).
Proof.
  intros Hrun.
  destruct (monitoring_data (manager w)) as [m|] eqn:Hm.
  2:{ unfold DataManager._setup_temporal_indices, Py.bind, held in Hrun.
      rewrite Hm in Hrun. discriminate. }
  destruct (weather_data (manager w)) as [wt|] eqn:Hw.
  2:{ unfold DataManager._setup_temporal_indices, Py.bind, held, Py.lift,
        set_monitoring_data, set_manager, Py.modify in Hrun.
      rewrite Hm in Hrun. destruct (Frame.set_index m "date"); [|discriminate].
      cbn [manager weather_data] in Hrun. rewrite Hw in Hrun. discriminate. }
  destruct (yield_history (manager w)) as [y|] eqn:Hy.
  2:{ unfold DataManager._setup_temporal_indices, Py.bind, held, Py.lift,
        set_monitoring_data, set_weather_data, set_manager, Py.modify in Hrun.
      rewrite Hm in Hrun. destruct (Frame.set_index m "date"); [|discriminate].
      cbn [manager weather_data] in Hrun. rewrite Hw in Hrun.
      destruct (Frame.set_index wt "date"); [|discriminate].
      cbn [manager yield_history] in Hrun. rewrite Hy in Hrun. discriminate. }
  rewrite (setup_temporal_indices_run _ _ _ _ Hm Hw Hy) in Hrun.
  destruct (Frame.set_index m "date") as [m'|] eqn:Em; [|discriminate].
  destruct (Frame.set_index wt "date") as [wt'|] eqn:Ewt; [|discriminate].
  destruct (Frame.set_index y "date") as [y'|] eqn:Ey; [|discriminate].
  cbv zeta in Hrun. injection Hrun as <-.
  now exists m, wt, y, m', wt', y'.
Qed.

(** X4. The dates are moved into the index once, by [_setup_temporal_indices]
    or by [prepare_features], not by both: after a successful
    [_setup_temporal_indices] the monitoring table (its column names being
    distinct) has no [date] column, and [prepare_features] raises
    [KeyError: 'date']; after a successful [prepare_features],
    [_setup_temporal_indices] raises a [KeyError] and changes nothing. *)
Theorem date_indexing_is_done_once `{Numerics} (w : World) (m : DataFrame) :
  monitoring_data (manager w) = Some m ->
  NoDup (names m) ->
  (forall w1,
      DataManager._setup_temporal_indices w = (w1, Ok tt) ->
      snd (DataManager.prepare_features w1) = Raise (KeyError "date")) /\
  (forall w1 t,
      DataManager.prepare_features w = (w1, Ok t) ->
      exists msg,
        DataManager._setup_temporal_indices w1 = (w1, Raise (KeyError msg))).
Proof.
  intros Hm Hnd. split.
  - intros w1 Hrun.
    destruct (setup_temporal_indices_inv _ _ Hrun)
      as (m0 & wt & y & m' & wt' & y' & Hm0 & _ & _ & Em & _ & _ & ->).
    rewrite Hm in Hm0. injection Hm0 as <-.
    destruct (set_index_spec _ _ _ Em) as (n & _ & _ & _ & _ & _ & Hnodate).
    apply (prepare_features_needs_date_column _ m'); [reflexivity | now apply Hnodate].
  - intros w1 t Hrun.
    destruct (prepare_features_inv _ _ _ Hrun)
      as (w2 & w3 & merged & Hidx & _ & _ & _ & Hm1).
    destruct (index_dates_inv _ _ Hidx)
      as (md & wd & yd & md' & wd' & yd' & Hmd & _ & _ & Himd & _ & _ & ->).
    rewrite Hm in Hmd. injection Hmd as <-.
    destruct (indexed_spec _ _ Himd) as (n & _ & _ & _ & Hnodate).
    simpl in Hm1. eexists.
    rewrite (setup_temporal_indices_run _ md' wd' yd') by now rewrite Hm1.
    rewrite (set_index_without_column md' "date") by now apply Hnodate.
    reflexivity.
Qed.

Lemma date_indexing_is_done_once_witness :
  (forall w1,
      DataManager._setup_temporal_indices Farm.loaded = (w1, Ok tt) ->
      snd (@DataManager.prepare_features Reference.numerics w1) = Raise (KeyError "date")) /\
  (forall w1 t,
      @DataManager.prepare_features Reference.numerics Farm.loaded = (w1, Ok t) ->
      exists msg,
        DataManager._setup_temporal_indices w1 = (w1, Raise (KeyError msg))).
Proof.
  apply (@date_indexing_is_done_once Reference.numerics Farm.loaded Farm.monitoring).
  - reflexivity.
  - repeat constructor; simpl; intuition discriminate.
Defined.

(** On the farm both calls succeed when they come first. *)
Example farm_can_be_indexed_either_way :
  snd (DataManager._setup_temporal_indices Farm.loaded) = Ok tt /\
  is_ok (snd (@DataManager.prepare_features Reference.numerics Farm.loaded)) = true.
Proof. split; vm_compute; reflexivity. Qed.
(** ** The columns [prepare_features] returns *)

Lemma suffix_x_not_date s : String.append s "_x" <> "date".
Proof.
  intros Heq.
  do 4 (destruct s as [|? s]; simpl in Heq; [discriminate|];
        injection Heq as _ Heq).
  destruct s; discriminate.
Qed.

Lemma suffix_y_not_date s : String.append s "_y" <> "date".
Proof.
  intros Heq.
  do 4 (destruct s as [|? s]; simpl in Heq; [discriminate|];
        injection Heq as _ Heq).
  destruct s; discriminate.
Qed.

Lemma select_index df cs out : select df cs = Ok out -> index out = index df.
Proof.
  unfold select. destruct (positions cs (names df)); simpl; [|discriminate].
  intros Heq. now injection Heq as <-.
Qed.

Lemma monthly_mean_by_head `{Numerics} df by_ mm name d :
  index df = Some (name, d) ->
  Frame.monthly_mean_by df by_ = Ok mm ->
  exists cs, columns mm = (name, Datetime64) :: cs.
Proof.
  unfold Frame.monthly_mean_by. intros ->.
  destruct d, (position by_ (names df)); try discriminate.
  destruct (Nat.ltb _ _); [discriminate|].
  intros Heq. injection Heq as <-. simpl. now eexists.
Qed.

(** The first column of the left table keeps its name through a merge of
    which it is a key. *)
Lemma merged_columns_head keys left right c0 cs :
  columns left = c0 :: cs ->
  Merge.mem (fst c0) keys = true ->
  exists cs', Merge.merged_columns keys left right = c0 :: cs'.
Proof.
  intros Hc Hk. unfold Merge.merged_columns. rewrite Hc. cbn [map app].
  eexists. f_equal. unfold Merge.suffixed.
  destruct (Merge.mem (fst c0) (map fst (Merge.kept_columns keys right))) eqn:E;
    [|reflexivity].
  apply mem_In, kept_columns_not_keys in E. congruence.
Qed.

(** A merge leaves a column named [date] only if it left the left table's
    one as it was. *)
Lemma merged_columns_keep_date keys left right d cs :
  columns left = ("date", d) :: cs ->
  In "date" (map fst (Merge.merged_columns keys left right)) ->
  exists cs', Merge.merged_columns keys left right = ("date", d) :: cs'.
Proof.
  intros Hc Hin. unfold Merge.merged_columns in *.
  set (others := map fst (Merge.kept_columns keys right)) in *.
  destruct (Merge.mem "date" others) eqn:E.
  - exfalso. rewrite map_app, in_app_iff, !map_map in Hin.
    destruct Hin as [Hin|Hin]; apply in_map_iff in Hin as (c & Hname & Hc').
    + unfold Merge.suffixed in Hname.
      destruct (Merge.mem (fst c) others) eqn:Ec; simpl in Hname.
      * now apply suffix_x_not_date in Hname.
      * rewrite Hname in Ec. congruence.
    + unfold Merge.suffixed in Hname.
      destruct (Merge.mem (fst c) (names left)) eqn:Ec; simpl in Hname.
      * now apply suffix_y_not_date in Hname.
      * rewrite Hname in Ec. apply mem_false in Ec. apply Ec.
        unfold names. rewrite Hc. now left.
  - rewrite Hc. cbn [map app]. eexists. f_equal.
    unfold Merge.suffixed. cbn [fst]. now rewrite E.
Qed.

Lemma sort_values_has_column df c out :
  Frame.sort_values df c = Ok out -> In c (names df).
Proof.
  unfold Frame.sort_values.
  destruct (position c (names df)) as [n|] eqn:E; [|discriminate].
  intros _. now apply position_In in E.
Qed.

Lemma joined_table_head `{Numerics} w w2 w3 c2 c3 :
  DataManager.index_dates w = (w2, Ok tt) ->
  DataManager.merge_weather_soil w2 = (w2, Ok c2) ->
  DataManager.merge_yield c2 w2 = (w3, Ok c3) ->
  exists d cs, columns c3 = ("date", d) :: cs.
Proof.
  intros Hidx Hws Hmy.
  destruct (index_dates_inv _ _ Hidx)
    as (md & wd & yd & md' & wd' & yd' & _ & _ & _ & Himd & _ & _ & Hw2).
  destruct (indexed_spec _ _ Himd) as (n & _ & Hindex & _).
  destruct (merge_weather_soil_inv _ _ _ Hws)
    as (md2 & sel & mm & l & r1 & c1 & so & _ & Hmd2 & Hsel & Hmm & Hl & Hc1 & Hso & Hc2).
  rewrite Hw2 in Hmd2. simpl in Hmd2. injection Hmd2 as <-.
  pose proof (select_index _ _ _ Hsel) as Hsi. rewrite Hindex in Hsi.
  destruct (monthly_mean_by_head _ _ _ _ _ Hsi Hmm) as [cs0 Hmm0].
  destruct (sort_values_spec _ _ _ Hl) as [Hlc _]. rewrite Hmm0 in Hlc.
  destruct (merge_asof_spec _ _ _ _ _ Hc1) as [Hc1c _].
  destruct (merged_columns_head ("date" :: Frame.option_list None) l r1 _ _ Hlc eq_refl)
    as [cs1 Hcs1].
  rewrite Hcs1 in Hc1c.
  destruct (merge_left_spec _ _ _ _ Hc2) as (nl & nr & _ & _ & Hc2c & _).
  destruct (merge_yield_inv _ _ _ _ Hmy) as (l2 & r2 & Hl2 & Hc3).
  pose proof (sort_values_has_column _ _ _ Hl2) as Hdate.
  unfold names in Hdate. rewrite Hc2c in Hdate.
  destruct (merged_columns_keep_date _ _ _ _ _ Hc1c Hdate) as [cs2 Hcs2].
  rewrite Hcs2 in Hc2c.
  destruct (sort_values_spec _ _ _ Hl2) as [Hl2c _]. rewrite Hc2c in Hl2c.
  destruct (merge_asof_spec _ _ _ _ _ Hc3) as [Hc3c _].
  destruct (merged_columns_head ("date" :: Frame.option_list (Some "parcelle_id"))
              l2 r2 _ _ Hl2c eq_refl) as [cs3 Hcs3].
  rewrite Hcs3 in Hc3c. now exists Datetime64, cs3.
Qed.

Lemma held_unchanged e field : keeps (fun a b : World => b = a) (held e field).
Proof. intros w. unfold held. now destruct (field (manager w)). Qed.

Lemma merge_sources_unchanged `{Numerics} w : fst (DataManager.merge_sources w) = w.
Proof.
  assert (R_refl : forall a : World, a = a) by reflexivity.
  assert (R_trans : forall a b c : World, b = a -> c = b -> c = a) by congruence.
  revert w. change (keeps (fun a b : World => b = a) DataManager.merge_sources).
  unfold DataManager.merge_sources, DataManager.merge_weather_soil,
    DataManager.merge_yield, DataManager.check_yield_column.
  repeat first [ apply held_unchanged | keeps_step ].
Qed.

(** The world and the table a successful [prepare_features] leaves. *)
Lemma prepare_features_returns `{Numerics} w w1 out :
  DataManager.prepare_features w = (w1, Ok out) ->
  exists md wd yd md' wd' yd' joined,
    monitoring_data (manager w) = Some md /\
    weather_data (manager w) = Some wd /\
    yield_history (manager w) = Some yd /\
    indexed md = Ok md' /\ indexed wd = Ok wd' /\ dated yd = Ok yd' /\
    w1 = mkWorld (disk w)
                 (mkManager (Some md') (Some wd') (soil_data (manager w)) (Some yd'))
                 (dashboard w)
                 (logs w ++ [LogInfo "Colonnes disponibles après fusion" (names out)]) /\
    names out = names joined /\
    has_column joined "rendement_estime" = true /\
    keyed joined /\
    exists d cs, columns joined = ("date", d) :: cs.
Proof.
  unfold DataManager.prepare_features, Py.try_except. intros Hrun.
  destruct (DataManager.prepare_features_try w) as [w' [t'|e]] eqn:Ebody;
    [|discriminate].
  injection Hrun as -> ->.
  unfold DataManager.prepare_features_try in Ebody.
  apply bind_inv_Ok in Ebody as (w2 & [] & Hidx & Ebody).
  apply bind_inv_Ok in Ebody as (w3 & merged & Hmerge & Ebody).
  apply bind_inv_Ok in Ebody as (w4 & scaled & Hscale & Ebody).
  apply lift_inv in Hscale as [-> Hscale].
  apply bind_inv_Ok in Ebody as (w5 & [] & Hlog & Ebody).
  injection Hlog as <-. injection Ebody as <- <-.
  pose proof (merge_sources_unchanged w2) as Hsame. rewrite Hmerge in Hsame.
  simpl in Hsame. subst w3.
  destruct (merge_sources_inv _ _ _ Hmerge)
    as (c2 & c3 & wa & wb & Hws & Hmy & Hcheck & ->).
  symmetry in Hscale. destruct (scale_inv _ _ Hscale) as (Y & _ & ->).
  destruct (index_dates_inv _ _ Hidx)
    as (md & wd & yd & md' & wd' & yd' & Hmd & Hwd & Hyd & Himd & Hiwd & Hdyd & Hw2).
  exists md, wd, yd, md', wd', yd', c3.
  repeat split; try assumption.
  - now rewrite Hw2.
  - unfold DataManager.check_yield_column in Hcheck.
    destruct (has_column c3 "rendement_estime"); [reflexivity | discriminate].
  - apply (joined_table_keyed _ _ _ _ _ Hidx Hws Hmy).
  - apply (joined_table_keyed _ _ _ _ _ Hidx Hws Hmy).
  - apply (joined_table_keyed _ _ _ _ _ Hidx Hws Hmy).
  - apply (joined_table_head _ _ _ _ _ Hidx Hws Hmy).
Qed.

Lemma prepare_features_names `{Numerics} w w1 out :
  DataManager.prepare_features w = (w1, Ok out) ->
  exists rest,
    names out = "date" :: "parcelle_id" :: rest /\
    ~ In "parcelle_id" rest /\ In "rendement_estime" rest.
Proof.
  intros Hrun.
  destruct (prepare_features_returns _ _ _ Hrun)
    as (md & wd & yd & md' & wd' & yd' & joined & _ & _ & _ & _ & _ & _ & _
        & Hnames & Hcol & ((a & rest & Hk & Ha & Hrest) & _) & d & cs & Hhead).
  exists rest. rewrite Hnames.
  assert (Hdate : a = "date").
  { unfold names in Hk. rewrite Hhead in Hk. simpl in Hk. now injection Hk as <-. }
  subst a. repeat split; try assumption.
  unfold has_column in Hcol. rewrite Hk in Hcol.
  apply existsb_exists in Hcol as (x & Hx & Hxe).
  apply String.eqb_eq in Hxe. subst x.
  destruct Hx as [Hx|[Hx|Hx]]; [discriminate | discriminate | assumption].
Qed.

(** X5. When [prepare_features] returns a table, its first two columns are
    [date] and [parcelle_id], no other column is named [parcelle_id], and
    it has a column [rendement_estime].  The call logs one record, the
    names of the columns it returns, and changes nothing but the three held
    tables it dates and indexes: the files, the soil table and the
    dashboard are as before. *)
Theorem prepare_features_returns_a_dated_keyed_table `{Numerics}
  (w w1 : World) (out : DataFrame) :
  DataManager.prepare_features w = (w1, Ok out) ->
  (exists rest,
      names out = "date" :: "parcelle_id" :: rest /\
      ~ In "parcelle_id" rest /\ In "rendement_estime" rest) /\
  logs w1 = logs w ++ [LogInfo "Colonnes disponibles après fusion" (names out)] /\
  disk w1 = disk w /\ dashboard w1 = dashboard w /\
  soil_data (manager w1) = soil_data (manager w).
Proof.
  intros Hrun. split; [now apply prepare_features_names with (1 := Hrun)|].
  destruct (prepare_features_returns _ _ _ Hrun)
    as (md & wd & yd & md' & wd' & yd' & joined & _ & _ & _ & _ & _ & _ & -> & _).
  repeat split.
Qed.

Lemma prepare_features_returns_a_dated_keyed_table_witness :
  (exists rest,
      names Farm.features = "date" :: "parcelle_id" :: rest /\
      ~ In "parcelle_id" rest /\ In "rendement_estime" rest) /\
  logs Farm.prepared
  = logs Farm.loaded ++ [LogInfo "Colonnes disponibles après fusion" (names Farm.features)] /\
  disk Farm.prepared = disk Farm.loaded /\ dashboard Farm.prepared = dashboard Farm.loaded /\
  soil_data (manager Farm.prepared) = soil_data (manager Farm.loaded).
Proof.
  apply (@prepare_features_returns_a_dated_keyed_table Reference.numerics
           Farm.loaded Farm.prepared Farm.features).
  vm_compute. reflexivity.
Defined.
(** ** The risk score, again *)

Lemma set_nth_same {A} n (l : list A) d : set_nth n (nth n l d) l = l.
Proof.
  revert n. induction l as [|x l IH]; intros [|n]; simpl; try reflexivity.
  now rewrite IH.
Qed.

Lemma set_nth_nth {A} n (a d : A) l :
  (n < List.length l)%nat -> nth n l d = a -> set_nth n a l = l.
Proof. intros _ <-. apply set_nth_same. Qed.

(** Assigning to a column the values it holds changes nothing. *)
Lemma setitem_getitem df c d s : getitem df c = Ok (d, s) -> setitem df c d s = df.
Proof.
  unfold getitem, setitem.
  destruct (position c (names df)) as [n|] eqn:Ep; [|discriminate].
  intros Heq. injection Heq as <- <-.
  apply position_Some in Ep as [Hlt Hnth]. unfold names in *.
  destruct df as [i cols rs]. simpl in *. f_equal.
  - apply set_nth_nth with (d := ("", Object)); [now rewrite length_map in Hlt|].
    change "" with (fst ("", Object)) in Hnth. rewrite map_nth in Hnth.
    change Object with (snd ("", Object)) at 2. rewrite map_nth.
    destruct (nth n cols ("", Object)). simpl in *. now subst.
  - rewrite map_combine_map. rewrite <- (map_id rs) at 2. apply map_ext.
    intros [l vs]. simpl. unfold cell_at. simpl. now rewrite set_nth_same.
Qed.

(** X6. On a table whose columns [stress_hydrique] and [biomasse_estimee]
    are numeric, [calculate_risk_metrics] can be called again on the table
    it has changed: the second call returns what the first returned, the
    same error when the table lacks [parcelle_id] or [date], and leaves the
    table as the first left it.  The column [risk_score] is computed from
    the two input columns and written over the one that is there. *)
Theorem calculate_risk_metrics_twice (data : DataFrame) (ss bs : list cell) :
  wf data ->
  getitem data "stress_hydrique" = Ok (Float64, ss) ->
  getitem data "biomasse_estimee" = Ok (Float64, bs) ->
  RiskMetrics.calculate_risk_metrics (fst (RiskMetrics.calculate_risk_metrics data))
  = RiskMetrics.calculate_risk_metrics data /\
  fst (RiskMetrics.calculate_risk_metrics data)
  = setitem data "risk_score" Float64
      (map (fun sb => Num (RiskMetrics.risk_score (Series.num_of (fst sb))
                                               (Series.num_of (snd sb))))
           (combine ss bs)).
Proof.
  intros Hwf Hs Hb.
  rewrite (calculate_risk_metrics_run _ _ _ Hs Hb). cbv zeta. simpl fst.
  set (col := map _ (combine ss bs)).
  assert (Hlen : List.length col = List.length (rows data)).
  { unfold col. rewrite length_map, length_combine.
    rewrite (getitem_length _ _ _ _ Hs), (getitem_length _ _ _ _ Hb). lia. }
  set (data' := setitem data "risk_score" Float64 col).
  assert (Hs' : getitem data' "stress_hydrique" = Ok (Float64, ss)).
  { unfold data'. rewrite getitem_setitem_other; try assumption; try discriminate.
    eapply getitem_has_column; eassumption. }
  assert (Hb' : getitem data' "biomasse_estimee" = Ok (Float64, bs)).
  { unfold data'. rewrite getitem_setitem_other; try assumption; try discriminate.
    eapply getitem_has_column; eassumption. }
  rewrite (calculate_risk_metrics_run _ _ _ Hs' Hb'). cbv zeta. fold col.
  assert (Hsame : setitem data' "risk_score" Float64 col = data').
  { apply setitem_getitem. unfold data'. now apply getitem_setitem_same. }
  rewrite Hsame. now split.
Qed.

Lemma calculate_risk_metrics_twice_witness :
  RiskMetrics.calculate_risk_metrics
    (fst (RiskMetrics.calculate_risk_metrics Sample.readings))
  = RiskMetrics.calculate_risk_metrics Sample.readings /\
  fst (RiskMetrics.calculate_risk_metrics Sample.readings)
  = setitem Sample.readings "risk_score" Float64
      (map (fun sb => Num (RiskMetrics.risk_score (Series.num_of (fst sb))
                                               (Series.num_of (snd sb))))
           (combine [Num 0.4%float] [Num 2.0%float])).
Proof.
  apply (calculate_risk_metrics_twice Sample.readings [Num 0.4%float] [Num 2.0%float]).
  - apply wfb_wf. reflexivity.
  - reflexivity.
  - reflexivity.
Defined.

(** A table without [parcelle_id]: the first call writes the score and then
    raises; the second call raises the same error and writes the same. *)
Example calculate_risk_metrics_twice_without_parcel :
  let data := mkDF None [("stress_hydrique", Float64); ("biomasse_estimee", Float64)]
                   [mkRow NA [Num 0.4%float; Num 2.0%float]] in
  RiskMetrics.calculate_risk_metrics data
  = (setitem data "risk_score" Float64 [Num 0.8%float], Raise (KeyError "parcelle_id")) /\
  RiskMetrics.calculate_risk_metrics (fst (RiskMetrics.calculate_risk_metrics data))
  = RiskMetrics.calculate_risk_metrics data.
Proof. split; vm_compute; reflexivity. Qed.

(** X7. An input column that is missing or is not numeric is found before the
    table is written: the call raises ([KeyError] naming the column, or
    [TypeError] for a column of text or of timestamps) and the caller's
    table is as it was.  [stress_hydrique] is looked at first. *)
Theorem calculate_risk_metrics_rejects_before_writing (data : DataFrame) :
  (has_column data "stress_hydrique" = false ->
   RiskMetrics.calculate_risk_metrics data = (data, Raise (KeyError "stress_hydrique"))) /\
  (forall d ss,
      getitem data "stress_hydrique" = Ok (d, ss) ->
      d = Datetime64 \/ (d = Object /\ exists s, In (Str s) ss) ->
      exists msg, RiskMetrics.calculate_risk_metrics data = (data, Raise (TypeError msg))) /\
  (forall ss,
      getitem data "stress_hydrique" = Ok (Float64, ss) ->
      has_column data "biomasse_estimee" = false ->
      RiskMetrics.calculate_risk_metrics data = (data, Raise (KeyError "biomasse_estimee"))) /\
  (forall ss d bs,
      getitem data "stress_hydrique" = Ok (Float64, ss) ->
      getitem data "biomasse_estimee" = Ok (d, bs) ->
      d = Datetime64 \/ (d = Object /\ exists s, In (Str s) bs) ->
      exists msg, RiskMetrics.calculate_risk_metrics data = (data, Raise (TypeError msg))).
Proof.
  assert (Hmiss : forall c, has_column data c = false -> getitem data c = Raise (KeyError c)).
  { intros c Hc. apply position_None in Hc. unfold getitem. now rewrite Hc. }
  unfold RiskMetrics.calculate_risk_metrics, Py.bind, Py.get, Py.lift.
  split; [|split; [|split]].
  - intros Hc. now rewrite (Hmiss _ Hc).
  - intros d ss Hs [->|[-> _]]; rewrite Hs; simpl; now eexists.
  - intros ss Hs Hc. rewrite Hs. simpl. now rewrite (Hmiss _ Hc).
  - intros ss d bs Hs Hb [->|[-> _]]; rewrite Hs; simpl; rewrite Hb; simpl; now eexists.
Qed.

(** ** Joining with the yield history *)

Section LeftMerge.

Import MergeOn.

Context `{Libraries}.

Lemma merge_left_on_plain left right keys out :
  plain left keys = true -> plain right keys = true ->
  merge_left_on left right keys = Ok out ->
  exists ps,
    key_positions keys left right = Ok ps /\
    index out = None /\
    columns out = match rows left with
                  | [] => columns_of_empty_left keys left right
                  | _ => Merge.merged_columns keys left right
                  end /\
    rows out
    = flat_map
        (fun l =>
           match filter (same_keys ps l) (rows right) with
           | [] => [mkRow NA (values l ++ Merge.extension keys right None)]
           | ms => map (fun r => mkRow NA (values l ++ Merge.extension keys right (Some r))) ms
           end)
        (rows left).
Proof.
  intros Hl Hr. unfold merge_left_on. rewrite Hl, Hr. cbn [andb negb].
  destruct (key_positions keys left right) as [ps|]; cbn [Py.rbind]; [|discriminate].
  destruct (negb _ && _); [discriminate|].
  exists ps. split; [reflexivity|].
  destruct (rows left) as [|l ls] eqn:El; injection H0 as <-; now repeat split.
Qed.

Lemma key_positions_missing keys left right k :
  In k keys ->
  has_column left k = false \/ has_column right k = false ->
  exists k', key_positions keys left right = Raise (KeyError k').
Proof.
  intros Hin Hmiss. induction keys as [|k0 ks IH]; [destruct Hin|].
  cbn [key_positions].
  destruct (position k0 (names right)) as [nr|] eqn:Er; [|now eexists].
  destruct (position k0 (names left)) as [nl|] eqn:El; [|now eexists].
  destruct Hin as [->|Hin].
  - exfalso. destruct Hmiss as [Hm|Hm]; apply position_None in Hm; congruence.
  - destruct (IH Hin) as [k' ->]. now eexists.
Qed.

End LeftMerge.

Section LeftJoin.

Import MergeOn.

Lemma kept_attributes y : Merge.kept ["date"; "parcelle_id"] y = JoinSpec.attributes y.
Proof.
  unfold Merge.kept, JoinSpec.attributes. apply filter_ext. intros j.
  unfold Merge.mem. cbn [existsb]. now rewrite orb_false_r.
Qed.

Lemma same_keys_estimates dl pl dy py y l :
  filter (same_keys [(dl, dy); (pl, py)] l) (rows y)
  = JoinSpec.estimates_of dl pl dy py y l.
Proof.
  unfold JoinSpec.estimates_of. apply filter_ext. intros r.
  unfold same_keys. cbn [forallb fst snd]. now rewrite andb_true_r.
Qed.

Lemma key_positions_date_parcel data y dl pl dy py :
  position "date" (names data) = Some dl ->
  position "parcelle_id" (names data) = Some pl ->
  position "date" (names y) = Some dy ->
  position "parcelle_id" (names y) = Some py ->
  key_positions ["date"; "parcelle_id"] data y = Ok [(dl, dy); (pl, py)].
Proof. intros H1 H2 H3 H4. cbn [key_positions]. now rewrite H1, H2, H3, H4. Qed.

Lemma merged_names_renamed data y :
  map fst (Merge.merged_columns ["date"; "parcelle_id"] data y)
  = map (JoinSpec.renamed "_x" (JoinSpec.attribute_names y)) (names data)
    ++ map (JoinSpec.renamed "_y" (names data)) (JoinSpec.attribute_names y).
Proof.
  unfold Merge.merged_columns, Merge.kept_columns, JoinSpec.attribute_names, names.
  rewrite kept_attributes.
  assert (E : map fst (map (fun j => nth j (columns y) ("", Object)) (JoinSpec.attributes y))
              = map (fun j => nth j (map fst (columns y)) "") (JoinSpec.attributes y)).
  { rewrite map_map. apply map_ext. intros j.
    change "" with (fst ("", Object)) at 2. now rewrite map_nth. }
  rewrite E, map_app. f_equal.
  - rewrite !map_map. apply map_ext. intros [n d].
    unfold Merge.suffixed, JoinSpec.renamed, Merge.mem. cbn [fst snd].
    now destruct (existsb _ _).
  - rewrite <- E, !map_map. apply map_ext. intros j.
    unfold Merge.suffixed, JoinSpec.renamed, Merge.mem.
    now destruct (existsb _ _).
Qed.

End LeftJoin.

(** X8. [_enrich_with_yield_history] is a left join on [date] and
    [parcelle_id].  The rows it returns are, for every row of [data] in
    order, that row followed by the other columns of each row of the yield
    history with the same date and parcel, in the order of the yield
    history, or followed by missing values when there is no such row; so
    no row of [data] is lost, and none is repeated when the yield history
    has at most one row for a date and a parcel.  The columns are those of
    [data] and then the other columns of the yield history, a name that
    both have getting [_x] and [_y].  The call returns when the two key
    columns have the same kind in both tables, and changes nothing; when
    one of the tables has no [date] column it raises [KeyError: 'date'].
    (Neither key names two columns, or the index, of one of the tables.) *)
Theorem enrich_with_yield_history_is_a_left_join `{Libraries}
  (w : World) (data y : DataFrame) :
  yield_history (manager w) = Some y ->
  MergeOn.plain data ["date"; "parcelle_id"] = true ->
  MergeOn.plain y ["date"; "parcelle_id"] = true ->
  (forall dl pl dy py,
      position "date" (names data) = Some dl ->
      position "parcelle_id" (names data) = Some pl ->
      position "date" (names y) = Some dy ->
      position "parcelle_id" (names y) = Some py ->
      (Merge.dtype_at data dl = Merge.dtype_at y dy ->
       Merge.dtype_at data pl = Merge.dtype_at y py ->
       exists out, Patterns._enrich_with_yield_history data w = (w, Ok out)) /\
      (forall w' out,
          Patterns._enrich_with_yield_history data w = (w', Ok out) ->
          w' = w /\
          map values (rows out) = flat_map (JoinSpec.joined dl pl dy py y) (rows data) /\
          (rows data <> [] ->
           names out
           = map (JoinSpec.renamed "_x" (JoinSpec.attribute_names y)) (names data)
             ++ map (JoinSpec.renamed "_y" (names data)) (JoinSpec.attribute_names y)) /\
          (List.length (rows data) <= List.length (rows out))%nat /\
          ((forall l, In l (rows data) ->
                      (List.length (JoinSpec.estimates_of dl pl dy py y l) <= 1)%nat) ->
           List.length (rows out) = List.length (rows data)))) /\
  (has_column data "date" = false \/ has_column y "date" = false ->
   Patterns._enrich_with_yield_history data w = (w, Raise (KeyError "date"))).
Proof.
  intros Hy Hpd Hpy.
  assert (Hrun : Patterns._enrich_with_yield_history data w
                 = (w, MergeOn.merge_left_on data y ["date"; "parcelle_id"])).
  { unfold Patterns._enrich_with_yield_history, Py.bind, held, Py.lift. now rewrite Hy. }
  rewrite Hrun. split.
  - intros dl pl dy py Hdl Hpl Hdy Hpyy.
    pose proof (key_positions_date_parcel _ _ _ _ _ _ Hdl Hpl Hdy Hpyy) as Hps.
    split.
    + intros Ed Ep. unfold MergeOn.merge_left_on. rewrite Hpd, Hpy, Hps.
      cbn [andb negb Py.rbind existsb].
      assert (Hc : forall a b, Merge.dtype_at data a = Merge.dtype_at y b ->
                               MergeOn.incompatible data y (a, b) = false).
      { intros a b E. unfold MergeOn.incompatible. cbn [fst snd]. rewrite E.
        now destruct (Merge.dtype_at y b). }
      rewrite (Hc _ _ Ed), (Hc _ _ Ep). cbn [orb]. rewrite andb_false_r.
      destruct (rows data); now eexists.
    + intros w' out Heq. injection Heq as <- Hm. split; [reflexivity|].
      destruct (merge_left_on_plain _ _ _ _ Hpd Hpy Hm) as (ps & Hps' & _ & Hcols & Hrows).
      rewrite Hps in Hps'. injection Hps' as <-.
      assert (Hvalues : map values (rows out)
                        = flat_map (JoinSpec.joined dl pl dy py y) (rows data)).
      { rewrite Hrows. clear Hrows Hcols.
        induction (rows data) as [|l ls IH]; [reflexivity|].
        cbn [flat_map]. rewrite map_app, IH. f_equal.
        unfold JoinSpec.joined. rewrite same_keys_estimates.
        unfold Merge.extension. rewrite kept_attributes.
        destruct (JoinSpec.estimates_of dl pl dy py y l) as [|r ms]; [reflexivity|].
        now rewrite map_map. }
      assert (Hlen : forall l, (1 <= List.length (JoinSpec.joined dl pl dy py y l))%nat /\
                               ((List.length (JoinSpec.estimates_of dl pl dy py y l) <= 1)%nat ->
                                List.length (JoinSpec.joined dl pl dy py y l) = 1%nat)).
      { intros l. unfold JoinSpec.joined.
        destruct (JoinSpec.estimates_of dl pl dy py y l) as [|r ms]; cbn [List.length].
        - split; [lia | reflexivity].
        - rewrite length_map. cbn [List.length]. split; lia. }
      split; [exact Hvalues|].
      split.
      { intros Hne. unfold names at 1. rewrite Hcols.
        destruct (rows data); [congruence|]. apply merged_names_renamed. }
      rewrite <- (length_map values (rows out)), Hvalues. clear Hvalues Hrows Hcols.
      split.
      * induction (rows data) as [|l ls IH]; [simpl; lia|].
        cbn [flat_map List.length]. rewrite length_app.
        destruct (Hlen l) as [Hone _]. lia.
      * intros Hu. induction (rows data) as [|l ls IH]; [reflexivity|].
        cbn [flat_map List.length]. rewrite length_app.
        destruct (Hlen l) as [_ Hone]. rewrite Hone by (apply Hu; now left).
        rewrite IH; [reflexivity|]. intros l' Hl'. apply Hu. now right.
  - intros Hmiss. f_equal. unfold MergeOn.merge_left_on. rewrite Hpd, Hpy. cbn [andb negb].
    cbn [MergeOn.key_positions].
    destruct (position "date" (names y)) as [nr|] eqn:Er; [|reflexivity].
    destruct (position "date" (names data)) as [nl|] eqn:El; [|reflexivity].
    exfalso. destruct Hmiss as [Hm|Hm]; apply position_None in Hm; congruence.
Qed.

Lemma enrich_with_yield_history_is_a_left_join_witness :
  (forall dl pl dy py,
      position "date" (names Farm.features) = Some dl ->
      position "parcelle_id" (names Farm.features) = Some pl ->
      position "date" (names Farm.yields) = Some dy ->
      position "parcelle_id" (names Farm.yields) = Some py ->
      (Merge.dtype_at Farm.features dl = Merge.dtype_at Farm.yields dy ->
       Merge.dtype_at Farm.features pl = Merge.dtype_at Farm.yields py ->
       exists out,
         @Patterns._enrich_with_yield_history Refusing.libraries Farm.features Farm.prepared
         = (Farm.prepared, Ok out)) /\
      (forall w' out,
          @Patterns._enrich_with_yield_history Refusing.libraries Farm.features Farm.prepared
          = (w', Ok out) ->
          w' = Farm.prepared /\
          map values (rows out)
          = flat_map (JoinSpec.joined dl pl dy py Farm.yields) (rows Farm.features) /\
          (rows Farm.features <> [] ->
           names out
           = map (JoinSpec.renamed "_x" (JoinSpec.attribute_names Farm.yields))
                 (names Farm.features)
             ++ map (JoinSpec.renamed "_y" (names Farm.features))
                    (JoinSpec.attribute_names Farm.yields)) /\
          (List.length (rows Farm.features) <= List.length (rows out))%nat /\
          ((forall l, In l (rows Farm.features) ->
                      (List.length (JoinSpec.estimates_of dl pl dy py Farm.yields l) <= 1)%nat) ->
           List.length (rows out) = List.length (rows Farm.features)))) /\
  (has_column Farm.features "date" = false \/ has_column Farm.yields "date" = false ->
   @Patterns._enrich_with_yield_history Refusing.libraries Farm.features Farm.prepared
   = (Farm.prepared, Raise (KeyError "date"))).
Proof.
  apply (@enrich_with_yield_history_is_a_left_join Refusing.libraries
           Farm.prepared Farm.features Farm.yields).
  - vm_compute. reflexivity.
  - reflexivity.
  - reflexivity.
Defined.

(** On the farm the features are enriched: the row of January finds the
    estimate of its date and parcel, 6, and the row of February finds
    none. *)
Example farm_features_are_enriched :
  option_map (fun t => (names t, getitem t "rendement_estime_y", List.length (rows t)))
    (match snd (@Patterns._enrich_with_yield_history Refusing.libraries
                  Farm.features Farm.prepared) with
     | Ok t => Some t
     | Raise _ => None
     end)
  = Some (["date"; "parcelle_id"; "temperature"; "stress_hydrique"; "biomasse_estimee";
           "ndvi"; "precipitation"; "ph"; "type_sol"; "rendement_estime_x";
           "rendement_estime_y"],
          Ok (Float64, [Num 6%float; NA]), 2%nat).
Proof. vm_compute. reflexivity. Qed.
(** ** The patterns of a parcel *)

Section Parcel.

Import Rows MergeOn.

Lemma map_combine_snd {A B C} (f : B -> C) (ks : list A) (l : list B) :
  List.length ks = List.length l ->
  map (fun kb => f (snd kb)) (combine ks l) = map f l.
Proof.
  revert ks. induction l as [|b l IH]; intros [|k ks]; simpl; intros Hlen;
    try discriminate; try reflexivity.
  rewrite IH; [reflexivity | lia].
Qed.

Lemma labelled_values df : map values (labelled df) = map values (rows df).
Proof.
  unfold labelled. destruct (index df); [reflexivity|].
  rewrite map_map. cbn [values].
  apply (map_combine_snd values). apply length_seq.
Qed.

Lemma labelled_cells df n : map (cell_at n) (labelled df) = map (cell_at n) (rows df).
Proof.
  change (cell_at n) with (fun r => nth n (values r) NA).
  rewrite <- !(map_map values (fun vs => nth n vs NA)).
  now rewrite labelled_values.
Qed.

Lemma labelled_wf df r :
  wf df -> In r (labelled df) -> List.length (values r) = List.length (columns df).
Proof.
  intros Hwf Hr. apply (in_map values) in Hr. rewrite labelled_values in Hr.
  apply in_map_iff in Hr as (r0 & <- & Hr0).
  unfold wf in Hwf. rewrite Forall_forall in Hwf. now apply Hwf.
Qed.

Lemma filter_map_comm {A B} (p : B -> bool) (f : A -> B) l :
  filter p (map f l) = map f (filter (fun a => p (f a)) l).
Proof.
  induction l as [|a l IH]; simpl; [reflexivity|].
  destruct (p (f a)); simpl; now rewrite IH.
Qed.

Lemma where_equals_spec df c v out :
  where_equals df c v = Ok out ->
  exists n i,
    position c (names df) = Some n /\
    index out = Some i /\
    (index df = Some i \/ (index df = None /\ i = (unnamed, Float64))) /\
    columns out = columns df /\
    rows out = filter (fun r => equals (cell_at n r) v) (labelled df).
Proof.
  unfold where_equals. destruct (position c (names df)) as [n|]; [|discriminate].
  intros Heq. injection Heq as <-. exists n. simpl.
  destruct (index df) as [i|]; eexists; repeat split; auto.
Qed.

Lemma where_equals_has_column df c v out k :
  where_equals df c v = Ok out -> has_column out k = has_column df k.
Proof.
  intros Hw. destruct (where_equals_spec _ _ _ _ Hw) as (n & i & _ & _ & _ & Hc & _).
  unfold has_column, names. now rewrite Hc.
Qed.

Lemma reset_index_spec df out i :
  index df = Some i ->
  reset_index df = Ok out ->
  exists name,
    has_column df name = false /\
    (fst i <> unnamed -> name = fst i) /\
    index out = None /\
    columns out = (name, snd i) :: columns df /\
    rows out = map (fun r => mkRow NA (label r :: values r)) (rows df).
Proof.
  unfold reset_index, labelled. intros ->. cbv zeta.
  set (name := if String.eqb (fst i) unnamed then _ else _).
  destruct (has_column df name) eqn:Ec; [discriminate|].
  intros Heq. injection Heq as <-. exists name. repeat split; try assumption.
  unfold name. intros Hne. apply String.eqb_neq in Hne. now rewrite Hne.
Qed.

Lemma filter_not_In c l : ~ In c l -> filter (String.eqb c) l = [].
Proof.
  induction l as [|x l IH]; simpl; intros Hn; [reflexivity|].
  destruct (String.eqb_spec c x) as [->|Hne]; [tauto|]. apply IH. tauto.
Qed.

Lemma count_NoDup k l : NoDup l -> (count k l <= 1)%nat.
Proof.
  unfold count. induction 1 as [|x l Hx Hnd IH]; simpl; [lia|].
  destruct (String.eqb_spec k x) as [->|Hne]; [|assumption].
  simpl. rewrite (filter_not_In x l Hx). simpl. lia.
Qed.

End Parcel.
Section ParcelPatterns.

Import Rows MergeOn.

Context `{Libraries}.

Lemma get_temporal_patterns_run w m y p :
  monitoring_data (manager w) = Some m ->
  yield_history (manager w) = Some y ->
  Patterns.get_temporal_patterns p w
  = (w,
     match where_equals m "parcelle_id" p with
     | Raise e => Raise e
     | Ok parcelle_data =>
         if has_column y "rendement_estime"
         then match reset_index parcelle_data with
              | Raise e => Raise e
              | Ok l =>
                  match select y ["date"; "parcelle_id"; "rendement_estime"] with
                  | Raise e => Raise e
                  | Ok r => merge_left_on l r ["date"; "parcelle_id"]
                  end
              end
         else Raise Patterns.estimate_absent_from_history
     end).
Proof.
  intros Hm Hy.
  unfold Patterns.get_temporal_patterns, Py.bind, held, Py.lift, Py.raise.
  rewrite Hm. destruct (where_equals m "parcelle_id" p) as [pd|e]; [|reflexivity].
  rewrite Hy. destruct (has_column y "rendement_estime"); [|reflexivity].
  destruct (reset_index pd) as [l|e]; [|reflexivity].
  destruct (select y _) as [r|e]; reflexivity.
Qed.

Lemma position_suffixed_x k others cols :
  (forall s, String.append s "_x" <> k) ->
  Merge.mem k others = false ->
  position k (map fst (map (Merge.suffixed "_x" others) cols)) = position k (map fst cols).
Proof.
  intros Hx Hk. induction cols as [|c cols IH]; simpl; [reflexivity|].
  rewrite IH.
  assert (Heq : String.eqb k (fst (Merge.suffixed "_x" others c)) = String.eqb k (fst c)).
  { unfold Merge.suffixed. destruct (Merge.mem (fst c) others) eqn:E; [|reflexivity].
    simpl. destruct (String.eqb_spec k (String.append (fst c) "_x")) as [Heq|_].
    - symmetry in Heq. now apply Hx in Heq.
    - destruct (String.eqb_spec k (fst c)) as [->|_]; [congruence | reflexivity]. }
  now rewrite Heq.
Qed.

Lemma position_merged_key k keys left right j :
  (forall s, String.append s "_x" <> k) ->
  Merge.mem k keys = true ->
  position k (names left) = Some j ->
  position k (map fst (Merge.merged_columns keys left right)) = Some j.
Proof.
  intros Hx Hk Hp. unfold Merge.merged_columns. rewrite map_app.
  apply position_app_l. rewrite position_suffixed_x; try assumption.
  destruct (Merge.mem k (map fst (Merge.kept_columns keys right))) eqn:E; [|reflexivity].
  apply mem_In, kept_columns_not_keys in E. congruence.
Qed.

Lemma In_position c l : In c l -> exists n, position c l = Some n.
Proof.
  intros Hin. destruct (position c l) as [n|] eqn:E; [now exists n|].
  apply position_None in E.
  assert (existsb (String.eqb c) l = true); [|congruence].
  apply existsb_exists. exists c. split; [assumption | apply String.eqb_refl].
Qed.

Lemma columns_of_empty_left_key k keys left right :
  Merge.mem k keys = true ->
  In k (names right) ->
  In k (map fst (columns_of_empty_left keys left right)).
Proof.
  intros Hk Hin. unfold columns_of_empty_left. rewrite map_app, in_app_iff. right.
  unfold names in Hin. apply in_map_iff in Hin as (c & <- & Hc).
  rewrite map_map. apply in_map_iff. exists c. split; [|assumption].
  unfold Merge.suffixed.
  destruct (Merge.mem (fst c) (map fst (filter _ (columns left)))) eqn:E; [|reflexivity].
  exfalso. apply mem_In, in_map_iff in E as (c' & Hc' & Hf).
  apply filter_In in Hf as [_ Hf]. rewrite Hc', Hk in Hf. discriminate.
Qed.

(** The rows of a left merge, one group for every row of the left table. *)
Lemma merge_rows_cover ps keys (right : DataFrame) (ls : list row) :
  let f := fun l : row =>
             match filter (same_keys ps l) (rows right) with
             | [] => [mkRow NA (values l ++ Merge.extension keys right None)]
             | ms => map (fun r => mkRow NA (values l ++ Merge.extension keys right (Some r))) ms
             end in
  (List.length ls <= List.length (flat_map f ls))%nat /\
  forall r, In r (flat_map f ls) ->
            exists l ext, In l ls /\ values r = values l ++ ext.
Proof.
  intros f. split.
  - induction ls as [|l ls IH]; simpl; [lia|]. rewrite length_app.
    assert (1 <= List.length (f l))%nat; [|lia].
    unfold f. destruct (filter _ (rows right)); simpl; lia.
  - intros r Hr. apply in_flat_map in Hr as (l & Hl & Hr). exists l.
    unfold f in Hr. destruct (filter _ (rows right)) as [|r1 ms].
    + destruct Hr as [<-|[]]. now eexists.
    + apply in_map_iff in Hr as (r0 & <- & _). now eexists.
Qed.

End ParcelPatterns.

(** X9. [get_temporal_patterns] returns rows of the parcel asked for only, and
    at least one for every monitoring row of that parcel.  It changes
    nothing.
    (The monitoring table has distinct column names and full rows; the
    yield history has its default index.) *)
Theorem get_temporal_patterns_returns_the_parcel `{Libraries}
  (w w' : World) (p : cell) (m y out : DataFrame) (dm : dtype) (ms : list cell) :
  monitoring_data (manager w) = Some m ->
  yield_history (manager w) = Some y ->
  wf m -> NoDup (names m) -> index y = None ->
  getitem m "parcelle_id" = Ok (dm, ms) ->
  Patterns.get_temporal_patterns p w = (w', Ok out) ->
  w' = w /\
  exists d ps,
    getitem out "parcelle_id" = Ok (d, ps) /\
    Forall (fun c => Rows.equals c p = true) ps /\
    (List.length (filter (fun c => Rows.equals c p) ms) <= List.length ps)%nat.
Proof.
  intros Hm Hy Hwf Hnd Hiy Hg Hrun.
  rewrite (get_temporal_patterns_run _ _ _ _ Hm Hy) in Hrun.
  injection Hrun as <- Hrun. split; [reflexivity|].
  destruct (Rows.where_equals m "parcelle_id" p) as [pd|] eqn:Ew; [|discriminate].
  destruct (has_column y "rendement_estime"); [|discriminate].
  destruct (Rows.reset_index pd) as [l|] eqn:El; [|discriminate].
  destruct (select y ["date"; "parcelle_id"; "rendement_estime"]) as [r|] eqn:Er;
    [|discriminate].
  destruct (where_equals_spec _ _ _ _ Ew) as (n & i & Hn & Hi & _ & Hpc & Hpr).
  destruct (reset_index_spec _ _ _ Hi El) as (name & Hname & _ & Hli & Hlc & Hlr).
  unfold getitem in Hg. rewrite Hn in Hg. injection Hg as _ <-.
  assert (Hnames_l : names l = name :: names m).
  { unfold names. now rewrite Hlc, Hpc. }
  assert (Hname_m : ~ In name (names m)).
  { intros Hin. unfold has_column, names in Hname. rewrite Hpc in Hname.
    apply mem_In in Hin. unfold Merge.mem in Hin. unfold names in Hin. congruence. }
  assert (Hkey_l : position "parcelle_id" (names l) = Some (S n)).
  { rewrite Hnames_l. cbn [position].
    destruct (String.eqb_spec "parcelle_id" name) as [<-|_].
    - exfalso. apply Hname_m. now apply position_In in Hn.
    - now rewrite Hn. }
  assert (Hnames_r : names r = ["date"; "parcelle_id"; "rendement_estime"])
    by now apply names_select in Er.
  assert (Hpl : MergeOn.plain l ["date"; "parcelle_id"] = true).
  { assert (Hnd_l : NoDup (names l)) by (rewrite Hnames_l; now constructor).
    unfold MergeOn.plain, MergeOn.names_index. rewrite Hli. cbn [forallb negb andb].
    pose proof (count_NoDup "date" _ Hnd_l) as H1.
    pose proof (count_NoDup "parcelle_id" _ Hnd_l) as H2.
    apply Nat.leb_le in H1, H2. now rewrite H1, H2. }
  assert (Hpr_ : MergeOn.plain r ["date"; "parcelle_id"] = true).
  { unfold MergeOn.plain, MergeOn.names_index.
    rewrite (select_index _ _ _ Er), Hiy, Hnames_r. reflexivity. }
  destruct (merge_left_on_plain _ _ _ _ Hpl Hpr_ Hrun) as (ps & Hps & _ & Hoc & Hor).
  assert (Hcount : List.length (filter (fun c => Rows.equals c p) (map (cell_at n) (rows m)))
                   = List.length (rows l)).
  { rewrite Hlr, length_map, Hpr, <- labelled_cells, filter_map_comm.
    now rewrite length_map. }
  rewrite Hcount.
  destruct (rows l) as [|l0 ls] eqn:Erows.
  - assert (Hin : In "parcelle_id" (names out)).
    { unfold names. rewrite Hoc. apply columns_of_empty_left_key; [reflexivity|].
      rewrite Hnames_r. simpl. tauto. }
    destruct (In_position _ _ Hin) as [j Hj].
    eexists _, _. unfold getitem. rewrite Hj. split; [reflexivity|].
    rewrite Hor. simpl. split; [constructor | lia].
  - assert (Hj : position "parcelle_id" (names out) = Some (S n)).
    { unfold names. rewrite Hoc. apply position_merged_key; try reflexivity; try assumption.
      apply suffix_x_not_parcelle_id. }
    eexists _, _. unfold getitem. rewrite Hj. split; [reflexivity|].
    rewrite Hor, <- Erows.
    destruct (merge_rows_cover ps ["date"; "parcelle_id"] r (rows l)) as [Hlen Hcover].
    cbv zeta in Hlen, Hcover. split.
    + apply Forall_forall. intros c Hc. apply in_map_iff in Hc as (r' & <- & Hr').
      destruct (Hcover _ Hr') as (l1 & ext & Hl1 & Hv).
      rewrite Erows, Hlr in Hl1. apply in_map_iff in Hl1 as (r0 & <- & Hr0).
      rewrite Hpr in Hr0. apply filter_In in Hr0 as [Hr0 Heq].
      pose proof (labelled_wf _ _ Hwf Hr0) as Hlen0.
      apply position_Some in Hn as [Hn _]. unfold names in Hn. rewrite length_map in Hn.
      unfold cell_at. rewrite Hv. cbn [values].
      rewrite app_nth1 by (simpl; lia). simpl. exact Heq.
    + now rewrite length_map.
Qed.

Lemma get_temporal_patterns_returns_the_parcel_witness :
  fst (@Patterns.get_temporal_patterns Refusing.libraries (Str "P001") Farm.loaded)
  = Farm.loaded /\
  exists d ps,
    (let? out := snd (@Patterns.get_temporal_patterns Refusing.libraries
                        (Str "P001") Farm.loaded) in
     getitem out "parcelle_id") = Ok (d, ps) /\
    Forall (fun c => Rows.equals c (Str "P001") = true) ps /\
    (List.length (filter (fun c => Rows.equals c (Str "P001"))
                         (map (cell_at 0) (rows Farm.monitoring)))
     <= List.length ps)%nat.
Proof.
  destruct (@Patterns.get_temporal_patterns Refusing.libraries (Str "P001") Farm.loaded)
    as [w' [out|e]] eqn:Hrun; [|vm_compute in Hrun; discriminate].
  apply (@get_temporal_patterns_returns_the_parcel Refusing.libraries
           Farm.loaded w' (Str "P001") Farm.monitoring Farm.yields out Object).
  - reflexivity.
  - reflexivity.
  - apply wfb_wf. reflexivity.
  - repeat constructor; simpl; intuition discriminate.
  - reflexivity.
  - reflexivity.
  - exact Hrun.
Defined.
(** The patterns can be asked for right after loading and after
    [prepare_features]: the index comes back as the first column, the
    positions in the first case, the dates in the second. *)
Example farm_patterns_of_P001 :
  option_map names
    (match snd (@Patterns.get_temporal_patterns Refusing.libraries (Str "P001") Farm.loaded) with
     | Ok t => Some t
     | Raise _ => None
     end)
  = Some ["index"; "parcelle_id"; "date"; "temperature"; "stress_hydrique";
          "biomasse_estimee"; "ndvi"; "rendement_estime"] /\
  option_map names
    (match snd (@Patterns.get_temporal_patterns Refusing.libraries (Str "P001") Farm.prepared) with
     | Ok t => Some t
     | Raise _ => None
     end)
  = Some ["date"; "parcelle_id"; "temperature"; "stress_hydrique";
          "biomasse_estimee"; "ndvi"; "rendement_estime"].
Proof. split; vm_compute; reflexivity. Qed.

Lemma set_index_has_column t t' c k :
  Frame.set_index t c = Ok t' -> has_column t' k = true -> has_column t k = true.
Proof.
  intros Hs Hk. destruct (set_index_spec _ _ _ Hs) as (n & _ & _ & Hnames & _).
  unfold has_column in *. rewrite Hnames in Hk.
  apply existsb_exists in Hk as (x & Hx & Hxe).
  apply existsb_exists. exists x. split; [|assumption].
  clear - Hx. revert n Hx. induction (names t) as [|a l IH]; intros [|n]; simpl;
    try tauto. intros [<-|Hx]; [now left | right; eauto].
Qed.

(** X10. [get_temporal_patterns] raises the [KeyError] of line 148 when the
    yield history has no column [rendement_estime], whatever the parcel, as
    soon as the monitoring table has a column [parcelle_id].  Once
    [_setup_temporal_indices] has run (the held tables having distinct
    column names), it raises a [KeyError] for every parcel: the yield
    history has no [date] column left to select.  In both cases nothing is
    changed. *)
Theorem get_temporal_patterns_key_errors `{Libraries} (w : World) (p : cell) :
  (forall m y,
      monitoring_data (manager w) = Some m ->
      yield_history (manager w) = Some y ->
      has_column m "parcelle_id" = true ->
      has_column y "rendement_estime" = false ->
      Patterns.get_temporal_patterns p w
      = (w, Raise Patterns.estimate_absent_from_history)) /\
  (forall w0 m0 y0,
      monitoring_data (manager w0) = Some m0 ->
      yield_history (manager w0) = Some y0 ->
      NoDup (names m0) -> NoDup (names y0) ->
      DataManager._setup_temporal_indices w0 = (w, Ok tt) ->
      exists msg, Patterns.get_temporal_patterns p w = (w, Raise (KeyError msg))).
Proof.
  split.
  - intros m y Hm Hy Hc Hr. rewrite (get_temporal_patterns_run _ _ _ _ Hm Hy).
    apply has_column_position in Hc as [n Hn].
    unfold Rows.where_equals. now rewrite Hn, Hr.
  - intros w0 m0 y0 Hm0 Hy0 Hndm Hndy Hrun.
    destruct (setup_temporal_indices_inv _ _ Hrun)
      as (m & wt & y & m' & wt' & y' & Hm & _ & Hy & Em & _ & Ey & ->).
    rewrite Hm0 in Hm. injection Hm as <-. rewrite Hy0 in Hy. injection Hy as <-.
    rewrite (get_temporal_patterns_run _ m' y') by reflexivity.
    destruct (set_index_spec _ _ _ Em) as (n & Hpos & Hidx & _ & _ & _ & Hnodate).
    destruct (set_index_spec _ _ _ Ey) as (ny & _ & _ & _ & _ & _ & Hnodate_y).
    specialize (Hnodate Hndm). specialize (Hnodate_y Hndy).
    destruct (Rows.where_equals m' "parcelle_id" p) as [pd|e] eqn:Ew.
    2:{ unfold Rows.where_equals in Ew.
        destruct (position "parcelle_id" (names m')); [discriminate|].
        injection Ew as <-. now eexists. }
    destruct (has_column y' "rendement_estime"); [|now eexists].
    destruct (where_equals_spec _ _ _ _ Ew) as (k & i & _ & Hi & [Hi'|[Hi' _]] & Hpc & _);
      [|congruence].
    assert (Hname : fst i = "date").
    { rewrite Hidx in Hi'. injection Hi' as <-.
      apply position_Some in Hpos as [_ Hnth]. unfold names in Hnth.
      change "" with (fst ("", Object)) in Hnth. now rewrite map_nth in Hnth. }
    assert (Hreset : exists l, Rows.reset_index pd = Ok l).
    { unfold Rows.reset_index. rewrite Hi. cbv zeta. rewrite Hname.
      change (String.eqb "date" Rows.unnamed) with false. cbv iota.
      replace (has_column pd "date") with false; [now eexists|].
      unfold has_column, names. rewrite Hpc. symmetry. exact Hnodate. }
    destruct Hreset as [l ->].
    apply position_None in Hnodate_y.
    unfold select. cbn [positions]. rewrite Hnodate_y. cbn [Py.rbind].
    now eexists.
Qed.

Lemma nth_remove_nth {A} n m (l : list A) d :
  n <> m ->
  nth (if (n <? m)%nat then Nat.pred m else m) (Frame.remove_nth n l) d = nth m l d.
Proof.
  revert n m. induction l as [|x l IH]; intros n m Hne.
  - assert (Hnil : Frame.remove_nth n (@nil A) = []) by now destruct n.
    rewrite Hnil.
    destruct (if (n <? m)%nat then Nat.pred m else m), m; reflexivity.
  - destruct n as [|n], m as [|m]; try congruence; simpl.
    + reflexivity.
    + reflexivity.
    + specialize (IH n m ltac:(congruence)).
      change (S n <? S m)%nat with (n <? m)%nat.
      destruct (Nat.ltb_spec n m) as [Hlt|Hge].
      * destruct m as [|m]; [lia|]. simpl in *. exact IH.
      * exact IH.
Qed.

Lemma position_remove_nth_other c l n m :
  position c l = Some m -> n <> m ->
  position c (Frame.remove_nth n l)
  = Some (if (n <? m)%nat then Nat.pred m else m).
Proof.
  revert n m. induction l as [|x l IH]; intros n m Hp Hne; [discriminate|].
  simpl in Hp. destruct (String.eqb_spec c x) as [->|Hcx].
  - injection Hp as <-. destruct n as [|n]; [congruence|]. simpl.
    now rewrite String.eqb_refl.
  - destruct (position c l) as [k|] eqn:Ek; [|discriminate].
    injection Hp as <-. destruct n as [|n]; simpl.
    + exact Ek.
    + destruct (String.eqb_spec c x); [congruence|].
      rewrite (IH n k eq_refl) by congruence.
      change (S n <? S k)%nat with (n <? k)%nat.
      destruct (Nat.ltb_spec n k) as [Hlt|Hge]; simpl; [|reflexivity].
      destruct k; [lia | reflexivity].
Qed.

Lemma combine_map_map {A B C} (f : A -> B) (g : A -> C) l :
  combine (map f l) (map g l) = map (fun a => (f a, g a)) l.
Proof. induction l; simpl; congruence. Qed.

Lemma map_filter_values {B} (q : list cell -> bool) (g : list cell -> B) (l l' : list row) :
  map values l = map values l' ->
  map (fun r => g (values r)) (filter (fun r => q (values r)) l)
  = map (fun r => g (values r)) (filter (fun r => q (values r)) l').
Proof.
  revert l'. induction l as [|r l IH]; intros [|r' l'] Heq; try discriminate;
    [reflexivity|].
  simpl in Heq. injection Heq as Hr Hl. simpl. rewrite Hr.
  destruct (q (values r')); simpl; rewrite ?Hr; now rewrite (IH l').
Qed.

Lemma map_remove_nth {A B} (f : A -> B) n l :
  map f (Frame.remove_nth n l) = Frame.remove_nth n (map f l).
Proof.
  revert n. induction l as [|x l IH]; intros [|n]; simpl; try reflexivity.
  now rewrite IH.
Qed.

Section YieldPatterns.

Context `{Libraries}.

Lemma analyze_yield_patterns_run w y p :
  yield_history (manager w) = Some y ->
  Patterns.analyze_yield_patterns p w
  = (w,
     match Rows.where_equals y "parcelle_id" p with
     | Raise e => Raise e
     | Ok history =>
         if has_column history "rendement_estime"
         then match Frame.set_index history "date" with
              | Raise e => Raise e
              | Ok t =>
                  match getitem t "rendement_estime" with
                  | Raise e => Raise e
                  | Ok s => seasonal_decompose (fst s, combine (map label (rows t)) (snd s))
                  end
              end
         else Raise Patterns.estimate_absent_from_patterns
     end).
Proof.
  intros Hy.
  unfold Patterns.analyze_yield_patterns, Py.bind, held, Py.lift, Py.raise.
  rewrite Hy. destruct (Rows.where_equals y "parcelle_id" p) as [h|e]; [|reflexivity].
  destruct (has_column h "rendement_estime"); [|reflexivity].
  destruct (Frame.set_index h "date") as [t|e]; [|reflexivity].
  destruct (getitem t "rendement_estime") as [s|e]; reflexivity.
Qed.

Lemma analyze_yield_patterns_unchanged p :
  keeps (fun a b : World => b = a) (Patterns.analyze_yield_patterns p).
Proof.
  assert (R_refl : forall a : World, a = a) by reflexivity.
  assert (R_trans : forall a b c : World, b = a -> c = b -> c = a) by congruence.
  unfold Patterns.analyze_yield_patterns.
  repeat first [ apply held_unchanged | keeps_step ].
Qed.

End YieldPatterns.

(** X11. [analyze_yield_patterns] works on a copy: whatever happens, the held
    tables and the rest of the world are as before.  It raises the
    [KeyError] of line 181 when the yield history has no column
    [rendement_estime], whatever the parcel and before anything is
    decomposed, as soon as there is a column [parcelle_id]; and once
    [_setup_temporal_indices] has run (the yield history having distinct
    column names) it raises a [KeyError] for every parcel, the [date]
    column being gone.  Otherwise the series handed to
    [seasonal_decompose] holds the estimates of the rows of the parcel, in
    the order of the table, labelled by their dates. *)
Theorem analyze_yield_patterns_reads_a_copy `{Libraries} (w : World) (p : cell) :
  fst (Patterns.analyze_yield_patterns p w) = w /\
  (forall y,
      yield_history (manager w) = Some y ->
      has_column y "parcelle_id" = true ->
      has_column y "rendement_estime" = false ->
      snd (Patterns.analyze_yield_patterns p w) = Raise Patterns.estimate_absent_from_patterns) /\
  (forall w0 y0,
      yield_history (manager w0) = Some y0 ->
      NoDup (names y0) ->
      DataManager._setup_temporal_indices w0 = (w, Ok tt) ->
      exists msg, snd (Patterns.analyze_yield_patterns p w) = Raise (KeyError msg)) /\
  (forall y n nd nr dr,
      yield_history (manager w) = Some y ->
      position "parcelle_id" (names y) = Some n ->
      position "date" (names y) = Some nd ->
      position "rendement_estime" (names y) = Some nr ->
      Merge.dtype_at y nr = dr ->
      snd (Patterns.analyze_yield_patterns p w)
      = seasonal_decompose
          (dr, map (fun r => (cell_at nd r, cell_at nr r))
                   (filter (fun r => Rows.equals (cell_at n r) p) (rows y)))).
Proof.
  split; [apply analyze_yield_patterns_unchanged|]. split; [|split].
  - intros y Hy Hc Hr. rewrite (analyze_yield_patterns_run _ _ _ Hy). simpl snd.
    apply has_column_position in Hc as [n Hn].
    destruct (Rows.where_equals y "parcelle_id" p) as [h|e] eqn:Ew.
    + now rewrite (where_equals_has_column _ _ _ _ _ Ew), Hr.
    + unfold Rows.where_equals in Ew. rewrite Hn in Ew. discriminate.
  - intros w0 y0 Hy0 Hnd Hrun.
    destruct (setup_temporal_indices_inv _ _ Hrun)
      as (m & wt & y & m' & wt' & y' & _ & _ & Hy & _ & _ & Ey & ->).
    rewrite Hy0 in Hy. injection Hy as <-.
    rewrite (analyze_yield_patterns_run _ y') by reflexivity. simpl snd.
    destruct (set_index_spec _ _ _ Ey) as (ny & _ & _ & _ & _ & _ & Hnodate).
    specialize (Hnodate Hnd).
    destruct (Rows.where_equals y' "parcelle_id" p) as [h|e] eqn:Ew.
    2:{ unfold Rows.where_equals in Ew.
        destruct (position "parcelle_id" (names y')); [discriminate|].
        injection Ew as <-. now eexists. }
    destruct (has_column h "rendement_estime"); [|now eexists].
    rewrite set_index_without_column; [now eexists|].
    now rewrite (where_equals_has_column _ _ _ _ _ Ew).
  - intros y n nd nr dr Hy Hn Hd Hr Hdr.
    rewrite (analyze_yield_patterns_run _ _ _ Hy). simpl snd.
    assert (Hhas : has_column y "rendement_estime" = true).
    { unfold has_column. destruct (existsb _ (names y)) eqn:E; [reflexivity|].
      apply position_None in E. congruence. }
    destruct (Rows.where_equals y "parcelle_id" p) as [h|e] eqn:Ew.
    2:{ unfold Rows.where_equals in Ew. rewrite Hn in Ew. discriminate. }
    rewrite (where_equals_has_column _ _ _ _ _ Ew), Hhas.
    destruct (where_equals_spec _ _ _ _ Ew) as (n' & i & Hn' & _ & _ & Hhc & Hhr).
    rewrite Hn in Hn'. injection Hn' as <-.
    assert (Hnh : names h = names y) by (unfold names; now rewrite Hhc).
    unfold Frame.set_index. rewrite Hnh, Hd, Hhr, Hhc.
    assert (Hne : nd <> nr).
    { intros ->. apply position_Some in Hd as [_ Hd]. apply position_Some in Hr as [_ Hr].
      congruence. }
    set (kept := filter (fun r => Rows.equals (cell_at n r) p) (Rows.labelled y)).
    set (j := if (nd <? nr)%nat then Nat.pred nr else nr).
    assert (Hj : position "rendement_estime" (map fst (Frame.remove_nth nd (columns y)))
                 = Some j).
    { rewrite map_fst_remove_nth. now apply position_remove_nth_other. }
    assert (Hdt : Merge.dtype_at y nr
                  = nth j (map snd (Frame.remove_nth nd (columns y))) Object).
    { unfold Merge.dtype_at, j. rewrite map_remove_nth. symmetry.
      now apply nth_remove_nth. }
    assert (Hcell : forall r : row, nth j (Frame.remove_nth nd (values r)) NA = cell_at nr r).
    { intros r. unfold j, cell_at. now apply nth_remove_nth. }
    unfold getitem, names. cbn [columns rows]. rewrite Hj. cbn [fst snd].
    rewrite <- Hdt, Hdr. f_equal. f_equal.
    rewrite !map_map. cbn [label values]. unfold cell_at at 1. cbn [values].
    rewrite combine_map_map.
    transitivity (map (fun r => (cell_at nd r, cell_at nr r)) kept).
    { apply map_ext. intros r. cbn [fst snd]. f_equal. apply Hcell. }
    unfold kept.
    apply (map_filter_values (fun vs => Rows.equals (nth n vs NA) p)
                             (fun vs => (nth nd vs NA, nth nr vs NA))).
    apply labelled_values.
Qed.

(** On the farm the yield history of a parcel is too short to be
    decomposed; with the estimates under another name the [KeyError] comes
    first. *)
Example farm_yield_patterns :
  snd (@Patterns.analyze_yield_patterns Refusing.libraries (Str "P001") Farm.loaded)
  = Raise (ValueError "x must have 2 complete cycles requires 24 observations.") /\
  snd (@Patterns.analyze_yield_patterns Refusing.libraries (Str "P001")
         (Farm.loaded_with_yields (Farm.yields_named "rendement")))
  = Raise Patterns.estimate_absent_from_patterns.
Proof. split; vm_compute; reflexivity. Qed.

(* ================================================================== *)
(** * The rest of the dashboard *)
(* ================================================================== *)

(** ** The sources and the features *)

Lemma In_has_column df c : In c (names df) -> has_column df c = true.
Proof. intros Hin. now apply mem_In in Hin. Qed.

Lemma required_columns_missing `{Numerics} w w1 t :
  DataManager.prepare_features w = (w1, Ok t) ->
  filter (fun c => negb (has_column t c)) Dashboard.required_columns
  = if has_column t "ndvi" then [] else ["ndvi"].
Proof.
  intros Hrun. destruct (prepare_features_names _ _ _ Hrun) as (rest & Hn & _ & Hr).
  assert (Hp : has_column t "parcelle_id" = true)
    by (apply In_has_column; rewrite Hn; simpl; tauto).
  assert (Hd : has_column t "date" = true)
    by (apply In_has_column; rewrite Hn; simpl; tauto).
  assert (He : has_column t "rendement_estime" = true)
    by (apply In_has_column; rewrite Hn; simpl; tauto).
  unfold Dashboard.required_columns. cbn [filter]. rewrite Hp, Hd, He. cbn [negb].
  now destruct (has_column t "ndvi").
Qed.

(** X12. When the files load and [prepare_features] returns a table, the
    dashboard keeps that table as its [features], whether or not the
    sources are then built.  Of the four required columns only [ndvi] can
    be missing: without it the failure is logged and both sources are
    [None]; with it the yield and NDVI sources are the three-column
    selections without their incomplete rows ([None], with a warning, for
    a selection without rows), and the success is logged last. *)
Theorem create_data_sources_keeps_the_features `{Numerics}
  (w w1 w2 : World) (t : DataFrame) :
  DataManager.load_data w = (w1, Ok tt) ->
  DataManager.prepare_features w1 = (w2, Ok t) ->
  features (dashboard (fst (Dashboard.create_data_sources w))) = Some t /\
  (has_column t "ndvi" = false ->
   exists msg,
     DashboardSpec.left_empty (ValueError msg)
       (fst (Dashboard.set_features (Some t) w2))
       (fst (Dashboard.create_data_sources w))) /\
  (has_column t "ndvi" = true ->
   exists yield_data ndvi_data l,
     select t ["parcelle_id"; "date"; "rendement_estime"] = Ok yield_data /\
     select t ["parcelle_id"; "date"; "ndvi"] = Ok ndvi_data /\
     yield_source (dashboard (fst (Dashboard.create_data_sources w)))
     = (if Frame.empty (Frame.dropna yield_data) then None
        else Some (mkSource (Frame.dropna yield_data))) /\
     ndvi_source (dashboard (fst (Dashboard.create_data_sources w)))
     = (if Frame.empty (Frame.dropna ndvi_data) then None
        else Some (mkSource (Frame.dropna ndvi_data))) /\
     logs (fst (Dashboard.create_data_sources w))
     = l ++ [LogInfo "Sources de données préparées avec succès." []]).
Proof.
  intros Hload Hprep.
  pose proof (required_columns_missing _ _ _ Hprep) as Hmiss.
  destruct (prepare_features_names _ _ _ Hprep) as (rest & Hn & _ & Hr).
  assert (Hsel : forall c, has_column t c = true ->
                           exists out, select t ["parcelle_id"; "date"; c] = Ok out).
  { intros c Hc.
    destruct (positions_Ok ["parcelle_id"; "date"; c] (names t)) as [ns Hns].
    - cbn [forallb]. fold (has_column t "parcelle_id"). fold (has_column t "date").
      fold (has_column t c).
      rewrite Hc, !In_has_column by (rewrite Hn; simpl; tauto). reflexivity.
    - unfold select. rewrite Hns. simpl. now eexists. }
  unfold Dashboard.create_data_sources, Py.try_except,
    Dashboard.create_data_sources_try.
  rewrite (bind_Ok _ _ _ _ _ Hload), (bind_Ok _ _ _ _ _ Hprep).
  erewrite bind_Ok by reflexivity.
  rewrite Hmiss.
  destruct (has_column t "ndvi") eqn:Hndvi.
  - destruct (Hsel "rendement_estime") as [yd Hyd];
      [apply In_has_column; rewrite Hn; simpl; tauto|].
    destruct (Hsel "ndvi" Hndvi) as [nd Hnd].
    cbv [Py.bind Py.lift Py.ret Dashboard.set_features set_dashboard Py.modify].
    rewrite Hyd, Hnd.
    split; [|split; [discriminate|]].
    + destruct (Frame.empty (Frame.dropna yd)), (Frame.empty (Frame.dropna nd)); reflexivity.
    + intros _. exists yd, nd.
      destruct (Frame.empty (Frame.dropna yd)), (Frame.empty (Frame.dropna nd));
        eexists; repeat split; reflexivity.
  - erewrite bind_Raise by reflexivity.
    split; [reflexivity|]. split; [|discriminate].
    intros _. eexists. apply create_data_sources_except_run.
Qed.

Lemma create_data_sources_keeps_the_features_witness :
  features (dashboard (fst (@Dashboard.create_data_sources Reference.numerics Farm.start)))
  = Some Farm.features /\
  (has_column Farm.features "ndvi" = false ->
   exists msg,
     DashboardSpec.left_empty (ValueError msg)
       (fst (Dashboard.set_features (Some Farm.features) Farm.prepared))
       (fst (@Dashboard.create_data_sources Reference.numerics Farm.start))) /\
  (has_column Farm.features "ndvi" = true ->
   exists yield_data ndvi_data l,
     select Farm.features ["parcelle_id"; "date"; "rendement_estime"] = Ok yield_data /\
     select Farm.features ["parcelle_id"; "date"; "ndvi"] = Ok ndvi_data /\
     yield_source (dashboard (fst (@Dashboard.create_data_sources Reference.numerics Farm.start)))
     = (if Frame.empty (Frame.dropna yield_data) then None
        else Some (mkSource (Frame.dropna yield_data))) /\
     ndvi_source (dashboard (fst (@Dashboard.create_data_sources Reference.numerics Farm.start)))
     = (if Frame.empty (Frame.dropna ndvi_data) then None
        else Some (mkSource (Frame.dropna ndvi_data))) /\
     logs (fst (@Dashboard.create_data_sources Reference.numerics Farm.start))
     = l ++ [LogInfo "Sources de données préparées avec succès." []]).
Proof.
  apply (@create_data_sources_keeps_the_features Reference.numerics
           Farm.start Farm.loaded Farm.prepared Farm.features).
  - reflexivity.
  - vm_compute. reflexivity.
Defined.
(** ** The stress matrix *)

Section StressMatrix.

Variable w : World.
Variable t : DataFrame.
Variables ts ss : list cell.
Hypothesis Hf : features (dashboard w) = Some t.
Hypothesis Hwf : wf t.
Hypothesis Ht : getitem t "temperature" = Ok (Float64, ts).
Hypothesis Hs : getitem t "stress_hydrique" = Ok (Float64, ss).

Lemma create_stress_matrix_run :
  Dashboard.create_stress_matrix w
  = let binned := StressSpec.binned t ts ss in
    let w' := mkWorld (disk w) (manager w)
                      (StressSpec.with_features (dashboard w) binned) (logs w) in
    match Counting.group_size binned ["parcelle_id"; "temp_bin"; "stress_bin"] with
    | Raise e =>
        (StressSpec.logged w' (LogError "Erreur lors de la création de la matrice de stress"
                                        (Some e)),
         Ok None)
    | Ok m =>
        match getitem m "count" with
        | Raise e =>
            (StressSpec.logged w' (LogError "Erreur lors de la création de la matrice de stress"
                                            (Some e)),
             Ok None)
        | Ok count =>
            let matrix :=
              setitem m "norm_count" Float64
                (map (fun c => Num (Series.num_of c / Counting.max (snd count))%float)
                     (snd count)) in
            (mkWorld (disk w) (manager w)
                     (mkDashboard (full_yield_source (dashboard w))
                                  (full_ndvi_source (dashboard w))
                                  (yield_source (dashboard w)) (ndvi_source (dashboard w))
                                  (Some (mkSource matrix)) (Some (mkSource matrix))
                                  (Some binned))
                     (logs w),
             Ok (Some (Dashboard.Figure "Matrice de Stress")))
        end
    end.
Proof.
  unfold StressSpec.binned, StressSpec.with_features, StressSpec.logged,
    Dashboard.temp_bin, Dashboard.stress_bin. cbv zeta.
  set (tb := map (fun c => Num (Float64.floor_divide (Series.num_of c) 5 * 5)%float) ts).
  set (sb := map (fun c => Num (Float64.floor_divide (Series.num_of c) 0.1 * 0.1)%float) ss).
  set (t1 := setitem t "temp_bin" Float64 tb).
  set (t2 := setitem t1 "stress_bin" Float64 sb).
  assert (Ltb : List.length tb = List.length (rows t)).
  { unfold tb. now rewrite length_map, (getitem_length _ _ _ _ Ht). }
  assert (Hs1 : getitem t1 "stress_hydrique" = Ok (Float64, ss)).
  { unfold t1. rewrite getitem_setitem_other; try assumption; try discriminate.
    eapply getitem_has_column; eassumption. }
  unfold Dashboard.create_stress_matrix, Py.try_except, Py.bind,
    Dashboard.the_features. rewrite Hf.
  rewrite (getitem_has_column _ _ _ _ Ht), (getitem_has_column _ _ _ _ Hs).
  cbn [negb orb]. unfold Py.lift. rewrite Ht.
  cbn [Series.floordiv_scalar Series.mul_scalar fst snd].
  unfold Dashboard.set_feature_column at 1, set_dashboard, Py.modify.
  cbn [dashboard features option_map]. rewrite Hf. cbn [option_map].
  rewrite map_map. cbn [Series.num_of]. fold tb. fold t1.
  rewrite Hs1.
  cbn [Series.floordiv_scalar Series.mul_scalar fst snd].
  unfold Dashboard.set_feature_column at 1, set_dashboard, Py.modify.
  cbn [dashboard features option_map].
  rewrite map_map. cbn [Series.num_of]. fold sb. fold t2.
  destruct (Counting.group_size t2 ["parcelle_id"; "temp_bin"; "stress_bin"])
    as [m|e]; [|reflexivity].
  destruct (getitem m "count") as [c|e]; reflexivity.
Qed.

Lemma binned_names :
  exists extra, names (StressSpec.binned t ts ss) = names t ++ extra /\
                incl extra ["temp_bin"; "stress_bin"] /\
                has_column (StressSpec.binned t ts ss) "temp_bin" = true /\
                has_column (StressSpec.binned t ts ss) "stress_bin" = true.
Proof.
  unfold StressSpec.binned.
  set (tb := map _ ts). set (sb := map _ ss).
  set (t1 := setitem t "temp_bin" Float64 tb).
  assert (H1 : exists e1, names t1 = names t ++ e1 /\ incl e1 ["temp_bin"]).
  { unfold t1. destruct (position "temp_bin" (names t)) as [n|] eqn:E.
    - exists []. rewrite (names_setitem_old _ _ _ _ _ E), app_nil_r.
      split; [reflexivity | intros x []].
    - exists ["temp_bin"]. rewrite (names_setitem_new _ _ _ _ E).
      split; [reflexivity | apply incl_refl]. }
  destruct H1 as (e1 & Hn1 & Hi1).
  assert (Hc1 : has_column t1 "temp_bin" = true) by apply has_column_setitem.
  destruct (position "stress_bin" (names t1)) as [n|] eqn:E.
  - exists e1. rewrite (names_setitem_old _ _ _ _ _ E). split; [assumption|].
    split; [intros x Hx; apply Hi1 in Hx; simpl in *; tauto|].
    split; [|apply has_column_setitem].
    unfold has_column in *. now rewrite (names_setitem_old _ _ _ _ _ E).
  - exists (e1 ++ ["stress_bin"]). rewrite (names_setitem_new _ _ _ _ E), Hn1, app_assoc.
    split; [reflexivity|].
    split; [intros x Hx; apply in_app_iff in Hx as [Hx|Hx];
            [apply Hi1 in Hx|]; simpl in *; tauto|].
    split; [|apply has_column_setitem].
    unfold has_column in *. rewrite (names_setitem_new _ _ _ _ E), existsb_app.
    now rewrite Hc1.
Qed.

End StressMatrix.
Lemma add_keys_length k l : (List.length (Counting.add_keys k l) <= S (List.length l))%nat.
Proof.
  induction l as [|k' l IH]; simpl; [lia|].
  destruct (Counting.keys_eqb k k'); [simpl; lia|].
  destruct (Counting.keys_leb k k'); simpl; lia.
Qed.

Lemma group_size_spec df by_ m :
  Counting.group_size df by_ = Ok m ->
  names m = by_ ++ ["count"] /\
  (exists cols, columns m = cols ++ [("count", Float64)]
                /\ List.length cols = List.length by_) /\
  (List.length (rows m) <= List.length (rows df))%nat.
Proof.
  unfold Counting.group_size.
  destruct (positions by_ (names df)) as [ns|] eqn:Ep; cbn [Py.rbind]; [|discriminate].
  intros Heq. injection Heq as <-. cbn [rows columns]. split; [|split].
  - unfold names. cbn [columns]. rewrite map_app, map_map. cbn [map fst]. f_equal.
    rewrite <- (positions_names _ _ _ Ep). apply map_ext. intros n. unfold names.
    now rewrite <- (map_nth fst).
  - eexists. split; [reflexivity|].
    rewrite length_map, <- (positions_names _ _ _ Ep). now rewrite length_map.
  - rewrite length_map.
    assert (G : forall rs acc,
               (List.length
                  (fold_left (fun acc r => match Counting.row_keys ns r with
                                           | Some k => Counting.add_keys k acc
                                           | None => acc
                                           end) rs acc)
                <= List.length acc + List.length rs)%nat).
    { induction rs as [|r rs IH]; intros acc; simpl; [lia|].
      etransitivity; [apply IH|].
      destruct (Counting.row_keys ns r); [|lia].
      pose proof (add_keys_length l acc). lia. }
    apply (G (rows df) []).
Qed.

Lemma same_elsewhere_refl w : StressSpec.same_elsewhere w w.
Proof. now repeat split. Qed.

Lemma same_elsewhere_trans a b c :
  StressSpec.same_elsewhere a b -> StressSpec.same_elsewhere b c ->
  StressSpec.same_elsewhere a c.
Proof.
  unfold StressSpec.same_elsewhere.
  intros (? & ? & ? & ? & ? & ?) (? & ? & ? & ? & ? & ?). repeat split; congruence.
Qed.

Lemma create_stress_matrix_same_elsewhere :
  keeps StressSpec.same_elsewhere Dashboard.create_stress_matrix.
Proof.
  pose proof same_elsewhere_refl as R_refl.
  pose proof same_elsewhere_trans as R_trans.
  assert (Hm : forall f : World -> World,
             (forall w, StressSpec.same_elsewhere w (f w)) ->
             keeps StressSpec.same_elsewhere (Py.modify f)).
  { intros f Hf. now apply keeps_modify. }
  assert (Hfeat : keeps StressSpec.same_elsewhere Dashboard.the_features).
  { intros w. unfold Dashboard.the_features. destruct (features (dashboard w)); apply R_refl. }
  unfold Dashboard.create_stress_matrix, Dashboard.set_feature_column,
    Dashboard.set_stress_source, Dashboard.set_full_stress_source, set_dashboard, logging.
  repeat first [ apply Hfeat
               | apply Hm; intros ?; now repeat split
               | keeps_step ].
Qed.

(** X13. [create_stress_matrix] never raises, and touches nothing but the
    feature table, the two stress sources and the log.  Without a feature
    table it logs the error it caught and returns [None]; with a table that
    lacks [temperature] or [stress_hydrique] it logs a warning and returns
    [None]; in both cases the dashboard is as it was. *)
Theorem create_stress_matrix_never_raises (w : World) :
  (exists r, snd (Dashboard.create_stress_matrix w) = Ok r) /\
  StressSpec.same_elsewhere w (fst (Dashboard.create_stress_matrix w)) /\
  (features (dashboard w) = None ->
   exists e,
     Dashboard.create_stress_matrix w
     = (StressSpec.logged w (LogError "Erreur lors de la création de la matrice de stress"
                                      (Some e)),
        Ok None)) /\
  (forall t,
      features (dashboard w) = Some t ->
      has_column t "temperature" = false \/ has_column t "stress_hydrique" = false ->
      Dashboard.create_stress_matrix w
      = (StressSpec.logged w
           (LogWarning "Colonnes 'temperature' et 'stress_hydrique' manquantes."),
         Ok None)).
Proof.
  split; [|split; [apply create_stress_matrix_same_elsewhere|split]].
  - unfold Dashboard.create_stress_matrix, Py.try_except.
    match goal with
    | |- context [match ?m w with _ => _ end] => destruct (m w) as [w1 [r|e]]
    end; now eexists.
  - intros Hnone. eexists.
    unfold Dashboard.create_stress_matrix, Py.try_except, Py.bind,
      Dashboard.the_features. rewrite Hnone. reflexivity.
  - intros t Hf Hmiss.
    unfold Dashboard.create_stress_matrix, Py.try_except, Py.bind,
      Dashboard.the_features. rewrite Hf.
    destruct Hmiss as [-> | ->]; cbn [negb orb]; rewrite ?orb_true_r; reflexivity.
Qed.

(** X14. With a full feature table that has the numeric columns [temperature]
    and [stress_hydrique] and a column [parcelle_id],
    [create_stress_matrix] returns the chart; the feature table has gained
    the two bins, and both stress sources hold one and the same matrix,
    whose columns are [parcelle_id], [temp_bin], [stress_bin], [count] and
    [norm_count], with at most one row for every row of the features.
    Nothing is logged. *)
Theorem create_stress_matrix_builds_both_sources
  (w : World) (t : DataFrame) (ts ss : list cell) :
  features (dashboard w) = Some t ->
  wf t ->
  getitem t "temperature" = Ok (Float64, ts) ->
  getitem t "stress_hydrique" = Ok (Float64, ss) ->
  has_column t "parcelle_id" = true ->
  exists matrix,
    Dashboard.create_stress_matrix w
    = (mkWorld (disk w) (manager w)
               (mkDashboard (full_yield_source (dashboard w))
                            (full_ndvi_source (dashboard w))
                            (yield_source (dashboard w)) (ndvi_source (dashboard w))
                            (Some (mkSource matrix)) (Some (mkSource matrix))
                            (Some (StressSpec.binned t ts ss)))
               (logs w),
       Ok (Some (Dashboard.Figure "Matrice de Stress"))) /\
    names matrix = ["parcelle_id"; "temp_bin"; "stress_bin"; "count"; "norm_count"] /\
    (List.length (rows matrix) <= List.length (rows t))%nat.
Proof.
  intros Hf Hwf Ht Hs Hp.
  rewrite (create_stress_matrix_run w t ts ss Hf Hwf Ht Hs). cbv zeta.
  destruct (binned_names t ts ss) as (extra & Hn & Hextra & Htb & Hsb).
  set (binned := StressSpec.binned t ts ss) in *.
  assert (Hpb : has_column binned "parcelle_id" = true).
  { apply In_has_column. rewrite Hn. apply in_or_app. left.
    apply has_column_position in Hp as [n Hn']. now apply position_In in Hn'. }
  destruct (positions_Ok ["parcelle_id"; "temp_bin"; "stress_bin"] (names binned))
    as [ns Hns].
  { cbn [forallb]. unfold has_column in Hpb, Htb, Hsb. now rewrite Hpb, Htb, Hsb. }
  destruct (Counting.group_size binned ["parcelle_id"; "temp_bin"; "stress_bin"])
    as [m|e] eqn:Eg.
  2:{ unfold Counting.group_size in Eg. rewrite Hns in Eg. discriminate. }
  destruct (group_size_spec _ _ _ Eg) as (Hnm & (cols & Hcols & Hlen) & Hrows).
  assert (Hcount : getitem m "count"
                   = Ok (Float64, map (cell_at 3) (rows m))).
  { unfold getitem. rewrite Hnm. cbn [app position String.eqb Ascii.eqb Bool.eqb option_map].
    rewrite Hcols, map_app. cbn [map snd].
    rewrite app_nth2 by (rewrite length_map, Hlen; simpl; lia).
    rewrite length_map, Hlen. reflexivity. }
  rewrite Hcount. cbn [snd]. eexists. split; [reflexivity|]. split.
  - rewrite names_setitem_new; [now rewrite Hnm|].
    rewrite Hnm. reflexivity.
  - rewrite rows_setitem_length by now rewrite !length_map.
    etransitivity; [exact Hrows|].
    unfold binned, StressSpec.binned.
    rewrite !rows_setitem_length; [lia| |].
    + now rewrite length_map, (getitem_length _ _ _ _ Ht).
    + rewrite length_map, (getitem_length _ _ _ _ Hs), rows_setitem_length; [lia|].
      now rewrite length_map, (getitem_length _ _ _ _ Ht).
Qed.

Lemma create_stress_matrix_builds_both_sources_witness :
  exists matrix,
    Dashboard.create_stress_matrix Farm.observing
    = (mkWorld (disk Farm.observing) (manager Farm.observing)
               (mkDashboard (full_yield_source (dashboard Farm.observing))
                            (full_ndvi_source (dashboard Farm.observing))
                            (yield_source (dashboard Farm.observing))
                            (ndvi_source (dashboard Farm.observing))
                            (Some (mkSource matrix)) (Some (mkSource matrix))
                            (Some (StressSpec.binned Farm.monitoring
                                     [Num 21.5; Num 19.0; Num 22.7; Num 24.0; Num 20.0]%float
                                     [Num 0.4; Num 0.2; Num 0.37; Num 0.5; Num 0.3]%float)))
               (logs Farm.observing),
       Ok (Some (Dashboard.Figure "Matrice de Stress"))) /\
    names matrix = ["parcelle_id"; "temp_bin"; "stress_bin"; "count"; "norm_count"] /\
    (List.length (rows matrix) <= List.length (rows Farm.monitoring))%nat.
Proof.
  apply (create_stress_matrix_builds_both_sources Farm.observing Farm.monitoring).
  - reflexivity.
  - apply wfb_wf. reflexivity.
  - reflexivity.
  - reflexivity.
  - reflexivity.
Defined.

(** X15. The bins are written before the rows are grouped: with a feature table
    that has the two numeric columns but no [parcelle_id], the call returns
    [None] and logs the [KeyError], the stress sources are as they were, and
    yet the feature table has gained [temp_bin] and [stress_bin]. *)
Theorem create_stress_matrix_bins_before_it_groups
  (w : World) (t : DataFrame) (ts ss : list cell) :
  features (dashboard w) = Some t ->
  wf t ->
  getitem t "temperature" = Ok (Float64, ts) ->
  getitem t "stress_hydrique" = Ok (Float64, ss) ->
  has_column t "parcelle_id" = false ->
  Dashboard.create_stress_matrix w
  = (StressSpec.logged
       (mkWorld (disk w) (manager w)
                (StressSpec.with_features (dashboard w) (StressSpec.binned t ts ss))
                (logs w))
       (LogError "Erreur lors de la création de la matrice de stress"
                 (Some (KeyError "parcelle_id"))),
     Ok None) /\
  has_column (StressSpec.binned t ts ss) "temp_bin" = true /\
  has_column (StressSpec.binned t ts ss) "stress_bin" = true.
Proof.
  intros Hf Hwf Ht Hs Hp.
  rewrite (create_stress_matrix_run w t ts ss Hf Hwf Ht Hs). cbv zeta.
  destruct (binned_names t ts ss) as (extra & Hn & Hextra & Htb & Hsb).
  split; [|now split].
  assert (Hpos : position "parcelle_id" (names (StressSpec.binned t ts ss)) = None).
  { apply position_not_In. rewrite Hn. intros Hin. apply in_app_iff in Hin as [Hin|Hin].
    - apply In_has_column in Hin. congruence.
    - apply Hextra in Hin. simpl in Hin. intuition discriminate. }
  unfold Counting.group_size. cbn [positions]. now rewrite Hpos.
Qed.

Lemma create_stress_matrix_bins_before_it_groups_witness :
  Dashboard.create_stress_matrix Station.observing
  = (StressSpec.logged
       (mkWorld (disk Station.observing) (manager Station.observing)
                (StressSpec.with_features
                   (dashboard Station.observing)
                   (StressSpec.binned Station.readings [Num 21.5%float] [Num 0.4%float]))
                (logs Station.observing))
       (LogError "Erreur lors de la création de la matrice de stress"
                 (Some (KeyError "parcelle_id"))),
     Ok None) /\
  has_column (StressSpec.binned Station.readings [Num 21.5%float] [Num 0.4%float])
             "temp_bin" = true /\
  has_column (StressSpec.binned Station.readings [Num 21.5%float] [Num 0.4%float])
             "stress_bin" = true.
Proof.
  apply (create_stress_matrix_bins_before_it_groups Station.observing Station.readings).
  - reflexivity.
  - apply wfb_wf. reflexivity.
  - reflexivity.
  - reflexivity.
  - reflexivity.
Defined.

(** ** The callbacks, again *)

Section Views.

Import Js JsSpec.

Variable full : object.

Lemma cleared_keys (filt : object) :
  map (fun kv => (fst kv, @nil value)) filt = map (fun k => (k, @nil value)) (keys filt).
Proof. unfold keys. now rewrite map_map. Qed.

Lemma for_each_keeps_keys {A} (l : list A) (body : A -> M object unit) :
  (forall a, keeps (fun o o' : object => keys o' = keys o) (body a)) ->
  keeps (fun o o' : object => keys o' = keys o) (for_each l body).
Proof.
  intros Hbody.
  assert (R_trans : forall a b c : object,
             keys b = keys a -> keys c = keys b -> keys c = keys a) by congruence.
  induction l as [|a l IH]; simpl.
  - intros o. reflexivity.
  - apply keeps_bind; [assumption | apply Hbody | intros _; exact IH].
Qed.

Lemma push_keeps_keys key i :
  keeps (fun o o' : object => keys o' = keys o) (push full key i).
Proof.
  assert (R_refl : forall o : object, keys o = keys o) by reflexivity.
  assert (R_trans : forall a b c : object,
             keys b = keys a -> keys c = keys b -> keys c = keys a) by congruence.
  unfold push. apply keeps_bind; [assumption | now apply keeps_lift |].
  intros a. apply keeps_modify. intros o.
  destruct (lookup o key); [apply keys_assign | reflexivity].
Qed.

Lemma callback_yield_keeps_keys choix :
  keeps (fun o o' : object => keys o' = keys o) (callback_yield full choix).
Proof.
  assert (R_refl : forall o : object, keys o = keys o) by reflexivity.
  assert (R_trans : forall a b c : object,
             keys b = keys a -> keys c = keys b -> keys c = keys a) by congruence.
  unfold callback_yield, clear.
  repeat first [ apply keeps_modify; intros o; apply keys_cleared
               | apply for_each_keeps_keys; intros ?
               | apply push_keeps_keys
               | keeps_step ].
Qed.

Lemma callback_ndvi_keeps_keys choix :
  keeps (fun o o' : object => keys o' = keys o) (callback_ndvi full choix).
Proof.
  assert (R_refl : forall o : object, keys o = keys o) by reflexivity.
  assert (R_trans : forall a b c : object,
             keys b = keys a -> keys c = keys b -> keys c = keys a) by congruence.
  unfold callback_ndvi, clear.
  repeat first [ apply keeps_modify; intros o; apply keys_cleared
               | apply for_each_keeps_keys; intros ?
               | apply push_keeps_keys
               | keeps_step ].
Qed.

Lemma callback_yield_of_keys choix filt filt' :
  keys filt = keys filt' ->
  callback_yield full choix filt = callback_yield full choix filt'.
Proof.
  intros Hk. unfold callback_yield.
  rewrite (bind_Ok _ _ _ _ _ (clear_run filt)), (bind_Ok _ _ _ _ _ (clear_run filt')).
  now rewrite !cleared_keys, Hk.
Qed.

Lemma callback_ndvi_of_keys choix filt filt' :
  keys filt = keys filt' ->
  callback_ndvi full choix filt = callback_ndvi full choix filt'.
Proof.
  intros Hk. unfold callback_ndvi.
  rewrite (bind_Ok _ _ _ _ _ (clear_run filt)), (bind_Ok _ _ _ _ _ (clear_run filt')).
  now rewrite !cleared_keys, Hk.
Qed.

End Views.

(** X16. With a full source, what a selection shows does not depend on
    what was shown before, only on the columns the visible source has: two
    sources with the same columns are left in the same state, and selecting
    [b] after [a] leaves what selecting [b] at once leaves (so selecting
    twice is selecting once); this holds for the yield and for the NDVI
    callback, also when they throw after their first lines.  Without a full
    source ([full_source] is [None]) both callbacks throw at their first
    line, and the visible source keeps what it showed before. *)
Theorem selection_callbacks_forget_the_previous_view
  (full filt filt' : Js.object) (a b : Js.value) :
  Js.keys filt = Js.keys filt' ->
  (Js.on_change_yield (Some full) b (Some filt)
   = Js.on_change_yield (Some full) b (Some filt') /\
   Js.on_change_ndvi (Some full) b (Some filt)
   = Js.on_change_ndvi (Some full) b (Some filt') /\
   Js.on_change_yield (Some full) b (fst (Js.on_change_yield (Some full) a (Some filt)))
   = Js.on_change_yield (Some full) b (Some filt) /\
   Js.on_change_ndvi (Some full) b (fst (Js.on_change_ndvi (Some full) a (Some filt)))
   = Js.on_change_ndvi (Some full) b (Some filt)) /\
  (Js.on_change_yield None b (Some filt) = (Some filt, Raise Js.null_data) /\
   Js.on_change_ndvi None b (Some filt) = (Some filt, Raise Js.null_data) /\
   Js.on_change_yield None b (fst (Js.on_change_yield None a (Some filt)))
   = (Some filt, Raise Js.null_data)).
Proof.
  intros Hk. split; [|repeat split].
  unfold Js.on_change_yield, Js.on_change_ndvi, Js.with_sources. cbn [fst snd].
  repeat split.
  - now rewrite (callback_yield_of_keys full b filt filt' Hk).
  - now rewrite (callback_ndvi_of_keys full b filt filt' Hk).
  - rewrite (callback_yield_of_keys full b (fst (Js.callback_yield full a filt)) filt);
      [reflexivity | apply callback_yield_keeps_keys].
  - rewrite (callback_ndvi_of_keys full b (fst (Js.callback_ndvi full a filt)) filt);
      [reflexivity | apply callback_ndvi_keeps_keys].
Qed.

Lemma selection_callbacks_forget_the_previous_view_witness :
  (Js.on_change_yield (Some Browser.full_yield) (Js.String "P001")
     (Some Browser.visible_yield)
   = Js.on_change_yield (Some Browser.full_yield) (Js.String "P001")
       (Some (fst (Js.callback_yield Browser.full_yield (Js.String "P002")
                                     Browser.full_yield))) /\
   Js.on_change_ndvi (Some Browser.full_yield) (Js.String "P001")
     (Some Browser.visible_yield)
   = Js.on_change_ndvi (Some Browser.full_yield) (Js.String "P001")
       (Some (fst (Js.callback_yield Browser.full_yield (Js.String "P002")
                                     Browser.full_yield))) /\
   Js.on_change_yield (Some Browser.full_yield) (Js.String "P001")
     (fst (Js.on_change_yield (Some Browser.full_yield) (Js.String "P002")
                              (Some Browser.visible_yield)))
   = Js.on_change_yield (Some Browser.full_yield) (Js.String "P001")
       (Some Browser.visible_yield) /\
   Js.on_change_ndvi (Some Browser.full_yield) (Js.String "P001")
     (fst (Js.on_change_ndvi (Some Browser.full_yield) (Js.String "P002")
                             (Some Browser.visible_yield)))
   = Js.on_change_ndvi (Some Browser.full_yield) (Js.String "P001")
       (Some Browser.visible_yield)) /\
  (Js.on_change_yield None (Js.String "P001") (Some Browser.visible_yield)
   = (Some Browser.visible_yield, Raise Js.null_data) /\
   Js.on_change_ndvi None (Js.String "P001") (Some Browser.visible_yield)
   = (Some Browser.visible_yield, Raise Js.null_data) /\
   Js.on_change_yield None (Js.String "P001")
     (fst (Js.on_change_yield None (Js.String "P002") (Some Browser.visible_yield)))
   = (Some Browser.visible_yield, Raise Js.null_data)).
Proof.
  apply (selection_callbacks_forget_the_previous_view
           Browser.full_yield Browser.visible_yield
           (fst (Js.callback_yield Browser.full_yield (Js.String "P002") Browser.full_yield))
           (Js.String "P002") (Js.String "P001")).
  reflexivity.
Defined.

(** With its full source, the yield chart shows the three estimates of
    parcel P001 by date; the dashboard passes [None], and the chart keeps
    the estimate of P002 it showed. *)
Example selecting_P001_with_and_without_full_source :
  fst (Js.on_change_yield (Some Browser.full_yield) (Js.String "P001")
                          (Some Browser.visible_yield))
  = Some [("index", [Js.Number 3; Js.Number 2; Js.Number 0]);
          ("parcelle_id", [Js.String "P001"; Js.String "P001"; Js.String "P001"]);
          ("date", [Js.Number 1672444800000; Js.Number 1675123200000;
                    Js.Number 1677542400000]);
          ("rendement_estime", [Js.Number 5; Js.Number 6; Js.Number 6.5])] /\
  fst (Js.on_change_yield None (Js.String "P001") (Some Browser.visible_yield))
  = Some Browser.visible_yield.
Proof. split; vm_compute; reflexivity. Qed.

Section Agreement.

Import Js JsSpec.

Variable full : object.

Lemma callback_yield_run choix filt ids shown :
  NoDup (keys filt) ->
  (forall k, In k (keys filt) -> lookup full k <> None) ->
  lookup full "parcelle_id" = Some ids ->
  sort_by_date full (selected ids choix) = Ok shown ->
  callback_yield full choix filt
  = (extended full shown (keys (map (fun kv => (fst kv, @nil value)) filt))
              (map (fun kv => (fst kv, @nil value)) filt), Ok tt).
Proof.
  intros Hnd Hfull Hids Hsort.
  unfold callback_yield, Py.bind, Py.lift, Py.get, matching, array_of.
  rewrite clear_run, Hids. simpl Py.rbind.
  fold (selected ids choix). cbv iota beta. rewrite Hsort.
  apply for_each_keys; rewrite ?keys_cleared; try assumption.
  intros k Hk. split; [assumption | now apply Hfull].
Qed.

Lemma callback_ndvi_run choix filt ids :
  NoDup (keys filt) ->
  (forall k, In k (keys filt) -> lookup full k <> None) ->
  lookup full "parcelle_id" = Some ids ->
  callback_ndvi full choix filt
  = (extended full (selected ids choix) (keys (map (fun kv => (fst kv, @nil value)) filt))
              (map (fun kv => (fst kv, @nil value)) filt), Ok tt).
Proof.
  intros Hnd Hfull Hids.
  unfold callback_ndvi, Py.bind at 1 2, Py.lift, array_of.
  rewrite clear_run, Hids.
  rewrite (for_each_rows full (fun i => strict_equals (at_index ids i) choix));
    rewrite ?keys_cleared; try assumption.
  reflexivity.
Qed.

Lemma stable_sort_sorted_id {A} (leb : A -> A -> bool) l :
  StronglySorted (fun a b => leb a b = true) l -> Frame.stable_sort leb l = l.
Proof.
  unfold Frame.stable_sort. induction 1 as [|x l Hs IH Hx]; simpl; [reflexivity|].
  rewrite IH. destruct l as [|y l']; [reflexivity|]. simpl.
  apply Forall_cons_iff in Hx as [Hxy _]. now rewrite Hxy.
Qed.

End Agreement.

(** X17. When the rows of the selected parcel stand in the full dataset by
    ascending date already, the yield callback and the NDVI callback leave
    the same visible data: the sort of the yield callback changes nothing.
    (The full dataset has the columns of the visible source, and the dates
    of the selected rows are valid.) *)
Theorem callbacks_agree_on_rows_in_date_order
  (full filt : Js.object) (choix : Js.value) (ids dates : list Js.value) :
  NoDup (Js.keys filt) ->
  (forall k, In k (Js.keys filt) -> Js.lookup full k <> None) ->
  Js.lookup full "parcelle_id" = Some ids ->
  Js.lookup full "date" = Some dates ->
  (forall i, In i (JsSpec.selected ids choix) ->
             Js.time_value (Js.at_index dates i) <> None) ->
  StronglySorted (fun i j => JsSpec.date_at dates i <= JsSpec.date_at dates j)
                 (JsSpec.selected ids choix) ->
  Js.callback_yield full choix filt = Js.callback_ndvi full choix filt.
Proof.
  intros Hnd Hfull Hids Hdates Hvalid Hsorted.
  rewrite (callback_ndvi_run full choix filt ids Hnd Hfull Hids).
  apply (callback_yield_run full choix filt ids); try assumption.
  unfold Js.sort_by_date, Js.array_of. rewrite Hdates. cbn [Py.rbind].
  rewrite stable_sort_sorted_id.
  - now destruct (JsSpec.selected ids choix) as [|i [|j l]].
  - revert Hvalid. induction Hsorted as [|i l Hs IH Hi]; intros Hvalid; constructor.
    + apply IH. intros j Hj. apply Hvalid. now right.
    + rewrite Forall_forall in *. intros j Hj. specialize (Hi j Hj).
      unfold JsSpec.date_at in Hi. unfold Js.date_leb.
      pose proof (Hvalid i (or_introl eq_refl)) as Vi.
      pose proof (Hvalid j (or_intror Hj)) as Vj.
      destruct (Js.time_value (Js.at_index dates i)); [|congruence].
      destruct (Js.time_value (Js.at_index dates j)); [|congruence].
      now apply Z.leb_le.
Qed.

Lemma callbacks_agree_on_rows_in_date_order_witness :
  Js.callback_yield
    [("parcelle_id", [Js.String "P001"; Js.String "P002"; Js.String "P001"]);
     ("date", [Js.Number 1672444800000; Js.Number 1675123200000;
               Js.Number 1677542400000]);
     ("ndvi", [Js.Number 0.5; Js.Number 0.25; Js.Number 0.75])]
    (Js.String "P001")
    [("date", [Js.Number 1675123200000]); ("ndvi", [Js.Number 0.25])]
  = Js.callback_ndvi
      [("parcelle_id", [Js.String "P001"; Js.String "P002"; Js.String "P001"]);
       ("date", [Js.Number 1672444800000; Js.Number 1675123200000;
                 Js.Number 1677542400000]);
       ("ndvi", [Js.Number 0.5; Js.Number 0.25; Js.Number 0.75])]
      (Js.String "P001")
      [("date", [Js.Number 1675123200000]); ("ndvi", [Js.Number 0.25])].
Proof.
  apply (callbacks_agree_on_rows_in_date_order
           [("parcelle_id", [Js.String "P001"; Js.String "P002"; Js.String "P001"]);
            ("date", [Js.Number 1672444800000; Js.Number 1675123200000;
                      Js.Number 1677542400000]);
            ("ndvi", [Js.Number 0.5; Js.Number 0.25; Js.Number 0.75])]
           [("date", [Js.Number 1675123200000]); ("ndvi", [Js.Number 0.25])]
           (Js.String "P001")
           [Js.String "P001"; Js.String "P002"; Js.String "P001"]
           [Js.Number 1672444800000; Js.Number 1675123200000;
            Js.Number 1677542400000]).
  - repeat constructor; simpl; intuition discriminate.
  - simpl. intros k [<-|[<-|[]]]; discriminate.
  - reflexivity.
  - reflexivity.
  - simpl. intros i [<-|[<-|[]]]; vm_compute; discriminate.
  - simpl. repeat constructor; vm_compute; discriminate.
Defined.

(** The rows of parcel P001 of the yield dataset are not in date order,
    and the two callbacks differ. *)
Example callbacks_differ_on_unordered_rows :
  Js.callback_yield Browser.full_yield (Js.String "P001") Browser.visible_yield
  <> Js.callback_ndvi Browser.full_yield (Js.String "P001") Browser.visible_yield.
Proof. intros Heq. vm_compute in Heq. discriminate. Qed.

Section NoRow.

Import Js JsSpec.

Lemma for_each_nothing {A} (l : list A) (o : object) :
  for_each l (fun _ => Py.ret tt) o = (o, Ok tt).
Proof. induction l as [|a l IH]; simpl; [reflexivity|]. unfold Py.bind. simpl. exact IH. Qed.

Lemma filter_nil_false {A} (p : A -> bool) l :
  filter p l = [] -> forall x, In x l -> p x = false.
Proof.
  induction l as [|a l IH]; simpl; intros Hf x Hin; [destruct Hin|].
  destruct (p a) eqn:E; [discriminate|].
  destruct Hin as [<-|Hin]; [assumption | now apply IH].
Qed.

Lemma for_each_unselected (p : nat -> bool) (body : nat -> M object unit) l o :
  (forall i, In i l -> p i = false) ->
  for_each l (fun i => if p i then body i else Py.ret tt) o = (o, Ok tt).
Proof.
  revert o. induction l as [|i l IH]; intros o Hp; simpl; [reflexivity|].
  unfold Py.bind. rewrite (Hp i (or_introl eq_refl)). simpl.
  apply IH. intros j Hj. apply Hp. now right.
Qed.

End NoRow.

(** X18. Selecting a parcel that has no row in the full dataset empties every
    column of the visible source and throws nothing, whatever columns the
    two sources have.  When the full dataset has no column [parcelle_id],
    both callbacks throw a [TypeError], after they have emptied the visible
    source. *)
Theorem selection_without_rows_empties_the_view
  (full filt : Js.object) (choix : Js.value) :
  (forall ids,
      Js.lookup full "parcelle_id" = Some ids ->
      JsSpec.selected ids choix = [] ->
      Js.callback_yield full choix filt
      = (map (fun kv => (fst kv, @nil Js.value)) filt, Ok tt) /\
      Js.callback_ndvi full choix filt
      = (map (fun kv => (fst kv, @nil Js.value)) filt, Ok tt)) /\
  (Js.lookup full "parcelle_id" = None ->
   exists msg,
     Js.callback_yield full choix filt
     = (map (fun kv => (fst kv, @nil Js.value)) filt, Raise (TypeError msg)) /\
     Js.callback_ndvi full choix filt
     = (map (fun kv => (fst kv, @nil Js.value)) filt, Raise (TypeError msg))).
Proof.
  split.
  - intros ids Hids Hnone. split.
    + unfold Js.callback_yield, Py.bind, Py.lift, Py.get, Js.matching, Js.array_of.
      rewrite clear_run, Hids. simpl Py.rbind.
      fold (JsSpec.selected ids choix). rewrite Hnone. cbn [Js.sort_by_date].
      apply (for_each_nothing (Js.keys (map (fun kv => (fst kv, @nil Js.value)) filt))).
    + unfold Js.callback_ndvi, Py.bind at 1 2, Py.lift, Js.array_of.
      rewrite clear_run, Hids.
      apply for_each_unselected. now apply filter_nil_false.
  - intros Hnone. eexists. split.
    + unfold Js.callback_yield, Py.bind, Py.lift, Js.matching, Js.array_of.
      rewrite clear_run, Hnone. reflexivity.
    + unfold Js.callback_ndvi, Py.bind, Py.lift, Js.array_of.
      rewrite clear_run, Hnone. reflexivity.
Qed.

(** No parcel P009 in the dataset: the chart is emptied. *)
Example selecting_P009_empties_the_chart :
  Js.callback_yield Browser.full_yield (Js.String "P009") Browser.visible_yield
  = ([("index", []); ("parcelle_id", []); ("date", []); ("rendement_estime", [])], Ok tt).
Proof. vm_compute. reflexivity. Qed.
(** ** The callback of the stress matrix *)

Section StressCallback.

Import Js JsSpec JsStress.

Lemma lookup_set_property_same o k v : lookup (set_property o k v) k = Some v.
Proof.
  induction o as [|[k' v'] o IH]; simpl.
  - now rewrite String.eqb_refl.
  - destruct (String.eqb k k') eqn:E; simpl; rewrite E; [reflexivity | exact IH].
Qed.

Lemma lookup_set_property_other o k v k' :
  k' <> k -> lookup (set_property o k v) k' = lookup o k'.
Proof.
  intros Hne. induction o as [|[k0 v0] o IH]; simpl.
  - apply String.eqb_neq in Hne. now rewrite Hne.
  - destruct (String.eqb k k0) eqn:E; simpl; [|now rewrite IH].
    apply String.eqb_eq in E. subst k0.
    apply String.eqb_neq in Hne. now rewrite Hne.
Qed.

Lemma lookup_assign_other o k v k' :
  k' <> k -> lookup (assign o k v) k' = lookup o k'.
Proof.
  intros Hne. induction o as [|[k0 v0] o IH]; simpl; [reflexivity|].
  destruct (String.eqb k k0) eqn:E; simpl; [|now rewrite IH].
  apply String.eqb_eq in E. subst k0.
  apply String.eqb_neq in Hne. now rewrite Hne.
Qed.

Variable data : object.
Variables ids tb sb nc : list value.
Hypothesis Htb : lookup data "temp_bin" = Some tb.
Hypothesis Hsb : lookup data "stress_bin" = Some sb.
Hypothesis Hnc : lookup data "norm_count" = Some nc.

Lemma push_row filt o shown i :
  JsStressSpec.view tb sb nc filt o shown ->
  exists o',
    (push_to data "temp_bin" i ;; push_to data "stress_bin" i ;;
     push_to data "norm_count" i)%py o = (o', Ok tt) /\
    JsStressSpec.view tb sb nc filt o' (shown ++ [i]).
Proof.
  intros (H1 & H2 & H3 & Hrest).
  unfold Py.bind, push_to, array_of.
  rewrite H1, Htb.
  rewrite lookup_assign_other by discriminate. rewrite H2, Hsb.
  rewrite !lookup_assign_other by discriminate. rewrite H3, Hnc.
  eexists. split; [reflexivity|].
  repeat split.
  - rewrite !lookup_assign_other by discriminate.
    rewrite (lookup_assign_same _ _ _ _ H1). now rewrite map_app.
  - rewrite lookup_assign_other by discriminate.
    erewrite lookup_assign_same
      by (rewrite lookup_assign_other by discriminate; exact H2).
    now rewrite map_app.
  - erewrite lookup_assign_same
      by (rewrite !lookup_assign_other by discriminate; exact H3).
    now rewrite map_app.
  - intros k K1 K2 K3. rewrite !lookup_assign_other by assumption.
    now apply Hrest.
Qed.

Lemma stress_loop (p : nat -> bool) filt l o shown :
  JsStressSpec.view tb sb nc filt o shown ->
  exists o',
    for_each l (fun i => if p i
                         then (push_to data "temp_bin" i ;;
                               push_to data "stress_bin" i ;;
                               push_to data "norm_count" i)%py
                         else Py.ret tt) o = (o', Ok tt) /\
    JsStressSpec.view tb sb nc filt o' (shown ++ filter p l).
Proof.
  revert o shown. induction l as [|i l IH]; intros o shown Hv; simpl.
  - exists o. rewrite app_nil_r. now split.
  - destruct (p i) eqn:Ep.
    + destruct (push_row filt o shown i Hv) as (o1 & Hrun & Hv1).
      destruct (IH o1 (shown ++ [i]) Hv1) as (o2 & Hrun2 & Hv2).
      exists o2. split.
      * unfold Py.bind at 1. rewrite Hrun. exact Hrun2.
      * now rewrite <- app_assoc in Hv2.
    + destruct (IH o shown Hv) as (o2 & Hrun2 & Hv2).
      exists o2. split; [|assumption].
      unfold Py.bind at 1. exact Hrun2.
Qed.

Lemma stress_cleared filt :
  JsStressSpec.view tb sb nc filt
    (set_property (set_property (set_property filt "temp_bin" []) "stress_bin" [])
                  "norm_count" []) [].
Proof.
  repeat split.
  - rewrite !lookup_set_property_other by discriminate.
    apply lookup_set_property_same.
  - rewrite lookup_set_property_other by discriminate.
    apply lookup_set_property_same.
  - apply lookup_set_property_same.
  - intros k K1 K2 K3. now rewrite !lookup_set_property_other by assumption.
Qed.

Lemma callback_stress_run filt choix :
  lookup data "parcelle_id" = Some ids ->
  exists o',
    callback_stress data choix filt = (o', Ok tt) /\
    JsStressSpec.view tb sb nc filt o' (selected ids choix).
Proof.
  intros Hids.
  destruct (stress_loop (fun i => strict_equals (at_index ids i) choix) filt
              (seq O (List.length ids)) _ [] (stress_cleared filt))
    as (o' & Hrun & Hv).
  exists o'. split; [|exact Hv].
  unfold callback_stress, Py.bind at 1 2 3 4, Py.modify, Py.lift, array_of.
  rewrite Hids. exact Hrun.
Qed.

End StressCallback.

(** X19. The callback of the stress matrix puts the rows of the selected parcel,
    in the order of the full dataset, into [temp_bin], [stress_bin] and
    [norm_count] of the visible source, whatever these held, and throws
    nothing.  Every other column of the visible source is left as it was:
    [parcelle_id] and [count] keep the rows, and the length, they had before
    the selection. *)
Theorem callback_stress_replaces_three_columns
  (data filt : Js.object) (choix : Js.value) (ids tb sb nc : list Js.value) :
  Js.lookup data "parcelle_id" = Some ids ->
  Js.lookup data "temp_bin" = Some tb ->
  Js.lookup data "stress_bin" = Some sb ->
  Js.lookup data "norm_count" = Some nc ->
  exists filt',
    JsStress.callback_stress data choix filt = (filt', Ok tt) /\
    Js.lookup filt' "temp_bin" = Some (map (Js.at_index tb) (JsSpec.selected ids choix)) /\
    Js.lookup filt' "stress_bin" = Some (map (Js.at_index sb) (JsSpec.selected ids choix)) /\
    Js.lookup filt' "norm_count" = Some (map (Js.at_index nc) (JsSpec.selected ids choix)) /\
    Js.lookup filt' "parcelle_id" = Js.lookup filt "parcelle_id" /\
    Js.lookup filt' "count" = Js.lookup filt "count" /\
    Js.lookup filt' "index" = Js.lookup filt "index".
Proof.
  intros Hids Htb Hsb Hnc.
  destruct (callback_stress_run data ids tb sb nc Htb Hsb Hnc filt choix Hids)
    as (o' & Hrun & H1 & H2 & H3 & Hrest).
  exists o'. repeat split; try assumption; apply Hrest; discriminate.
Qed.

Lemma callback_stress_replaces_three_columns_witness :
  exists filt',
    JsStress.callback_stress Heatmap.matrix (Js.String "P002") Heatmap.matrix
    = (filt', Ok tt) /\
    Js.lookup filt' "temp_bin" = Some [Js.Number 20] /\
    Js.lookup filt' "stress_bin" = Some [Js.Number 0.2] /\
    Js.lookup filt' "norm_count" = Some [Js.Number 0.5] /\
    Js.lookup filt' "parcelle_id" = Js.lookup Heatmap.matrix "parcelle_id" /\
    Js.lookup filt' "count" = Js.lookup Heatmap.matrix "count" /\
    Js.lookup filt' "index" = Js.lookup Heatmap.matrix "index".
Proof.
  apply (callback_stress_replaces_three_columns
           Heatmap.matrix Heatmap.matrix (Js.String "P002")
           [Js.String "P001"; Js.String "P001"; Js.String "P002"]
           [Js.Number 20; Js.Number 25; Js.Number 20]
           [Js.Number 0.2; Js.Number 0.4; Js.Number 0.2]
           [Js.Number 1; Js.Number 0.5; Js.Number 0.5]);
    reflexivity.
Defined.

(** After parcel P002 is selected the matrix shows one cell, and the
    visible source still has three parcel identifiers and three counts. *)
Example stress_selection_leaves_columns_of_unequal_length :
  fst (JsStress.callback_stress Heatmap.matrix (Js.String "P002") Heatmap.matrix)
  = [("index", [Js.Number 0; Js.Number 1; Js.Number 2]);
     ("parcelle_id", [Js.String "P001"; Js.String "P001"; Js.String "P002"]);
     ("temp_bin", [Js.Number 20]);
     ("stress_bin", [Js.Number 0.2]);
     ("count", [Js.Number 2; Js.Number 1; Js.Number 1]);
     ("norm_count", [Js.Number 0.5])].
Proof. vm_compute. reflexivity. Qed.
(** ** The parcel options *)

Lemma string_leb_trans s t u :
  String.leb s t = true -> String.leb t u = true -> String.leb s u = true.
Proof.
  unfold String.leb. revert t u.
  induction s as [|a s IH]; intros [|b t] [|c u]; simpl; try congruence.
  intros H1 H2.
  destruct (Ascii.compare a b) eqn:Eab; try discriminate;
    destruct (Ascii.compare b c) eqn:Ebc; try discriminate.
  - apply Ascii.compare_eq_iff in Eab, Ebc. subst.
    assert (E : Ascii.compare c c = Eq) by (unfold Ascii.compare; apply N.compare_refl).
    rewrite E. now apply (IH t u).
  - apply Ascii.compare_eq_iff in Eab. subst. now rewrite Ebc.
  - apply Ascii.compare_eq_iff in Ebc. subst. now rewrite Eab.
  - assert (E : Ascii.compare a c = Lt).
    { unfold Ascii.compare in *. rewrite N.compare_lt_iff in *.
      etransitivity; eassumption. }
    now rewrite E.
Qed.

Section Unique.

Import Options.

Lemma unique_step (p : cell -> bool) cs seen :
  (forall a b, cell_eqb a b = true -> p a = p b) ->
  existsb p (fold_left (fun seen c => if existsb (cell_eqb c) seen then seen
                                      else seen ++ [c]) cs seen)
  = existsb p seen || existsb p cs.
Proof.
  intros Hp. revert seen. induction cs as [|c cs IH]; intros seen; simpl.
  - now rewrite orb_false_r.
  - rewrite IH. destruct (existsb (cell_eqb c) seen) eqn:E.
    + apply existsb_exists in E as (x & Hx & Hcx).
      destruct (p c) eqn:Epc; [|reflexivity].
      assert (Hs : existsb p seen = true).
      { apply existsb_exists. exists x. split; [assumption|].
        now rewrite <- (Hp c x Hcx). }
      now rewrite Hs.
    + rewrite existsb_app. simpl. rewrite orb_false_r. now rewrite orb_assoc.
Qed.

Lemma existsb_unique (p : cell -> bool) cs :
  (forall a b, cell_eqb a b = true -> p a = p b) ->
  existsb p (unique cs) = existsb p cs.
Proof. intros Hp. unfold unique. now rewrite unique_step. Qed.

Lemma is_text_eqb a b : cell_eqb a b = true -> is_text a = is_text b.
Proof. destruct a, b; simpl; congruence. Qed.

Lemma text_eqb a b : is_text a = true -> cell_eqb a b = true -> a = b.
Proof.
  destruct a, b; simpl; try discriminate. intros _ E.
  apply String.eqb_eq in E. now subst.
Qed.

Lemma unique_text_step cs seen :
  Forall (fun c => is_text c = true) cs ->
  Forall (fun c => is_text c = true) seen -> NoDup seen ->
  let r := fold_left (fun seen c => if existsb (cell_eqb c) seen then seen
                                    else seen ++ [c]) cs seen in
  Forall (fun c => is_text c = true) r /\ NoDup r /\
  forall c, In c r <-> In c seen \/ In c cs.
Proof.
  revert seen. induction cs as [|c cs IH]; intros seen Hcs Hseen Hnd; simpl.
  - repeat split; try assumption; tauto.
  - apply Forall_cons_iff in Hcs as [Hc Hcs].
    destruct (existsb (cell_eqb c) seen) eqn:E.
    + destruct (IH seen Hcs Hseen Hnd) as (F & N & I).
      repeat split; try assumption.
      * intros Hin. apply I in Hin. tauto.
      * intros [Hin|[<-|Hin]]; apply I; [tauto| |tauto].
        left. apply existsb_exists in E as (x & Hx & Hcx).
        now rewrite (text_eqb c x Hc Hcx).
    + destruct (IH (seen ++ [c]) Hcs) as (F & N & I).
      * apply Forall_app. split; [assumption | now constructor].
      * apply NoDup_app; [assumption | repeat constructor; intros [] |].
        intros x Hx [Heq|[]]. subst x.
        assert (Ht : existsb (cell_eqb c) seen = true).
        { apply existsb_exists. exists c. split; [assumption|].
          destruct c; try discriminate. simpl. apply String.eqb_refl. }
        congruence.
      * repeat split; try assumption.
        -- intros Hin. apply I in Hin. rewrite in_app_iff in Hin. simpl in Hin. tauto.
        -- intros Hin. apply I. rewrite in_app_iff. simpl. tauto.
Qed.

Lemma unique_text cs :
  Forall (fun c => is_text c = true) cs ->
  Forall (fun c => is_text c = true) (unique cs) /\ NoDup (unique cs) /\
  forall c, In c (unique cs) <-> In c cs.
Proof.
  intros Hcs.
  destruct (unique_text_step cs [] Hcs (Forall_nil _) (NoDup_nil _)) as (F & N & I).
  repeat split; try assumption; intros Hin; apply I in Hin || apply I; simpl in *; tauto.
Qed.

Lemma forallb_text l : Forall (fun c => is_text c = true) l -> forallb is_text l = true.
Proof. intros H. apply forallb_forall. now rewrite Forall_forall in H. Qed.

Lemma existsb_not_text l :
  Forall (fun c => is_text c = true) l -> existsb (fun c => negb (is_text c)) l = false.
Proof.
  induction 1 as [|c l Hc Hl IH]; simpl; [reflexivity|]. now rewrite Hc, IH.
Qed.

Lemma sorted_text `{Libraries} l :
  Forall (fun c => is_text c = true) l ->
  sorted l = Ok (Frame.stable_sort not_after l) /\
  StronglySorted (fun a b => not_after a b = true) (Frame.stable_sort not_after l).
Proof.
  intros Hl. split.
  - unfold sorted, ordered. rewrite (existsb_not_text l Hl), andb_false_r.
    now rewrite (forallb_text l Hl).
  - assert (Hs : StronglySorted
                   (fun a b => is_text a = true /\ is_text b = true /\ not_after a b = true)
                   (Frame.stable_sort not_after l)).
    { apply (stable_sort_sorted not_after _
               (fun a b => is_text a = true /\ is_text b = true)).
      - intros a b c (Ha & Hb & Hab) (_ & Hc & Hbc). repeat split; try assumption.
        destruct a, b, c; try discriminate. simpl in *.
        eapply string_leb_trans; eassumption.
      - intros a b [Ha Hb] Hab. now repeat split.
      - intros a b [Ha Hb] Hab. repeat split; try assumption.
        destruct a, b; try discriminate. simpl in *.
        destruct (String.leb_total s s0); congruence.
      - clear -Hl. induction Hl as [|c l0 Hc Hl IH]; constructor; [assumption|].
        eapply Forall_impl; [|exact Hl]. intros a Ha. now split. }
    clear -Hs. induction Hs as [|a l0 Hs IH Ha]; constructor; [assumption|].
    eapply Forall_impl; [|exact Ha]. now intros b (_ & _ & Hab).
Qed.

End Unique.

(** X20. With the monitoring table loaded and its column [parcelle_id] holding
    text only, the options are the parcel identifiers of the table: each
    one once, in ascending order.  Nothing is logged and nothing else
    changes. *)
Theorem get_parcelle_options_lists_each_parcel_once
  `{Libraries} (w : World) (t : DataFrame) (d : dtype) (cells : list cell) :
  monitoring_data (manager w) = Some t ->
  getitem t "parcelle_id" = Ok (d, cells) ->
  Forall (fun c => Options.is_text c = true) cells ->
  exists opts,
    Options.get_parcelle_options w = (w, Ok opts) /\
    NoDup opts /\
    (forall c, In c opts <-> In c cells) /\
    StronglySorted (fun a b => Options.not_after a b = true) opts.
Proof.
  intros Hm Hg Htext.
  destruct (unique_text cells Htext) as (F & N & I).
  destruct (sorted_text (Options.unique cells) F) as [Hsort Hs].
  exists (Frame.stable_sort Options.not_after (Options.unique cells)).
  repeat split.
  - unfold Options.get_parcelle_options, Py.try_except, Py.bind, Py.get, Py.lift.
    rewrite Hm, Hg. cbn [snd]. now rewrite Hsort.
  - eapply Permutation_NoDup; [apply stable_sort_perm | exact N].
  - intros Hin. apply I. eapply Permutation_in; [|exact Hin].
    symmetry. apply stable_sort_perm.
  - intros Hin. apply I in Hin. eapply Permutation_in; [|exact Hin].
    apply stable_sort_perm.
  - exact Hs.
Qed.

Lemma get_parcelle_options_lists_each_parcel_once_witness :
  exists opts,
    @Options.get_parcelle_options Refusing.libraries Farm.loaded = (Farm.loaded, Ok opts) /\
    NoDup opts /\
    (forall c, In c opts <-> In c [Str "P001"; Str "P002"; Str "P001"; Str "P001"; Str "P002"]) /\
    StronglySorted (fun a b => Options.not_after a b = true) opts.
Proof.
  apply (@get_parcelle_options_lists_each_parcel_once Refusing.libraries
           Farm.loaded Farm.monitoring Object
           [Str "P001"; Str "P002"; Str "P001"; Str "P001"; Str "P002"]).
  - reflexivity.
  - reflexivity.
  - repeat constructor.
Defined.

(** The two parcels of the farm. *)
Example farm_parcel_options :
  @Options.get_parcelle_options Refusing.libraries Farm.loaded
  = (Farm.loaded, Ok [Str "P001"; Str "P002"]).
Proof. vm_compute. reflexivity. Qed.

(** X21. [get_parcelle_options] never raises.  It answers the empty list, after
    one error record added to the log, when the monitoring table is not
    loaded (a [ValueError]), when that table has no column [parcelle_id] (a
    [KeyError]), and when the column holds a text beside a value that is
    not a text, a missing identifier for instance (a [TypeError]).  In
    every case the only change is, at most, that record. *)
Theorem get_parcelle_options_answers_empty_on_failure
  `{Libraries} (w : World) :
  (exists opts,
      Options.get_parcelle_options w = (w, Ok opts)
      \/ (opts = [] /\
          exists e,
            Options.get_parcelle_options w
            = (mkWorld (disk w) (manager w) (dashboard w)
                       (logs w ++ [LogError "Erreur lors de la récupération des options de parcelle"
                                            (Some e)]),
               Ok []))) /\
  (monitoring_data (manager w) = None ->
   Options.get_parcelle_options w
   = (mkWorld (disk w) (manager w) (dashboard w)
              (logs w ++ [LogError "Erreur lors de la récupération des options de parcelle"
                                   (Some (ValueError "Données de monitoring non chargées."))]),
      Ok [])) /\
  (forall t, monitoring_data (manager w) = Some t ->
             has_column t "parcelle_id" = false ->
             Options.get_parcelle_options w
             = (mkWorld (disk w) (manager w) (dashboard w)
                        (logs w ++ [LogError "Erreur lors de la récupération des options de parcelle"
                                             (Some (KeyError "parcelle_id"))]),
                Ok [])) /\
  (forall t d cells,
      monitoring_data (manager w) = Some t ->
      getitem t "parcelle_id" = Ok (d, cells) ->
      existsb Options.is_text cells = true ->
      existsb (fun c => negb (Options.is_text c)) cells = true ->
      exists msg,
        Options.get_parcelle_options w
        = (mkWorld (disk w) (manager w) (dashboard w)
                   (logs w ++ [LogError "Erreur lors de la récupération des options de parcelle"
                                        (Some (TypeError msg))]),
           Ok [])).
Proof.
  repeat split.
  - unfold Options.get_parcelle_options, Py.try_except, Py.bind, Py.get, Py.lift,
      Py.raise, logging, Py.modify, Py.ret.
    destruct (monitoring_data (manager w)) as [t|].
    + destruct (getitem t "parcelle_id") as [[d cells]|e].
      * cbn [snd]. destruct (Options.sorted (Options.unique cells)) as [opts|e].
        -- exists opts. now left.
        -- exists []. right. split; [reflexivity|]. now exists e.
      * exists []. right. split; [reflexivity|]. now exists e.
    + exists []. right. split; [reflexivity|]. now eexists.
  - intros Hm.
    unfold Options.get_parcelle_options, Py.try_except, Py.bind, Py.get, Py.lift,
      Py.raise, logging, Py.modify, Py.ret.
    now rewrite Hm.
  - intros t Hm Hc.
    unfold Options.get_parcelle_options, Py.try_except, Py.bind, Py.get, Py.lift,
      Py.raise, logging, Py.modify, Py.ret.
    rewrite Hm. unfold getitem.
    apply position_None in Hc. now rewrite Hc.
  - intros t d cells Hm Hg Ht Hn.
    unfold Options.get_parcelle_options, Py.try_except, Py.bind, Py.get, Py.lift,
      Py.raise, logging, Py.modify, Py.ret.
    rewrite Hm, Hg. cbn [snd]. unfold Options.sorted.
    rewrite (existsb_unique Options.is_text cells is_text_eqb), Ht.
    rewrite (existsb_unique (fun c => negb (Options.is_text c)) cells), Hn.
    + now eexists.
    + intros a b E. now rewrite (is_text_eqb a b E).
Qed.

(* ================================================================== *)
(** * The temporal check and the pipeline *)
(* ================================================================== *)

Section Orderly.

Lemma orderly_modify {W} (f : W -> W) : orderly_run (Py.modify f).
Proof. intros w. exact I. Qed.

Lemma orderly_lift {W A} (r : result A) : orderly r -> orderly_run (@Py.lift W A r).
Proof. intros Hr w. exact Hr. Qed.

Lemma orderly_bind {W A B} (m : M W A) (k : A -> M W B) :
  orderly_run m -> (forall a, orderly_run (k a)) -> orderly_run (Py.bind m k).
Proof.
  intros Hm Hk w. unfold Py.bind. specialize (Hm w).
  destruct (m w) as [w1 [a|e]]; [apply Hk | exact Hm].
Qed.

Lemma orderly_held e field :
  PipelineSpec.order_error e = false -> orderly_run (held e field).
Proof. intros He w. unfold held. now destruct (field (manager w)). Qed.

Lemma orderly_getitem df c : orderly (getitem df c).
Proof. unfold getitem. now destruct (position c (names df)). Qed.

Lemma orderly_to_datetime s : orderly (Frame.to_datetime s).
Proof.
  unfold Frame.to_datetime. induction (snd s) as [|c cs IH]; [exact I|].
  cbn [Frame.to_datetime_cells].
  destruct (Frame.to_datetime_cell c) as [d|e] eqn:Ec; cbn [Py.rbind].
  - destruct (Frame.to_datetime_cells cs); [exact I | exact IH].
  - destruct c as [|x|str|t]; cbn in Ec; try discriminate.
    + destruct (PrimFloat.is_nan x); [discriminate|].
      destruct (Float64.to_Z x) as [z|]; [|now injection Ec as <-].
      destruct (_ && _); [discriminate | now injection Ec as <-].
    + now injection Ec as <-.
Qed.

Lemma orderly_set_index df c : orderly (Frame.set_index df c).
Proof. unfold Frame.set_index. now destruct (position c (names df)). Qed.

Lemma orderly_positions cs l : orderly (positions cs l).
Proof.
  induction cs as [|c cs IH]; [exact I|]. cbn [positions].
  destruct (position c l); [|reflexivity].
  destruct (positions cs l); [exact I | exact IH].
Qed.

Lemma orderly_select df cs : orderly (select df cs).
Proof.
  unfold select. pose proof (orderly_positions cs (names df)) as Hp.
  now destruct (positions cs (names df)).
Qed.

Lemma orderly_sort_values df c : orderly (Frame.sort_values df c).
Proof. unfold Frame.sort_values. now destruct (position c (names df)). Qed.

Lemma orderly_monthly_mean `{Numerics} df : orderly (Frame.monthly_mean df).
Proof.
  unfold Frame.monthly_mean. destruct (index df) as [[name []]|]; reflexivity || exact I.
Qed.

Lemma orderly_monthly_mean_by `{Numerics} df by_ : orderly (Frame.monthly_mean_by df by_).
Proof.
  unfold Frame.monthly_mean_by.
  destruct (index df) as [[name []]|], (position by_ (names df));
    try reflexivity; try exact I.
  destruct (_ <? _)%nat; [reflexivity | exact I].
Qed.

Lemma orderly_merge_left left right key : orderly (Merge.merge_left left right key).
Proof.
  unfold Merge.merge_left.
  destruct (position key (names left)), (position key (names right)); try reflexivity.
  destruct (negb _); [reflexivity | exact I].
Qed.

Lemma orderly_convert_dates field set :
  (forall t, orderly_run (set t)) -> orderly_run (DataManager.convert_dates field set).
Proof.
  intros Hset. unfold DataManager.convert_dates.
  apply orderly_bind; [now apply orderly_held|]. intros t.
  apply orderly_bind; [apply orderly_lift, orderly_getitem|]. intros s.
  apply orderly_bind; [apply orderly_lift, orderly_to_datetime|]. intros d.
  apply Hset.
Qed.

Lemma orderly_index_by_date field set :
  (forall t, orderly_run (set t)) -> orderly_run (DataManager.index_by_date field set).
Proof.
  intros Hset. unfold DataManager.index_by_date.
  apply orderly_bind; [now apply orderly_held|]. intros t.
  apply orderly_bind; [apply orderly_lift, orderly_set_index|]. intros t'.
  apply Hset.
Qed.

Lemma orderly_index_dates : orderly_run DataManager.index_dates.
Proof.
  assert (Hset : forall f, orderly_run (set_manager f)).
  { intros f. apply orderly_modify. }
  unfold DataManager.index_dates.
  repeat (apply orderly_bind; [|intros _]);
    first [ apply orderly_convert_dates | apply orderly_index_by_date ];
    intros t; apply Hset.
Qed.

Lemma orderly_setup_temporal_indices : orderly_run DataManager._setup_temporal_indices.
Proof.
  unfold DataManager._setup_temporal_indices.
  repeat (apply orderly_bind;
          [first [ now apply orderly_held | apply orderly_lift, orderly_set_index
                 | apply orderly_modify ]
          |intros ?]).
  apply orderly_modify.
Qed.

End Orderly.

Section SortedDates.

Lemma timed_leb_trans a b c :
  timed a -> timed b -> timed c ->
  cell_leb a b = true -> cell_leb b c = true -> cell_leb a c = true.
Proof.
  destruct a, b, c; simpl; try tauto; try discriminate; intros _ _ _ H1 H2.
  apply Z.leb_le. apply Z.leb_le in H1, H2. lia.
Qed.

Lemma timed_leb_total a b :
  timed a -> timed b -> cell_leb a b = false -> cell_leb b a = true.
Proof.
  destruct a, b; simpl; try tauto; try discriminate; intros _ _ H1.
  apply Z.leb_le. apply Z.leb_gt in H1. lia.
Qed.

Lemma sortedb_StronglySorted {A} (leb : A -> A -> bool) l :
  StronglySorted (fun a b => leb a b = true) l -> Frame.sortedb leb l = true.
Proof.
  induction 1 as [|x l Hs IH Hx]; [reflexivity|].
  destruct l as [|y l']; [reflexivity|].
  change (leb x y && Frame.sortedb leb (y :: l') = true).
  apply Forall_cons_iff in Hx as [Hxy _]. now rewrite Hxy, IH.
Qed.

Lemma StronglySorted_map {A B} (f : A -> B) (R : B -> B -> Prop) l :
  StronglySorted (fun a b => R (f a) (f b)) l -> StronglySorted R (map f l).
Proof.
  induction 1 as [|x l Hs IH Hx]; simpl; constructor; [assumption|].
  apply Forall_forall. intros y Hy. apply in_map_iff in Hy as (a & <- & Ha).
  rewrite Forall_forall in Hx. now apply Hx.
Qed.

(** After [sort_values] a column of timestamps, missing or not, passes the
    test of [merge_asof] on the order of its keys. *)
Lemma sort_values_sortedb df c out n :
  Frame.sort_values df c = Ok out ->
  position c (names df) = Some n ->
  (forall r, In r (rows df) -> timed (cell_at n r)) ->
  Frame.sortedb cell_leb (map (cell_at n) (rows out)) = true.
Proof.
  unfold Frame.sort_values. intros Hsort Hpos Ht. rewrite Hpos in Hsort.
  injection Hsort as <-. cbn [rows].
  apply sortedb_StronglySorted, StronglySorted_map.
  assert (Hs : StronglySorted
                 (fun a b => timed (cell_at n a) /\ timed (cell_at n b)
                             /\ cell_leb (cell_at n a) (cell_at n b) = true)
                 (Frame.stable_sort
                    (fun r1 r2 => cell_leb (cell_at n r1) (cell_at n r2)) (rows df))).
  { apply (stable_sort_sorted _ _
             (fun a b => timed (cell_at n a) /\ timed (cell_at n b))).
    - intros a b c0 (Ha & Hb & Hab) (_ & Hc & Hbc). repeat split; try assumption.
      now apply timed_leb_trans with (b := cell_at n b).
    - intros a b [Ha Hb] Hab. now repeat split.
    - intros a b [Ha Hb] Hab. repeat split; try assumption.
      now apply timed_leb_total.
    - revert Ht. generalize (rows df) as rs.
      induction rs as [|r rs IH]; intros Hd; constructor.
      + apply IH. intros r' Hr'. apply Hd. now right.
      + apply Forall_forall. intros r' Hr'. split; apply Hd; [now left | now right]. }
  clear -Hs. induction Hs as [|a l Hs IH Ha]; constructor; [assumption|].
  eapply Forall_impl; [|exact Ha]. now intros b (_ & _ & Hab).
Qed.

Lemma orderly_merge_asof left right on by_ :
  (forall n, position on (names left) = Some n ->
             Frame.sortedb cell_leb (map (cell_at n) (rows left)) = true) ->
  (forall n, position on (names right) = Some n ->
             Frame.sortedb cell_leb (map (cell_at n) (rows right)) = true) ->
  orderly (Merge.merge_asof left right on by_).
Proof.
  intros Hl Hr. unfold Merge.merge_asof.
  destruct (position on (names left)) as [nl|]; [|reflexivity].
  destruct (position on (names right)) as [nr|]; [|reflexivity].
  rewrite (Hl nl eq_refl), (Hr nr eq_refl). cbn [negb].
  assert (Hby : orderly
                  (match by_ with
                   | None => Ok None
                   | Some b =>
                       match position b (names left), position b (names right) with
                       | Some bl, Some br =>
                           if dtype_eqb (Merge.dtype_at left bl) (Merge.dtype_at right br)
                           then Ok (Some (bl, br))
                           else Merge.merge_error
                                  ("incompatible merge keys, must be the same type: " ++ b)
                       | _, _ => key_error b
                       end
                   end)).
  { destruct by_ as [b|]; [|exact I].
    destruct (position b (names left)), (position b (names right)); try reflexivity.
    destruct (dtype_eqb _ _); [exact I | reflexivity]. }
  destruct (match by_ with None => _ | Some b => _ end) as [bys|e];
    cbn [Py.rbind]; [|exact Hby].
  destruct (_ || _); [reflexivity|].
  destruct (existsb _ (rows left)); [reflexivity|].
  destruct (existsb _ (rows right)); [reflexivity|].
  exact I.
Qed.

End SortedDates.

Section DatedTables.

Context `{Numerics}.

Lemma monthly_mean_by_dates df by_ mm d :
  index df = Some ("date", d) ->
  Frame.monthly_mean_by df by_ = Ok mm ->
  (exists cs, columns mm = ("date", Datetime64) :: cs) /\
  forall r, In r (rows mm) -> exists t vs, values r = Date t :: vs.
Proof.
  unfold Frame.monthly_mean_by. intros Hi Hm. rewrite Hi in Hm.
  destruct d, (position by_ (names df)) as [n|]; try discriminate.
  destruct (_ <? _)%nat; [discriminate|]. injection Hm as <-. cbn [columns rows].
  split; [now eexists|].
  intros r Hr. apply in_map_iff in Hr as (g & <- & _). cbn [values]. now eexists _, _.
Qed.

Lemma monthly_mean_dates df mm d :
  index df = Some ("date", d) ->
  Frame.monthly_mean df = Ok mm ->
  (exists cs, columns mm = ("date", Datetime64) :: cs) /\
  forall r, In r (rows mm) -> exists t vs, values r = Date t :: vs.
Proof.
  unfold Frame.monthly_mean. intros Hi Hm. rewrite Hi in Hm.
  destruct d; try discriminate. injection Hm as <-. cbn [columns rows].
  split; [now eexists|].
  intros r Hr. apply in_map_iff in Hr as (g & <- & _). cbn [values]. now eexists _, _.
Qed.

Lemma sorted_dates df out :
  Frame.sort_values df "date" = Ok out ->
  (exists d cs, columns df = ("date", d) :: cs) ->
  (forall r, In r (rows df) -> exists t vs, values r = Date t :: vs) ->
  (exists d cs, columns out = ("date", d) :: cs) /\
  (forall r, In r (rows out) -> exists t vs, values r = Date t :: vs) /\
  forall n, position "date" (names out) = Some n ->
            Frame.sortedb cell_leb (map (cell_at n) (rows out)) = true.
Proof.
  intros Hs (d & cs & Hc) Hr.
  destruct (sort_values_spec _ _ _ Hs) as [Hcols Hperm].
  split; [rewrite Hcols, Hc; now eexists _, _|].
  split.
  - intros r Hin. apply Hr. eapply Permutation_in; [symmetry; exact Hperm | exact Hin].
  - intros n Hn. unfold names in Hn. rewrite Hcols, Hc in Hn. cbn in Hn.
    injection Hn as <-. apply (sort_values_sortedb df "date"); [assumption | |].
    + unfold names. now rewrite Hc.
    + intros r Hin. destruct (Hr r Hin) as (t & vs & Hv).
      unfold cell_at. rewrite Hv. exact I.
Qed.

End DatedTables.

Section DatedMerges.

Context `{Numerics}.

Lemma merge_asof_dates left right on by_ m :
  Merge.merge_asof left right on by_ = Ok m ->
  (exists d cs, columns left = ("date", d) :: cs) ->
  Merge.mem "date" (on :: Frame.option_list by_) = true ->
  (forall r, In r (rows left) -> exists t vs, values r = Date t :: vs) ->
  (exists d cs, columns m = ("date", d) :: cs) /\
  forall r, In r (rows m) -> exists t vs, values r = Date t :: vs.
Proof.
  intros Hm (d & cs & Hc) Hk Hr.
  destruct (merge_asof_spec _ _ _ _ _ Hm) as (Hcols & ext & Hrows). split.
  - rewrite Hcols.
    destruct (merged_columns_head (on :: Frame.option_list by_) left right _ _ Hc Hk)
      as [cs' ->].
    now eexists _, _.
  - intros r Hin. rewrite Hrows in Hin. apply in_map_iff in Hin as (l & <- & Hl).
    destruct (Hr l Hl) as (t & vs & Hv). cbn [values]. rewrite Hv. now eexists _, _.
Qed.

Lemma merge_left_dates left right key m :
  Merge.merge_left left right key = Ok m ->
  (exists d cs, columns left = ("date", d) :: cs) ->
  (forall r, In r (rows left) -> exists t vs, values r = Date t :: vs) ->
  (forall n, position "date" (names m) = Some n ->
             exists d cs, columns m = ("date", d) :: cs) /\
  forall r, In r (rows m) -> exists t vs, values r = Date t :: vs.
Proof.
  intros Hm (d & cs & Hc) Hr.
  destruct (merge_left_spec _ _ _ _ Hm) as (nl & nr & _ & _ & Hcols & Hrows). split.
  - intros n Hn. apply position_In in Hn. unfold names in Hn. rewrite Hcols in Hn.
    destruct (merged_columns_keep_date [key] left right _ _ Hc Hn) as [cs' Hcs].
    rewrite Hcols, Hcs. now eexists _, _.
  - intros r Hin. destruct (Hrows r Hin) as (l & ext & Hl & Hv & _).
    destruct (Hr l Hl) as (t & vs & Hvl). rewrite Hv, Hvl. now eexists _, _.
Qed.

Lemma orderly_merge_weather_soil w md wd dm dw :
  monitoring_data (manager w) = Some md ->
  weather_data (manager w) = Some wd ->
  index md = Some ("date", dm) ->
  index wd = Some ("date", dw) ->
  orderly (snd (DataManager.merge_weather_soil w)).
Proof.
  intros Hmd Hwd Him Hiw.
  unfold DataManager.merge_weather_soil, Py.bind, held, Py.lift. rewrite Hmd.
  destruct (select md _) as [sel|e] eqn:E1;
    [|pose proof (orderly_select md (Frame.numeric_columns md ++ ["parcelle_id"])) as Ho;
      now rewrite E1 in Ho].
  destruct (Frame.monthly_mean_by sel "parcelle_id") as [mm|e] eqn:E2;
    [|pose proof (orderly_monthly_mean_by sel "parcelle_id") as Ho; now rewrite E2 in Ho].
  rewrite Hwd.
  destruct (select wd _) as [selw|e] eqn:E3;
    [|pose proof (orderly_select wd (Frame.numeric_columns wd)) as Ho;
      now rewrite E3 in Ho].
  destruct (Frame.monthly_mean selw) as [wm|e] eqn:E4;
    [|pose proof (orderly_monthly_mean selw) as Ho; now rewrite E4 in Ho].
  destruct (Frame.sort_values mm "date") as [l|e] eqn:E5;
    [|pose proof (orderly_sort_values mm "date") as Ho; now rewrite E5 in Ho].
  destruct (Frame.sort_values wm "date") as [r|e] eqn:E6;
    [|pose proof (orderly_sort_values wm "date") as Ho; now rewrite E6 in Ho].
  assert (Hsel : index sel = Some ("date", dm)).
  { now rewrite (select_index _ _ _ E1). }
  assert (Hselw : index selw = Some ("date", dw)).
  { now rewrite (select_index _ _ _ E3). }
  destruct (monthly_mean_by_dates _ _ _ _ Hsel E2) as [[cs Hcm] Hrm].
  destruct (monthly_mean_dates _ _ _ Hselw E4) as [[csw Hcw] Hrw].
  destruct (sorted_dates _ _ E5 (ex_intro _ _ (ex_intro _ _ Hcm)) Hrm) as (_ & _ & Hsl).
  destruct (sorted_dates _ _ E6 (ex_intro _ _ (ex_intro _ _ Hcw)) Hrw) as (_ & _ & Hsr).
  destruct (Merge.merge_asof l r "date" None) as [c1|e] eqn:E7;
    [|pose proof (orderly_merge_asof l r "date" None Hsl Hsr) as Ho; now rewrite E7 in Ho].
  destruct (soil_data (manager w)) as [so|]; [|reflexivity].
  apply orderly_merge_left.
Qed.

Lemma merge_weather_soil_dates w w' md dm c2 :
  monitoring_data (manager w) = Some md ->
  index md = Some ("date", dm) ->
  DataManager.merge_weather_soil w = (w', Ok c2) ->
  (forall n, position "date" (names c2) = Some n ->
             exists d cs, columns c2 = ("date", d) :: cs) /\
  forall r, In r (rows c2) -> exists t vs, values r = Date t :: vs.
Proof.
  intros Hmd Him Hrun.
  destruct (merge_weather_soil_inv _ _ _ Hrun)
    as (md0 & sel & mm & l & r & c1 & so & _ & Hmd0 & E1 & E2 & E5 & E7 & _ & E8).
  rewrite Hmd in Hmd0. injection Hmd0 as <-.
  assert (Hsel : index sel = Some ("date", dm)).
  { now rewrite (select_index _ _ _ E1). }
  destruct (monthly_mean_by_dates _ _ _ _ Hsel E2) as [[cs Hcm] Hrm].
  destruct (sorted_dates _ _ E5 (ex_intro _ _ (ex_intro _ _ Hcm)) Hrm) as (Hcl & Hrl & _).
  destruct (merge_asof_dates _ _ _ _ _ E7 Hcl eq_refl Hrl) as [Hc1 Hr1].
  exact (merge_left_dates _ _ _ _ E8 Hc1 Hr1).
Qed.

End DatedMerges.

Section DatedYields.

Context `{Numerics}.

Lemma to_datetime_cells_timed cs ds :
  Frame.to_datetime_cells cs = Ok ds -> Forall timed ds.
Proof.
  revert ds. induction cs as [|c cs IH]; intros ds Hd; cbn in Hd.
  - injection Hd as <-. constructor.
  - destruct (Frame.to_datetime_cell c) as [d|] eqn:Ec; cbn in Hd; [|discriminate].
    destruct (Frame.to_datetime_cells cs) as [ds'|]; cbn in Hd; [|discriminate].
    injection Hd as <-. constructor; [|now apply IH].
    destruct c as [|x|s|t]; cbn in Ec; try discriminate.
    + now injection Ec as <-.
    + destruct (PrimFloat.is_nan x); [now injection Ec as <-|].
      destruct (Float64.to_Z x) as [z|]; [|discriminate].
      destruct (_ && _); [now injection Ec as <- | discriminate].
    + now injection Ec as <-.
Qed.

Lemma nth_set_nth_timed n c vs :
  timed c -> timed (nth n (set_nth n c vs) NA).
Proof.
  intros Hc. revert n. induction vs as [|v vs IH]; intros [|n]; simpl; auto.
Qed.

Lemma dated_cells t t' n :
  dated t = Ok t' ->
  position "date" (names t') = Some n ->
  forall r, In r (rows t') -> timed (cell_at n r).
Proof.
  intros Hd Hn. pose proof (dated_names _ _ Hd) as Hnames.
  unfold dated in Hd.
  destruct (getitem t "date") as [s|] eqn:Eg; cbn in Hd; [|discriminate].
  destruct (Frame.to_datetime s) as [ds|] eqn:Et; cbn in Hd; [|discriminate].
  injection Hd as <-.
  rewrite Hnames in Hn. unfold setitem. rewrite Hn. cbn [rows].
  intros r Hr. apply in_map_iff in Hr as ([r0 c] & <- & Hin).
  unfold cell_at. cbn [values fst snd]. apply nth_set_nth_timed.
  apply in_combine_r in Hin. apply to_datetime_cells_timed in Et.
  rewrite Forall_forall in Et. now apply Et.
Qed.

Lemma select_first df c cs t :
  select df (c :: cs) = Ok t ->
  exists n d rest,
    position c (names df) = Some n /\
    columns t = (c, d) :: rest /\
    forall r, In r (rows t) -> exists r0, In r0 (rows df) /\ cell_at 0 r = cell_at n r0.
Proof.
  intros Hs. pose proof (names_select _ _ _ Hs) as Hn.
  unfold select in Hs. cbn [positions] in Hs.
  destruct (position c (names df)) as [n|] eqn:Ep; [|discriminate].
  destruct (positions cs (names df)) as [ns|]; cbn in Hs; [|discriminate].
  injection Hs as <-. unfold names in Hn. cbn [columns map] in Hn.
  exists n, (snd (nth n (columns df) ("", Object))),
    (map (fun n0 => nth n0 (columns df) ("", Object)) ns).
  split; [reflexivity|]. split.
  - cbn [columns map]. f_equal. injection Hn as Hn _.
    destruct (nth n (columns df) ("", Object)). cbn in *. now subst.
  - cbn [rows]. intros r Hr. apply in_map_iff in Hr as (r0 & <- & Hin).
    exists r0. split; [assumption | reflexivity].
Qed.

Lemma orderly_merge_yield c2 w y :
  yield_history (manager w) = Some y ->
  (forall n, position "date" (names y) = Some n ->
             forall r, In r (rows y) -> timed (cell_at n r)) ->
  (forall n, position "date" (names c2) = Some n ->
             exists d cs, columns c2 = ("date", d) :: cs) ->
  (forall r, In r (rows c2) -> exists t vs, values r = Date t :: vs) ->
  orderly (snd (DataManager.merge_yield c2 w)).
Proof.
  intros Hy Hty Hc2 Hr2.
  unfold DataManager.merge_yield, Py.bind, held, Py.lift, Py.raise. rewrite Hy.
  destruct (has_column y "rendement_estime"); [|reflexivity].
  destruct (Frame.sort_values c2 "date") as [l|e] eqn:E1;
    [|pose proof (orderly_sort_values c2 "date") as Ho; now rewrite E1 in Ho].
  destruct (select y _) as [t|e] eqn:E2;
    [|pose proof (orderly_select y ["date"; "parcelle_id"; "rendement_estime"]) as Ho;
      now rewrite E2 in Ho].
  destruct (Frame.sort_values t "date") as [r|e] eqn:E3;
    [|pose proof (orderly_sort_values t "date") as Ho; now rewrite E3 in Ho].
  assert (Hsl : forall n, position "date" (names l) = Some n ->
                          Frame.sortedb cell_leb (map (cell_at n) (rows l)) = true).
  { assert (Hp : exists n, position "date" (names c2) = Some n).
    { unfold Frame.sort_values in E1.
      destruct (position "date" (names c2)) as [n|]; [now exists n | discriminate]. }
    destruct Hp as [n Hp].
    destruct (sorted_dates _ _ E1 (Hc2 n Hp) Hr2) as (_ & _ & Hs). exact Hs. }
  assert (Hsr : forall n, position "date" (names r) = Some n ->
                          Frame.sortedb cell_leb (map (cell_at n) (rows r)) = true).
  { destruct (select_first _ _ _ _ E2) as (nd & d & rest & Hnd & Hct & Hrt).
    destruct (sort_values_spec _ _ _ E3) as [Hcols _].
    intros n Hn. unfold names in Hn. rewrite Hcols, Hct in Hn. cbn in Hn.
    injection Hn as <-.
    apply (sort_values_sortedb t "date"); [assumption | |].
    - unfold names. now rewrite Hct.
    - intros r0 Hin. destruct (Hrt r0 Hin) as (ry & Hry & ->). now apply (Hty nd). }
  pose proof (orderly_merge_asof l r "date" (Some "parcelle_id") Hsl Hsr) as Ho.
  now destruct (Merge.merge_asof l r "date" (Some "parcelle_id")).
Qed.

End DatedYields.

Section NeverChecked.

Context `{Numerics}.

Lemma prepare_features_raise_inv w w1 e :
  DataManager.prepare_features w = (w1, Raise e) ->
  exists w', DataManager.prepare_features_try w = (w', Raise e).
Proof.
  unfold DataManager.prepare_features, Py.try_except.
  destruct (DataManager.prepare_features_try w) as [w' [t|e0]]; [discriminate|].
  unfold DataManager.prepare_features_except, Py.bind, logging, Py.modify, Py.raise.
  intros Heq. injection Heq as _ <-. now exists w'.
Qed.

Lemma scale_raise_inv merged e :
  DataManager.scale merged = Raise e ->
  PipelineSpec.order_error e = true ->
  exists X, fit_transform X = Raise e.
Proof.
  unfold DataManager.scale. intros Hs He.
  destruct (fit_transform (DataManager.numeric_matrix merged)) as [Y|e0] eqn:Ef;
    cbn [Py.rbind] in Hs.
  - destruct (DataManager.same_shape _ _); [discriminate|].
    injection Hs as <-. cbv in He. discriminate.
  - injection Hs as <-. eexists. exact Ef.
Qed.

Lemma merge_sources_orderly w md wd yd md' wd' yd' so w' e :
  indexed md = Ok md' -> indexed wd = Ok wd' -> dated yd = Ok yd' ->
  manager w = mkManager (Some md') (Some wd') so (Some yd') ->
  DataManager.merge_sources w = (w', Raise e) ->
  PipelineSpec.order_error e = false.
Proof.
  intros Hmd Hwd Hyd Hman Hrun.
  destruct (indexed_spec _ _ Hmd) as (nm & _ & Him & _).
  destruct (indexed_spec _ _ Hwd) as (nw & _ & Hiw & _).
  assert (Hm : monitoring_data (manager w) = Some md') by now rewrite Hman.
  assert (Hw : weather_data (manager w) = Some wd') by now rewrite Hman.
  assert (Hy : yield_history (manager w) = Some yd') by now rewrite Hman.
  unfold DataManager.merge_sources in Hrun.
  apply bind_inv_Raise in Hrun as [Hrun|(w2 & c2 & Hws & Hrun)].
  - pose proof (orderly_merge_weather_soil w md' wd' _ _ Hm Hw Him Hiw) as Ho.
    now rewrite Hrun in Ho.
  - destruct (merge_weather_soil_inv _ _ _ Hws) as (? & ? & ? & ? & ? & ? & ? & -> & _).
    destruct (merge_weather_soil_dates _ _ _ _ _ Hm Him Hws) as [Hc2 Hr2].
    apply bind_inv_Raise in Hrun as [Hrun|(w3 & c3 & Hmy & Hrun)].
    + pose proof (orderly_merge_yield c2 w yd' Hy
                    (fun n Hn => dated_cells _ _ n Hyd Hn) Hc2 Hr2) as Ho.
      now rewrite Hrun in Ho.
    + apply bind_inv_Raise in Hrun as [Hrun|(w4 & [] & _ & Hrun)]; [|discriminate].
      unfold DataManager.check_yield_column in Hrun.
      destruct (negb _); [|discriminate]. now injection Hrun as _ <-.
Qed.

Lemma prepare_features_try_orderly w w' e :
  DataManager.prepare_features_try w = (w', Raise e) ->
  PipelineSpec.order_error e = true ->
  exists X, fit_transform X = Raise e.
Proof.
  unfold DataManager.prepare_features_try. intros Hrun He.
  apply bind_inv_Raise in Hrun as [Hrun|(w2 & [] & Hidx & Hrun)].
  - pose proof (orderly_index_dates w) as Ho. rewrite Hrun in Ho. cbn in Ho. congruence.
  - destruct (index_dates_inv _ _ Hidx)
      as (md & wd & yd & md' & wd' & yd' & _ & _ & _ & Hmd & Hwd & Hyd & ->).
    apply bind_inv_Raise in Hrun as [Hrun|(w3 & merged & _ & Hrun)].
    + assert (Ho : PipelineSpec.order_error e = false).
      { eapply (merge_sources_orderly _ md wd yd md' wd' yd' (soil_data (manager w)));
          [exact Hmd | exact Hwd | exact Hyd | | exact Hrun]. reflexivity. }
      congruence.
    + apply bind_inv_Raise in Hrun as [Hrun|(w4 & t & _ & Hrun)].
      * apply lift_inv in Hrun as [_ Hs]. symmetry in Hs.
        now apply (scale_raise_inv merged).
      * apply bind_inv_Raise in Hrun as [Hrun|(w5 & [] & _ & Hrun)]; discriminate.
Qed.

End NeverChecked.

(** C7 (what the code does).  [prepare_features] never runs the temporal
    consistency check, and the order of the dates never stops it: none of
    the errors it raises is one of the three errors of
    [_verify_temporal_consistency], nor one of the two errors by which
    [merge_asof] refuses keys that are not sorted (the monthly tables are
    sorted by [sort_values] before each merge), unless the scaler of
    scikit-learn itself raised that very error.  When it returns, the held
    monitoring and weather tables are the loaded ones, indexed by their
    dates in the order of their rows; if one of these indices is not
    monotonic the check, run then, raises the error the preparation never
    raised.  [_setup_temporal_indices] does not verify the order either:
    it raises none of these errors. *)
Theorem prepare_features_never_checks_the_date_order `{Numerics} (w w1 : World) :
  (forall e,
      DataManager.prepare_features w = (w1, Raise e) ->
      PipelineSpec.order_error e = true ->
      exists X, fit_transform X = Raise e) /\
  (forall t,
      DataManager.prepare_features w = (w1, Ok t) ->
      exists m wt y m1 wt1 y1,
        monitoring_data (manager w) = Some m /\
        weather_data (manager w) = Some wt /\
        yield_history (manager w) = Some y /\
        indexed m = Ok m1 /\ indexed wt = Ok wt1 /\ dated y = Ok y1 /\
        manager w1 = mkManager (Some m1) (Some wt1) (soil_data (manager w)) (Some y1) /\
        (PipelineSpec.consistent m1 wt1 y1 = false ->
         exists msg,
           DataManager._verify_temporal_consistency w1 = (w1, Raise (ValueError msg)) /\
           PipelineSpec.order_error (ValueError msg) = true)) /\
  (forall e,
      DataManager._setup_temporal_indices w = (w1, Raise e) ->
      PipelineSpec.order_error e = false).
Proof.
  split; [|split].
  - intros e Hrun He. destruct (prepare_features_raise_inv _ _ _ Hrun) as [w' Htry].
    now apply (prepare_features_try_orderly w w').
  - intros t Hrun.
    destruct (prepare_features_inv _ _ _ Hrun)
      as (w2 & w3 & merged & Hidx & _ & _ & _ & Hman).
    destruct (index_dates_inv _ _ Hidx)
      as (m & wt & y & m1 & wt1 & y1 & Hm & Hwt & Hy & Him & Hiw & Hdy & ->).
    cbn [manager] in Hman.
    exists m, wt, y, m1, wt1, y1. repeat (split; [assumption|]).
    intros Hc.
    rewrite (verify_temporal_consistency_run w1 m1 wt1 y1) by now rewrite Hman.
    unfold PipelineSpec.consistent in Hc.
    destruct (DataManager.is_monotonic m1); cbn [negb];
      [|eexists; split; reflexivity].
    destruct (DataManager.is_monotonic wt1); cbn [negb];
      [|eexists; split; reflexivity].
    destruct (DataManager.is_monotonic y1); cbn [negb];
      [discriminate | eexists; split; reflexivity].
  - intros e Hrun. pose proof (orderly_setup_temporal_indices w) as Ho.
    now rewrite Hrun in Ho.
Qed.
